(** * Student record service (DB2.js): validation and CRUD handlers

    A shallow embedding of the six Express handlers of [DB2.js] and of the
    Mongoose model [Student] they call.  The handlers and the schema are
    transcribed from the source file; the Mongoose operations the handlers
    call ([find], [findById], [create], [findByIdAndUpdate],
    [findByIdAndDelete]) are interpreted over a collection held as a list of
    documents, following the library's pipeline for the options the schema
    declares:
    - assignment to a path runs the setters of the path ([trim],
      [lowercase]) and casts the value to the type of the path;
    - [create] builds the document, applies the defaults, records every
      cast failure and the first failing validator of every path in one
      validation error, and only then inserts, where the unique indexes on
      [_id] and [email] may reject the document with code 11000; an [_id]
      and a [createdAt] that the payload sends are kept, and [updatedAt] of
      a new document is its [createdAt];
    - [findByIdAndUpdate] casts the identifier, then casts the update (a
      failure is thrown as a cast error), then runs the validators of the
      updated paths, then looks the document up and writes it; a payload
      [createdAt] is dropped (the path is immutable), a payload [updatedAt]
      is overwritten with the time of the update, and an [_id] that differs
      from the stored one is refused by the store;
    - a query filter is cast by the schema as well, which runs the setters
      of the path.

    Scope of the model:
    - strings are ASCII text; numbers are integers (dates are integer
      milliseconds); a request body is read at the paths of the schema (the
      six declared ones, [_id], and the two that [timestamps] adds), each
      absent or holding a JSON scalar, [_id] a string; update operators
      (keys that start with a dollar sign) are not modelled;
    - JavaScript coercions whose result is fixed by the language runtime and
      not by this repository (number parsing, number printing, date parsing,
      the ObjectId format, the wording of cast failures) are fields of a
      [Runtime] record that every operation takes as an argument;
    - the two clock readings of a request, the freshly generated ObjectId
      and the order in which a validation error lists its entries (it
      follows the key order of the body, which is not modelled) are inputs
      of the request that needs them;
    - a store that cannot be reached is not modelled, so the read handlers
      never take their 500 branch. *)

From Stdlib Require Import ZArith NArith List String Ascii Bool Lia.
From Stdlib Require Import Permutation Sorted DecimalString.
Import ListNotations.

Local Open Scope string_scope.
Local Open Scope Z_scope.
Local Open Scope list_scope.

(* ================================================================== *)
(** ** JavaScript strings *)

Module JS.

(** Characters removed by [String.prototype.trim] (TAB, LF, VT, FF, CR,
    SPACE). *)
Definition isWhiteSpace (c : ascii) : bool :=
  let n := nat_of_ascii c in
  (((9 <=? n) && (n <=? 13)) || (n =? 32))%nat.

Fixpoint trimStart (s : string) : string :=
  match s with
  | EmptyString => EmptyString
  | String c r => if isWhiteSpace c then trimStart r else s
  end.

Fixpoint trimEnd (s : string) : string :=
  match s with
  | EmptyString => EmptyString
  | String c r =>
      match trimEnd r with
      | EmptyString => if isWhiteSpace c then EmptyString
                       else String c EmptyString
      | r' => String c r'
      end
  end.

Definition trim (s : string) : string := trimEnd (trimStart s).

Definition lowerChar (c : ascii) : ascii :=
  let n := nat_of_ascii c in
  if ((65 <=? n) && (n <=? 90))%nat then ascii_of_nat (n + 32) else c.

Fixpoint toLowerCase (s : string) : string :=
  match s with
  | EmptyString => EmptyString
  | String c r => String (lowerChar c) (toLowerCase r)
  end.

(** [\w] of a regular expression without the unicode flag. *)
Definition isWord (c : ascii) : bool :=
  let n := nat_of_ascii c in
  (((48 <=? n) && (n <=? 57)) || ((65 <=? n) && (n <=? 90))
   || ((97 <=? n) && (n <=? 122)) || (n =? 95))%nat.

Definition isChar (a c : ascii) : bool := Ascii.eqb a c.

(** [[.-]] *)
Definition isDotOrDash (c : ascii) : bool :=
  Ascii.eqb c "."%char || Ascii.eqb c "-"%char.

End JS.

(* ================================================================== *)
(** ** Regular expressions *)

Module Regex.

Inductive regex : Type :=
| Void
| Eps
| Class (p : ascii -> bool)
| Cat (r1 r2 : regex)
| Alt (r1 r2 : regex)
| Star (r : regex).

(** [r?], [r+] *)
Definition Opt (r : regex) : regex := Alt Eps r.
Definition Plus (r : regex) : regex := Cat r (Star r).

(** The strings a pattern denotes. *)
Inductive denotes : regex -> string -> Prop :=
| DEps : denotes Eps EmptyString
| DClass p c : p c = true -> denotes (Class p) (String c EmptyString)
| DCat r1 r2 s1 s2 :
    denotes r1 s1 -> denotes r2 s2 -> denotes (Cat r1 r2) (s1 ++ s2)%string
| DAltL r1 r2 s : denotes r1 s -> denotes (Alt r1 r2) s
| DAltR r1 r2 s : denotes r2 s -> denotes (Alt r1 r2) s
| DStarNil r : denotes (Star r) EmptyString
| DStarCons r s1 s2 :
    denotes r s1 -> denotes (Star r) s2 ->
    denotes (Star r) (s1 ++ s2)%string.

Fixpoint nullable (r : regex) : bool :=
  match r with
  | Void => false
  | Eps => true
  | Class _ => false
  | Cat r1 r2 => nullable r1 && nullable r2
  | Alt r1 r2 => nullable r1 || nullable r2
  | Star _ => true
  end.

(** Constructors that absorb [Void] and [Eps], to keep derivatives small. *)
Definition mkCat (r1 r2 : regex) : regex :=
  match r1, r2 with
  | Void, _ => Void
  | _, Void => Void
  | Eps, _ => r2
  | _, _ => Cat r1 r2
  end.

Definition mkAlt (r1 r2 : regex) : regex :=
  match r1, r2 with
  | Void, _ => r2
  | _, Void => r1
  | _, _ => Alt r1 r2
  end.

Fixpoint deriv (c : ascii) (r : regex) : regex :=
  match r with
  | Void => Void
  | Eps => Void
  | Class p => if p c then Eps else Void
  | Cat r1 r2 =>
      if nullable r1
      then mkAlt (mkCat (deriv c r1) r2) (deriv c r2)
      else mkCat (deriv c r1) r2
  | Alt r1 r2 => mkAlt (deriv c r1) (deriv c r2)
  | Star r1 => mkCat (deriv c r1) (Star r1)
  end.

(** Whole-string match: the pattern between [^] and [$]. *)
Fixpoint matches (r : regex) (s : string) : bool :=
  match s with
  | EmptyString => nullable r
  | String c s' => matches (deriv c r) s'
  end.

End Regex.

(* ================================================================== *)
(** ** JSON values, the language runtime and thrown errors *)

(** A JSON scalar found at a path of [req.body]. *)
Inductive jvalue : Type :=
| JNull
| JBool (b : bool)
| JNum (n : Z)
| JStr (s : string).

Definition ObjectId : Type := N.

(** What the language runtime and the database driver fix, and this
    repository does not:
    - [Number_of_string s] is [Number(s)], [None] standing for [NaN];
    - [String_of_number n] is [String(n)];
    - [Date_of_string s] is [new Date(s).valueOf()], [None] standing for an
      invalid date;
    - [castObjectId s] is the ObjectId a string denotes, [None] when the
      string is not in the identifier format;
    - [castErrorMessage kind v path] is the text of the cast failure of
      value [v] to [kind] at [path];
    - [enumAcceptsNull] tells whether an [enum] validator lets [null] pass. *)
Record Runtime : Type := {
  Number_of_string : string -> option Z;
  String_of_number : Z -> string;
  Date_of_string : string -> option Z;
  castObjectId : string -> option ObjectId;
  castErrorMessage : string -> jvalue -> string -> string;
  enumAcceptsNull : bool
}.

(** The per-request inputs that are not read from the payload: [now] is
    the time the library stamps on a saved or updated document, [built] is
    [Date.now()] as read when a new document is constructed (the default of
    [enrollmentDate]), [newObjectId] is the ObjectId generated for a new
    document, and [arrange] is the order in which a validation error lists
    the entries it has collected. *)
Record Context : Type := {
  now : Z;
  built : Z;
  newObjectId : ObjectId;
  arrange : list (string * string) -> list (string * string);
  arrange_perm : forall l, Permutation l (arrange l)
}.

(** The errors the model operations throw; [errors] of a validation error
    maps each failing path to its message. *)
Inductive Error : Type :=
| CastError (path : string) (msg : string)
| ValidationError (errs : list (string * string))
| MongoServerError (code : Z) (msg : string).

Definition error_name (e : Error) : string :=
  match e with
  | CastError _ _ => "CastError"
  | ValidationError _ => "ValidationError"
  | MongoServerError _ _ => "MongoServerError"
  end.

Definition error_code (e : Error) : option Z :=
  match e with
  | MongoServerError c _ => Some c
  | _ => None
  end.

Definition error_message (e : Error) : string :=
  match e with
  | CastError _ m => m
  | ValidationError _ => "Student validation failed"
  | MongoServerError _ m => m
  end.

Definition error_errors (e : Error) : list (string * string) :=
  match e with
  | ValidationError errs => errs
  | _ => []
  end.

(** A computation that returns or throws. *)
Definition Result (A : Type) : Type := (Error + A)%type.
Definition ret {A : Type} (a : A) : Result A := inr a.
Definition throw {A : Type} (e : Error) : Result A := inl e.
Definition bind {A B : Type} (m : Result A) (k : A -> Result B) : Result B :=
  match m with
  | inl e => inl e
  | inr a => k a
  end.

Notation "x <- m ;; k" := (bind m (fun x => k))
  (at level 61, m at next level, right associativity).

(* ================================================================== *)
(** ** Schema types *)

(** The value of a document path: never assigned, [null], or a value. *)
Inductive Field (A : Type) : Type :=
| Undefined
| Null
| Value (a : A).
Arguments Undefined {A}.
Arguments Null {A}.
Arguments Value {A} a.

(** What is written to the collection. *)
Definition stored {A : Type} (f : Field A) : option A :=
  match f with
  | Value a => Some a
  | _ => None
  end.

(** A message template: literal text and the [{VALUE}] placeholder. *)
Inductive part : Type :=
| Lit (s : string)
| VALUE.

Fixpoint render (tpl : list part) (value : string) : string :=
  match tpl with
  | [] => ""
  | Lit s :: r => (s ++ render r value)%string
  | VALUE :: r => (value ++ render r value)%string
  end.

(** Options of a [String] path. *)
Record SchemaString : Type := {
  s_required : option string;
  s_trim : bool;
  s_lowercase : bool;
  s_minlength : option (nat * string);
  s_maxlength : option (nat * string);
  s_enum : option (list string * list part);
  s_match : option (Regex.regex * string);
  s_unique : bool;
  s_default : option string
}.

(** Options of a [Number] path. *)
Record SchemaNumber : Type := {
  n_required : option string;
  n_min : option (Z * string);
  n_max : option (Z * string)
}.

(** Options of a [Date] path; its only default in this schema is
    [Date.now]. *)
Record SchemaDate : Type := {
  d_default_now : bool
}.

Record Schema : Type := {
  p_name : SchemaString;
  p_age : SchemaNumber;
  p_course : SchemaString;
  p_email : SchemaString;
  p_grade : SchemaString;
  p_enrollmentDate : SchemaDate;
  o_timestamps : bool
}.

(** [/^\w+([.-]?\w+)*@\w+([.-]?\w+)*(\.\w{2,3})+$/] *)
Definition emailPattern : Regex.regex :=
  let w := Regex.Class JS.isWord in
  let words :=
    Regex.Cat (Regex.Plus w)
      (Regex.Star (Regex.Cat (Regex.Opt (Regex.Class JS.isDotOrDash))
                             (Regex.Plus w))) in
  Regex.Cat words
    (Regex.Cat (Regex.Class (JS.isChar "@"%char))
       (Regex.Cat words
          (Regex.Plus
             (Regex.Cat (Regex.Class (JS.isChar "."%char))
                (Regex.Cat w (Regex.Cat w (Regex.Opt w))))))).

Definition courseValues : list string :=
  ["Computer Science"; "Mathematics"; "Physics"; "Chemistry"; "Biology";
   "Engineering"; "Business"; "Arts"].

Definition gradeValues : list string := ["A"; "B"; "C"; "D"; "F"].

(** The schema of DB2.js, lines 19-60.  [grade] declares no enum message,
    so it carries the library's default template. *)
Definition studentSchema : Schema := {|
  p_name := {|
    s_required := Some "Student name is required";
    s_trim := true;
    s_lowercase := false;
    s_minlength := Some (2%nat, "Name must be at least 2 characters long");
    s_maxlength := Some (50%nat, "Name cannot exceed 50 characters");
    s_enum := None;
    s_match := None;
    s_unique := false;
    s_default := None |};
  p_age := {|
    n_required := Some "Student age is required";
    n_min := Some (16, "Age must be at least 16");
    n_max := Some (100, "Age cannot exceed 100") |};
  p_course := {|
    s_required := Some "Course is required";
    s_trim := true;
    s_lowercase := false;
    s_minlength := None;
    s_maxlength := None;
    s_enum := Some (courseValues, [VALUE; Lit " is not a valid course"]);
    s_match := None;
    s_unique := false;
    s_default := None |};
  p_email := {|
    s_required := Some "Email is required";
    s_trim := false;
    s_lowercase := true;
    s_minlength := None;
    s_maxlength := None;
    s_enum := None;
    s_match := Some (emailPattern, "Please enter a valid email");
    s_unique := true;
    s_default := None |};
  p_grade := {|
    s_required := None;
    s_trim := false;
    s_lowercase := false;
    s_minlength := None;
    s_maxlength := None;
    s_enum := Some (gradeValues,
                    [Lit "`"; VALUE;
                     Lit "` is not a valid enum value for path `grade`."]);
    s_match := None;
    s_unique := false;
    s_default := Some "C" |};
  p_enrollmentDate := {| d_default_now := true |};
  o_timestamps := true
|}.

(* ================================================================== *)
(** ** Casting, setters and validators *)

Module SchemaType.

(** Casters return [None] when the library throws a cast error. *)
Definition castString (rt : Runtime) (v : jvalue) : option (Field string) :=
  match v with
  | JNull => Some Null
  | JBool b => Some (Value (if b then "true" else "false"))
  | JNum n => Some (Value (String_of_number rt n))
  | JStr s => Some (Value s)
  end.

Definition castNumber (rt : Runtime) (v : jvalue) : option (Field Z) :=
  match v with
  | JNull => Some Null
  | JBool b => Some (Value (if b then 1 else 0))
  | JNum n => Some (Value n)
  | JStr EmptyString => Some Null
  | JStr s =>
      match Number_of_string rt s with
      | Some n => Some (Value n)
      | None => None
      end
  end.

(** The time values a [Date] can hold. *)
Definition validTime (t : Z) : bool :=
  (-8640000000000000 <=? t) && (t <=? 8640000000000000).

Definition dateOfNumber (n : Z) : option (Field Z) :=
  if validTime n then Some (Value n) else None.

Definition castDate (rt : Runtime) (v : jvalue) : option (Field Z) :=
  match v with
  | JNull => Some Null
  | JBool _ => None
  | JNum n => dateOfNumber n
  | JStr EmptyString => Some Null
  | JStr s =>
      let parsed :=
        match Date_of_string rt s with
        | Some t => dateOfNumber t
        | None => None
        end in
      match Number_of_string rt s with
      | Some n =>
          if (275761 <=? n) || (n <? -271820) then dateOfNumber n
          else parsed
      | None => parsed
      end
  end.

(** The [trim] and [lowercase] setters of a string path. *)
Definition applySetters (t : SchemaString) (s : string) : string :=
  let s1 := if s_trim t then JS.trim s else s in
  if s_lowercase t then JS.toLowerCase s1 else s1.

(** Setters followed by the cast, as on assignment to a document path and
    on casting an update or a query filter. *)
Definition setString (rt : Runtime) (t : SchemaString) (v : jvalue)
  : option (Field string) :=
  match castString rt v with
  | Some (Value s) => Some (Value (applySetters t s))
  | other => other
  end.

Definition castForQuery (t : SchemaString) (s : string) : string :=
  applySetters t s.

Definition mem (s : string) (l : list string) : bool :=
  existsb (String.eqb s) l.

(** The validators of a string path, in declaration order; the result is
    the message of the first one that fails. *)
Definition validateString (rt : Runtime) (t : SchemaString)
           (f : Field string) : option string :=
  let required :=
    match s_required t, f with
    | Some msg, Undefined => Some msg
    | Some msg, Null => Some msg
    | Some msg, Value EmptyString => Some msg
    | _, _ => None
    end in
  let minlength :=
    match s_minlength t, f with
    | Some (n, msg), Value s =>
        if (n <=? String.length s)%nat then None else Some msg
    | _, _ => None
    end in
  let maxlength :=
    match s_maxlength t, f with
    | Some (n, msg), Value s =>
        if (String.length s <=? n)%nat then None else Some msg
    | _, _ => None
    end in
  let enum :=
    match s_enum t, f with
    | Some (values, tpl), Value s =>
        if mem s values then None else Some (render tpl s)
    | Some (values, tpl), Null =>
        if enumAcceptsNull rt then None else Some (render tpl "null")
    | _, _ => None
    end in
  let matched :=
    match s_match t, f with
    | Some (re, msg), Value EmptyString => None
    | Some (re, msg), Value s =>
        if Regex.matches re s then None else Some msg
    | _, _ => None
    end in
  match required, minlength, maxlength, enum, matched with
  | Some m, _, _, _, _ => Some m
  | None, Some m, _, _, _ => Some m
  | None, None, Some m, _, _ => Some m
  | None, None, None, Some m, _ => Some m
  | None, None, None, None, r => r
  end.

Definition validateNumber (t : SchemaNumber) (f : Field Z) : option string :=
  let required :=
    match n_required t, f with
    | Some msg, Undefined => Some msg
    | Some msg, Null => Some msg
    | _, _ => None
    end in
  let min :=
    match n_min t, f with
    | Some (lo, msg), Value n => if lo <=? n then None else Some msg
    | _, _ => None
    end in
  let max :=
    match n_max t, f with
    | Some (hi, msg), Value n => if n <=? hi then None else Some msg
    | _, _ => None
    end in
  match required, min, max with
  | Some m, _, _ => Some m
  | None, Some m, _ => Some m
  | None, None, r => r
  end.

End SchemaType.

(* ================================================================== *)
(** ** Documents, request and response *)

(** A stored student; [None] is a path that holds no value. *)
Record Document : Type := {
  _id : ObjectId;
  name : option string;
  age : option Z;
  course : option string;
  email : option string;
  grade : option string;
  enrollmentDate : option Z;
  createdAt : Z;
  updatedAt : Z
}.

Definition Collection : Type := list Document.

(** [req.body], read at the paths of the schema; [None] is a missing key.
    [_id] is a path of every schema, [createdAt] and [updatedAt] are the
    paths that [timestamps: true] adds. *)
Record Body : Type := {
  body_name : option jvalue;
  body_age : option jvalue;
  body_course : option jvalue;
  body_email : option jvalue;
  body_grade : option jvalue;
  body_enrollmentDate : option jvalue;
  body__id : option string;
  body_createdAt : option jvalue;
  body_updatedAt : option jvalue
}.

Record Params : Type := {
  id : string;
  course_param : string
}.

Record Request : Type := {
  params : Params;
  body : Body
}.

Inductive Data : Type :=
| One (d : Document)
| Many (l : list Document)
| EmptyObject.

(** The JSON envelope passed to [res.status(...).json(...)]. *)
Record Response : Type := {
  status : Z;
  success : bool;
  message : option string;
  count : option nat;
  data : option Data;
  errors : option (list string);
  error : option string
}.

(* ================================================================== *)
(** ** The model [Student = mongoose.model('Student', studentSchema)] *)

Module Student.
Import SchemaType.

Definition opt_string_eqb (a b : option string) : bool :=
  match a, b with
  | Some x, Some y => String.eqb x y
  | None, None => true
  | _, _ => false
  end.

(** The outcome of one path of a new document: its value, or the message
    recorded for it in the validation error. *)
Definition pathString (rt : Runtime) (t : SchemaString) (path : string)
           (v : option jvalue) : string + Field string :=
  let checked f :=
    match validateString rt t f with
    | Some msg => inl msg
    | None => inr f
    end in
  match v with
  | None =>
      checked (match s_default t with
               | Some d => Value d
               | None => Undefined
               end)
  | Some j =>
      match setString rt t j with
      | None => inl (castErrorMessage rt "String" j path)
      | Some f => checked f
      end
  end.

Definition pathNumber (rt : Runtime) (t : SchemaNumber) (path : string)
           (v : option jvalue) : string + Field Z :=
  let checked f :=
    match validateNumber t f with
    | Some msg => inl msg
    | None => inr f
    end in
  match v with
  | None => checked Undefined
  | Some j =>
      match castNumber rt j with
      | None => inl (castErrorMessage rt "Number" j path)
      | Some f => checked f
      end
  end.

Definition pathDate (rt : Runtime) (cx : Context) (t : SchemaDate)
           (path : string) (v : option jvalue) : string + Field Z :=
  match v with
  | None => inr (if d_default_now t then Value (built cx) else Undefined)
  | Some j =>
      match castDate rt j with
      | None => inl (castErrorMessage rt "date" j path)
      | Some f => inr f
      end
  end.

Definition failure {A : Type} (path : string) (r : string + A)
  : list (string * string) :=
  match r with
  | inl msg => [(path, msg)]
  | inr _ => []
  end.

(** The unique indexes of the collection: [_id] and [email]. *)
Definition conflicts (d : Document) (db : Collection) : bool :=
  existsb (fun x => N.eqb (_id x) (_id d)
                    || opt_string_eqb (email x) (email d)) db.

Definition duplicateKey : Error :=
  MongoServerError 11000 "E11000 duplicate key error".

(** The [Date] paths [createdAt] and [updatedAt] that [timestamps: true]
    adds to the schema; they have no default of their own. *)
Definition timestampPath : SchemaDate := {| d_default_now := false |}.

(** The [_id] of a new document: the payload's, cast to an ObjectId, or the
    generated one. *)
Definition pathId (rt : Runtime) (cx : Context) (v : option string)
  : string + ObjectId :=
  match v with
  | None => inr (newObjectId cx)
  | Some s =>
      match castObjectId rt s with
      | None => inl (castErrorMessage rt "ObjectId" (JStr s) "_id")
      | Some oid => inr oid
      end
  end.

(** What building and validating a new document records, path by path. *)
Definition failures (rt : Runtime) (cx : Context) (b : Body)
  : list (string * string) :=
  failure "name" (pathString rt (p_name studentSchema) "name" (body_name b))
  ++ failure "age" (pathNumber rt (p_age studentSchema) "age" (body_age b))
  ++ failure "course"
       (pathString rt (p_course studentSchema) "course" (body_course b))
  ++ failure "email"
       (pathString rt (p_email studentSchema) "email" (body_email b))
  ++ failure "grade"
       (pathString rt (p_grade studentSchema) "grade" (body_grade b))
  ++ failure "enrollmentDate"
       (pathDate rt cx (p_enrollmentDate studentSchema) "enrollmentDate"
                 (body_enrollmentDate b))
  ++ failure "_id" (pathId rt cx (body__id b))
  ++ failure "createdAt"
       (pathDate rt cx timestampPath "createdAt" (body_createdAt b))
  ++ failure "updatedAt"
       (pathDate rt cx timestampPath "updatedAt" (body_updatedAt b)).

(** [new Student(body)] followed by the timestamps of a new document: the
    document that is about to be saved, when no path has failed.  A
    [createdAt] of the payload is kept, otherwise it is the time of the
    save; [updatedAt] is set to [createdAt]. *)
Definition document (rt : Runtime) (cx : Context) (b : Body)
  : option Document :=
  let rn := pathString rt (p_name studentSchema) "name" (body_name b) in
  let ra := pathNumber rt (p_age studentSchema) "age" (body_age b) in
  let rc := pathString rt (p_course studentSchema) "course" (body_course b) in
  let re := pathString rt (p_email studentSchema) "email" (body_email b) in
  let rg := pathString rt (p_grade studentSchema) "grade" (body_grade b) in
  let rd := pathDate rt cx (p_enrollmentDate studentSchema) "enrollmentDate"
                     (body_enrollmentDate b) in
  let ri := pathId rt cx (body__id b) in
  let rs := pathDate rt cx timestampPath "createdAt" (body_createdAt b) in
  let ru := pathDate rt cx timestampPath "updatedAt" (body_updatedAt b) in
  match rn, ra, rc, re, rg, rd, ri, rs, ru with
  | inr fn, inr fa, inr fc, inr fe, inr fg, inr fd, inr oid, inr fs, inr _ =>
      let created := match stored fs with
                     | Some t => t
                     | None => now cx
                     end in
      Some {| _id := oid;
              name := stored fn;
              age := stored fa;
              course := stored fc;
              email := stored fe;
              grade := stored fg;
              enrollmentDate := stored fd;
              createdAt := created;
              updatedAt := created |}
  | _, _, _, _, _, _, _, _, _ => None
  end.

(** [Student.create(body)]: build the document (cast, setters, defaults),
    validate every path, then insert. *)
Definition create (rt : Runtime) (cx : Context) (b : Body) (db : Collection)
  : Result (Collection * Document) :=
  match document rt cx b with
  | Some doc =>
      if conflicts doc db then throw duplicateKey
      else ret (db ++ [doc], doc)
  | None => throw (ValidationError (arrange cx (failures rt cx b)))
  end.

(** [Student.find().sort({ createdAt: -1 })] *)
Fixpoint insertDesc (d : Document) (l : list Document) : list Document :=
  match l with
  | [] => [d]
  | x :: r =>
      if createdAt x <? createdAt d then d :: l else x :: insertDesc d r
  end.

Definition sortByCreatedAtDesc (l : list Document) : list Document :=
  fold_right insertDesc [] l.

Definition find_sorted (db : Collection) : Result (list Document) :=
  ret (sortByCreatedAtDesc db).

(** [Student.find({ course: c })]: the filter is cast by the schema, which
    runs the setters of the path, then matched by equality. *)
Definition find_by_course (c : string) (db : Collection)
  : Result (list Document) :=
  let c' := castForQuery (p_course studentSchema) c in
  ret (filter (fun d => opt_string_eqb (course d) (Some c')) db).

Definition lookup (oid : ObjectId) (db : Collection) : option Document :=
  find (fun d => N.eqb (_id d) oid) db.

(** [Student.findById(id)] *)
Definition findById (rt : Runtime) (i : string) (db : Collection)
  : Result (option Document) :=
  match castObjectId rt i with
  | None => throw (CastError "_id" (castErrorMessage rt "ObjectId" (JStr i) "_id"))
  | Some oid => ret (lookup oid db)
  end.

(** One path of an update document. *)
Inductive Change (A : Type) : Type :=
| Keep
| Set_ (f : Field A).
Arguments Keep {A}.
Arguments Set_ {A} f.

Definition change {A : Type} (c : Change A) (old : option A) : option A :=
  match c with
  | Keep => old
  | Set_ f => stored f
  end.

Definition castUpdate {A : Type} (cast : jvalue -> option (Field A))
           (rt : Runtime) (kind path : string) (v : option jvalue)
  : Result (Change A) :=
  match v with
  | None => ret Keep
  | Some j =>
      match cast j with
      | None => throw (CastError path (castErrorMessage rt kind j path))
      | Some f => ret (Set_ f)
      end
  end.

Definition updateFailure {A : Type} (validate : Field A -> option string)
           (path : string) (c : Change A) : list (string * string) :=
  match c with
  | Keep => []
  | Set_ f =>
      match validate f with
      | Some msg => [(path, msg)]
      | None => []
      end
  end.

Fixpoint replace (d : Document) (db : Collection) : Collection :=
  match db with
  | [] => []
  | x :: r => if N.eqb (_id x) (_id d) then d :: r else x :: replace d r
  end.

Fixpoint remove (oid : ObjectId) (db : Collection) : Collection :=
  match db with
  | [] => []
  | x :: r => if N.eqb (_id x) oid then r else x :: remove oid r
  end.

(** The unique index on [email], for a document that is already stored. *)
Definition emailTaken (d : Document) (db : Collection) : bool :=
  existsb (fun x => negb (N.eqb (_id x) (_id d))
                    && opt_string_eqb (email x) (email d)) db.

(** The [_id] of an update document, cast to an ObjectId. *)
Definition castUpdateId (rt : Runtime) (v : option string)
  : Result (option ObjectId) :=
  match v with
  | None => ret None
  | Some s =>
      match castObjectId rt s with
      | None =>
          throw (CastError "_id" (castErrorMessage rt "ObjectId" (JStr s) "_id"))
      | Some oid => ret (Some oid)
      end
  end.

(** The store refuses an update that would change [_id]. *)
Definition changesId (u : option ObjectId) (d : Document) : bool :=
  match u with
  | Some oid => negb (N.eqb oid (_id d))
  | None => false
  end.

Definition immutableField : Error :=
  MongoServerError 66 "an update on the path _id would modify the immutable field _id".

(** [Student.findByIdAndUpdate(id, body, { new: true, runValidators: true })]:
    cast the filter, cast the update, run the validators of the updated
    paths, then find the document and write it.  [createdAt] and
    [updatedAt] of the payload are not read: the first is immutable, the
    second is overwritten by the time of the update. *)
Definition findByIdAndUpdate (rt : Runtime) (cx : Context) (i : string)
           (b : Body) (db : Collection)
  : Result (Collection * option Document) :=
  match castObjectId rt i with
  | None => throw (CastError "_id" (castErrorMessage rt "ObjectId" (JStr i) "_id"))
  | Some oid =>
      ui <- castUpdateId rt (body__id b) ;;
      un <- castUpdate (setString rt (p_name studentSchema)) rt
              "String" "name" (body_name b) ;;
      ua <- castUpdate (castNumber rt) rt "Number" "age" (body_age b) ;;
      uc <- castUpdate (setString rt (p_course studentSchema)) rt
              "String" "course" (body_course b) ;;
      ue <- castUpdate (setString rt (p_email studentSchema)) rt
              "String" "email" (body_email b) ;;
      ug <- castUpdate (setString rt (p_grade studentSchema)) rt
              "String" "grade" (body_grade b) ;;
      ud <- castUpdate (castDate rt) rt "date" "enrollmentDate"
              (body_enrollmentDate b) ;;
      let errs :=
        updateFailure (validateString rt (p_name studentSchema)) "name" un
        ++ updateFailure (validateNumber (p_age studentSchema)) "age" ua
        ++ updateFailure (validateString rt (p_course studentSchema))
             "course" uc
        ++ updateFailure (validateString rt (p_email studentSchema))
             "email" ue
        ++ updateFailure (validateString rt (p_grade studentSchema))
             "grade" ug in
      match errs with
      | _ :: _ => throw (ValidationError (arrange cx errs))
      | [] =>
          match lookup oid db with
          | None => ret (db, None)
          | Some old =>
              let doc := {| _id := _id old;
                            name := change un (name old);
                            age := change ua (age old);
                            course := change uc (course old);
                            email := change ue (email old);
                            grade := change ug (grade old);
                            enrollmentDate := change ud (enrollmentDate old);
                            createdAt := createdAt old;
                            updatedAt := now cx |} in
              if changesId ui old then throw immutableField
              else if emailTaken doc db then throw duplicateKey
              else ret (replace doc db, Some doc)
          end
      end
  end.

(** [Student.findByIdAndDelete(id)] *)
Definition findByIdAndDelete (rt : Runtime) (i : string) (db : Collection)
  : Result (Collection * option Document) :=
  match castObjectId rt i with
  | None => throw (CastError "_id" (castErrorMessage rt "ObjectId" (JStr i) "_id"))
  | Some oid =>
      match lookup oid db with
      | None => ret (db, None)
      | Some d => ret (remove oid db, Some d)
      end
  end.

End Student.

(* ================================================================== *)
(** ** Controller functions *)

(** [res.status(st).json({ success: ok })]; the functions below add the
    remaining keys of the envelope. *)
Definition json (st : Z) (ok : bool) : Response :=
  {| status := st; success := ok; message := None; count := None;
     data := None; errors := None; error := None |}.

Definition with_message (m : string) (r : Response) : Response :=
  {| status := status r; success := success r; message := Some m;
     count := count r; data := data r; errors := errors r;
     error := error r |}.

Definition with_count (n : nat) (r : Response) : Response :=
  {| status := status r; success := success r; message := message r;
     count := Some n; data := data r; errors := errors r;
     error := error r |}.

Definition with_data (d : Data) (r : Response) : Response :=
  {| status := status r; success := success r; message := message r;
     count := count r; data := Some d; errors := errors r;
     error := error r |}.

Definition with_errors (l : list string) (r : Response) : Response :=
  {| status := status r; success := success r; message := message r;
     count := count r; data := data r; errors := Some l;
     error := error r |}.

Definition with_error (e : string) (r : Response) : Response :=
  {| status := status r; success := success r; message := message r;
     count := count r; data := data r; errors := errors r;
     error := Some e |}.

Definition serverError (e : Error) : Response :=
  with_error (error_message e) (with_message "Server Error" (json 500 false)).

Definition code_is (e : Error) (c : Z) : bool :=
  match error_code e with
  | Some c' => c' =? c
  | None => false
  end.

Definition name_is (e : Error) (n : string) : bool :=
  String.eqb (error_name e) n.

(** [Object.values(error.errors).map(val => val.message)] *)
Definition messages_of (e : Error) : list string :=
  map snd (error_errors e).

(** Get all students *)
Definition getAllStudents (rt : Runtime) (cx : Context) (req : Request)
           (db : Collection) : Collection * Response :=
  match Student.find_sorted db with
  | inr students =>
      (db, with_data (Many students)
             (with_count (List.length students) (json 200 true)))
  | inl e => (db, serverError e)
  end.

(** Get single student by ID *)
Definition getStudentById (rt : Runtime) (cx : Context) (req : Request)
           (db : Collection) : Collection * Response :=
  match Student.findById rt (id (params req)) db with
  | inr None =>
      (db, with_message "Student not found" (json 404 false))
  | inr (Some student) =>
      (db, with_data (One student) (json 200 true))
  | inl e =>
      if name_is e "CastError"
      then (db, with_message "Invalid student ID" (json 400 false))
      else (db, serverError e)
  end.

(** Create new student *)
Definition createStudent (rt : Runtime) (cx : Context) (req : Request)
           (db : Collection) : Collection * Response :=
  match Student.create rt cx (body req) db with
  | inr (db', student) =>
      (db', with_data (One student)
              (with_message "Student created successfully" (json 201 true)))
  | inl e =>
      if code_is e 11000
      then (db, with_message "Email already exists" (json 400 false))
      else if name_is e "ValidationError"
      then (db, with_errors (messages_of e)
                  (with_message "Validation Error" (json 400 false)))
      else (db, serverError e)
  end.

(** Update student *)
Definition updateStudent (rt : Runtime) (cx : Context) (req : Request)
           (db : Collection) : Collection * Response :=
  match Student.findByIdAndUpdate rt cx (id (params req)) (body req) db with
  | inr (db', None) =>
      (db', with_message "Student not found" (json 404 false))
  | inr (db', Some student) =>
      (db', with_data (One student)
              (with_message "Student updated successfully" (json 200 true)))
  | inl e =>
      if name_is e "ValidationError"
      then (db, with_errors (messages_of e)
                  (with_message "Validation Error" (json 400 false)))
      else if name_is e "CastError"
      then (db, with_message "Invalid student ID" (json 400 false))
      else (db, serverError e)
  end.

(** Delete student *)
Definition deleteStudent (rt : Runtime) (cx : Context) (req : Request)
           (db : Collection) : Collection * Response :=
  match Student.findByIdAndDelete rt (id (params req)) db with
  | inr (db', None) =>
      (db', with_message "Student not found" (json 404 false))
  | inr (db', Some _) =>
      (db', with_data EmptyObject
              (with_message "Student deleted successfully" (json 200 true)))
  | inl e =>
      if name_is e "CastError"
      then (db, with_message "Invalid student ID" (json 400 false))
      else (db, serverError e)
  end.

(** Get students by course *)
Definition getStudentsByCourse (rt : Runtime) (cx : Context) (req : Request)
           (db : Collection) : Collection * Response :=
  match Student.find_by_course (course_param (params req)) db with
  | inr students =>
      (db, with_data (Many students)
             (with_count (List.length students) (json 200 true)))
  | inl e => (db, serverError e)
  end.

(* ================================================================== *)
(** ** Routes and runs *)

(** The student routes of the application. *)
Inductive Route : Type :=
| GET_students
| POST_students
| GET_student
| PUT_student
| DELETE_student
| GET_course.

Definition handler (r : Route)
  : Runtime -> Context -> Request -> Collection -> Collection * Response :=
  match r with
  | GET_students => getAllStudents
  | POST_students => createStudent
  | GET_student => getStudentById
  | PUT_student => updateStudent
  | DELETE_student => deleteStudent
  | GET_course => getStudentsByCourse
  end.

(** One incoming call: the route, the per-request context and the request. *)
Definition Call : Type := (Route * Context * Request)%type.

Definition serve (rt : Runtime) (c : Call) (db : Collection)
  : Collection * Response :=
  let '(r, cx, req) := c in handler r rt cx req db.

(** The collection after a sequence of calls. *)
Fixpoint run (rt : Runtime) (calls : list Call) (db : Collection)
  : Collection :=
  match calls with
  | [] => db
  | c :: rest => run rt rest (fst (serve rt c db))
  end.

(* ================================================================== *)
(** ** A runtime instance and sample data for the examples *)

Module Sample.

Definition hexDigit (c : ascii) : option N :=
  let n := N_of_ascii c in
  if ((48 <=? n) && (n <=? 57))%N then Some (n - 48)%N
  else if ((97 <=? n) && (n <=? 102))%N then Some (n - 87)%N
  else if ((65 <=? n) && (n <=? 70))%N then Some (n - 55)%N
  else None.

Fixpoint parseHex (s : string) (acc : N) : option N :=
  match s with
  | EmptyString => Some acc
  | String c r =>
      match hexDigit c with
      | Some d => parseHex r (16 * acc + d)%N
      | None => None
      end
  end.

(** Twenty-four hexadecimal digits. *)
Definition objectIdOfHex (s : string) : option ObjectId :=
  if (String.length s =? 24)%nat then parseHex s 0%N else None.

Fixpoint parseDigits (s : string) (acc : Z) : option Z :=
  match s with
  | EmptyString => Some acc
  | String c r =>
      let n := Z.of_nat (nat_of_ascii c) in
      if (48 <=? n) && (n <=? 57) then parseDigits r (10 * acc + (n - 48))
      else None
  end.

Definition numberOfDigits (s : string) : option Z :=
  match s with
  | EmptyString => Some 0
  | _ => parseDigits s 0
  end.

Definition rt : Runtime := {|
  Number_of_string := numberOfDigits;
  String_of_number := fun n => DecimalString.NilZero.string_of_int (Z.to_int n);
  Date_of_string := fun _ => None;
  castObjectId := objectIdOfHex;
  castErrorMessage := fun kind _ path =>
    ("Cast to " ++ kind ++ " failed at path " ++ path)%string;
  enumAcceptsNull := true
|}.

Definition noBody : Body := {|
  body_name := None; body_age := None; body_course := None;
  body_email := None; body_grade := None; body_enrollmentDate := None;
  body__id := None; body_createdAt := None; body_updatedAt := None |}.

Definition request (i c : string) (b : Body) : Request :=
  {| params := {| id := i; course_param := c |}; body := b |}.

(** The example student of the home route, without its grade. *)
Definition john : Body := {|
  body_name := Some (JStr "John Doe");
  body_age := Some (JNum 20);
  body_course := Some (JStr "Computer Science");
  body_email := Some (JStr "john.doe@example.com");
  body_grade := None;
  body_enrollmentDate := None;
  body__id := None; body_createdAt := None; body_updatedAt := None |}.

Definition johnDoc : Document := {|
  _id := 1%N;
  name := Some "John Doe";
  age := Some 20;
  course := Some "Computer Science";
  email := Some "john.doe@example.com";
  grade := Some "C";
  enrollmentDate := Some 1000;
  createdAt := 1000;
  updatedAt := 1000 |}.

Definition maryDoc : Document := {|
  _id := 2%N;
  name := Some "Mary Major";
  age := Some 31;
  course := Some "Arts";
  email := Some "mary@example.org";
  grade := Some "A";
  enrollmentDate := Some 2000;
  createdAt := 2000;
  updatedAt := 2000 |}.

Definition id1 : string := "000000000000000000000001".
Definition id2 : string := "000000000000000000000002".
Definition id9 : string := "000000000000000000000009".

Definition at_ (t : Z) (oid : ObjectId) : Context :=
  {| now := t; built := t; newObjectId := oid;
     arrange := fun l => l;
     arrange_perm := fun l => Permutation_refl l |}.

(** A request whose document is built at [b] and saved at [t], and whose
    validation error lists its entries in reverse. *)
Definition later (b t : Z) (oid : ObjectId) : Context :=
  {| now := t; built := b; newObjectId := oid;
     arrange := fun l => rev l;
     arrange_perm := fun l => Permutation_rev l |}.

End Sample.

(* ================================================================== *)
(** ** The field constraints of the data model, as the specification
       words them

    These definitions follow the constraint table of the specification
    (required, trimmed length 2-50, range 16-100, one of the eight courses,
    lower-cased email matching the pattern, grade among A-F when present),
    read on the value a path of the payload carries.  They are compared with
    the validators of the schema in the theorems below. *)

Module Constraints.
Import SchemaType.

Definition nameValid (rt : Runtime) (v : option jvalue) : bool :=
  match v with
  | Some j =>
      match castString rt j with
      | Some (Value s) =>
          let n := String.length (JS.trim s) in
          ((2 <=? n) && (n <=? 50))%nat
      | _ => false
      end
  | None => false
  end.

Definition ageValid (rt : Runtime) (v : option jvalue) : bool :=
  match v with
  | Some j =>
      match castNumber rt j with
      | Some (Value n) => (16 <=? n) && (n <=? 100)
      | _ => false
      end
  | None => false
  end.

Definition courseValid (rt : Runtime) (v : option jvalue) : bool :=
  match v with
  | Some j =>
      match castString rt j with
      | Some (Value s) => mem (JS.trim s) courseValues
      | _ => false
      end
  | None => false
  end.

(** The email a payload carries, as it would be written. *)
Definition emailOf (rt : Runtime) (v : option jvalue) : option string :=
  match v with
  | Some j =>
      match castString rt j with
      | Some (Value s) => Some (JS.toLowerCase s)
      | _ => None
      end
  | None => None
  end.

Definition emailValid (rt : Runtime) (v : option jvalue) : bool :=
  match emailOf rt v with
  | Some e => Regex.matches emailPattern e
  | None => false
  end.

(** An omitted grade is defaulted; [null] is judged as the runtime's enum
    validator judges it. *)
Definition gradeValid (rt : Runtime) (v : option jvalue) : bool :=
  match v with
  | Some j =>
      match castString rt j with
      | Some (Value s) => mem s gradeValues
      | Some Null => enumAcceptsNull rt
      | _ => false
      end
  | None => true
  end.

(** [enrollmentDate] is only required to be a date when present. *)
Definition enrollmentDateValid (rt : Runtime) (v : option jvalue) : bool :=
  match v with
  | Some j =>
      match castDate rt j with
      | Some _ => true
      | None => false
      end
  | None => true
  end.

(** An [_id] the payload sends must denote an ObjectId. *)
Definition idValid (rt : Runtime) (v : option string) : bool :=
  match v with
  | Some s =>
      match castObjectId rt s with
      | Some _ => true
      | None => false
      end
  | None => true
  end.

(** [createdAt] and [updatedAt] must be dates when the payload sends
    them. *)
Definition timestampValid (rt : Runtime) (v : option jvalue) : bool :=
  enrollmentDateValid rt v.

Definition unless (ok : bool) (path : string) : list string :=
  if ok then [] else [path].

(** The fields of a creation payload that violate their constraints. *)
Definition violated (rt : Runtime) (b : Body) : list string :=
  unless (nameValid rt (body_name b)) "name"
  ++ unless (ageValid rt (body_age b)) "age"
  ++ unless (courseValid rt (body_course b)) "course"
  ++ unless (emailValid rt (body_email b)) "email"
  ++ unless (gradeValid rt (body_grade b)) "grade"
  ++ unless (enrollmentDateValid rt (body_enrollmentDate b)) "enrollmentDate"
  ++ unless (idValid rt (body__id b)) "_id"
  ++ unless (timestampValid rt (body_createdAt b)) "createdAt"
  ++ unless (timestampValid rt (body_updatedAt b)) "updatedAt".

(** The message the schema gives for a violated field. *)
Definition nameComplaint (rt : Runtime) (v : option jvalue) : string :=
  match v with
  | Some j =>
      match castString rt j with
      | Some (Value s) =>
          match String.length (JS.trim s) with
          | O => "Student name is required"
          | S O => "Name must be at least 2 characters long"
          | _ => "Name cannot exceed 50 characters"
          end
      | _ => "Student name is required"
      end
  | None => "Student name is required"
  end.

Definition ageComplaint (rt : Runtime) (v : option jvalue) : string :=
  match v with
  | Some j =>
      match castNumber rt j with
      | Some (Value n) =>
          if n <? 16 then "Age must be at least 16"
          else "Age cannot exceed 100"
      | Some _ => "Student age is required"
      | None => castErrorMessage rt "Number" j "age"
      end
  | None => "Student age is required"
  end.

Definition courseComplaint (rt : Runtime) (v : option jvalue) : string :=
  match v with
  | Some j =>
      match castString rt j with
      | Some (Value s) =>
          match JS.trim s with
          | EmptyString => "Course is required"
          | t => (t ++ " is not a valid course")%string
          end
      | _ => "Course is required"
      end
  | None => "Course is required"
  end.

Definition emailComplaint (rt : Runtime) (v : option jvalue) : string :=
  match emailOf rt v with
  | Some EmptyString => "Email is required"
  | Some _ => "Please enter a valid email"
  | None => "Email is required"
  end.

Definition gradeComplaint (rt : Runtime) (v : option jvalue) : string :=
  let about g :=
    ("`" ++ g ++ "` is not a valid enum value for path `grade`.")%string in
  match v with
  | Some j =>
      match castString rt j with
      | Some (Value s) => about s
      | _ => about "null"
      end
  | None => about "null"
  end.

Definition dateComplaint (rt : Runtime) (path : string) (v : option jvalue)
  : string :=
  match v with
  | Some j => castErrorMessage rt "date" j path
  | None => ""
  end.

Definition idComplaint (rt : Runtime) (v : option string) : string :=
  match v with
  | Some s => castErrorMessage rt "ObjectId" (JStr s) "_id"
  | None => ""
  end.

Definition complain (ok : bool) (path msg : string)
  : list (string * string) :=
  if ok then [] else [(path, msg)].

(** The violated fields of a creation payload, each with its message. *)
Definition complaints (rt : Runtime) (b : Body) : list (string * string) :=
  complain (nameValid rt (body_name b)) "name" (nameComplaint rt (body_name b))
  ++ complain (ageValid rt (body_age b)) "age" (ageComplaint rt (body_age b))
  ++ complain (courseValid rt (body_course b)) "course"
       (courseComplaint rt (body_course b))
  ++ complain (emailValid rt (body_email b)) "email"
       (emailComplaint rt (body_email b))
  ++ complain (gradeValid rt (body_grade b)) "grade"
       (gradeComplaint rt (body_grade b))
  ++ complain (enrollmentDateValid rt (body_enrollmentDate b))
       "enrollmentDate"
       (dateComplaint rt "enrollmentDate" (body_enrollmentDate b))
  ++ complain (idValid rt (body__id b)) "_id" (idComplaint rt (body__id b))
  ++ complain (timestampValid rt (body_createdAt b)) "createdAt"
       (dateComplaint rt "createdAt" (body_createdAt b))
  ++ complain (timestampValid rt (body_updatedAt b)) "updatedAt"
       (dateComplaint rt "updatedAt" (body_updatedAt b)).

(** The identifier a new document gets: the payload's [_id] when it sends
    one, the generated ObjectId otherwise. *)
Definition identifierOf (rt : Runtime) (cx : Context) (b : Body)
  : ObjectId :=
  match body__id b with
  | Some s =>
      match castObjectId rt s with
      | Some oid => oid
      | None => newObjectId cx
      end
  | None => newObjectId cx
  end.

(** The creation time a new document gets: the payload's [createdAt] when
    it sends a date, the time of the save otherwise. *)
Definition createdOf (rt : Runtime) (cx : Context) (b : Body) : Z :=
  match body_createdAt b with
  | Some j =>
      match castDate rt j with
      | Some (Value t) => t
      | _ => now cx
      end
  | None => now cx
  end.

(** A supplied value that cannot be cast to the type of its path. *)
Definition uncastable {A : Type} (cast : jvalue -> option (Field A))
           (v : option jvalue) : bool :=
  match v with
  | Some j =>
      match cast j with
      | None => true
      | Some _ => false
      end
  | None => false
  end.

(** The keys an update casts: the six declared paths and [_id]. *)
Definition castFails (rt : Runtime) (b : Body) : bool :=
  uncastable (castString rt) (body_name b)
  || uncastable (castNumber rt) (body_age b)
  || uncastable (castString rt) (body_course b)
  || uncastable (castString rt) (body_email b)
  || uncastable (castString rt) (body_grade b)
  || uncastable (castDate rt) (body_enrollmentDate b)
  || negb (idValid rt (body__id b)).

End Constraints.

(* ================================================================== *)
(** ** Properties of a collection *)

Module Invariant.

Definition ids (db : Collection) : list ObjectId := map _id db.

(** The unique index on [_id]. *)
Definition uniqueIds (db : Collection) : Prop := NoDup (ids db).

(** Every stored email is in lower case. *)
Definition lowercaseEmails (db : Collection) : Prop :=
  Forall (fun d => forall e, email d = Some e -> JS.toLowerCase e = e) db.

(** Every stored course is one of the eight labels. *)
Definition knownCourses (db : Collection) : Prop :=
  Forall (fun d => exists c, course d = Some c /\ In c courseValues) db.

Definition ok (db : Collection) : Prop :=
  uniqueIds db /\ lowercaseEmails db /\ knownCourses db.

(** Descending creation time. *)
Definition newerFirst (a b : Document) : Prop := createdAt b <= createdAt a.

(** The identifiers that the delete calls of a sequence name. *)
Fixpoint deleted (rt : Runtime) (calls : list Call) : list ObjectId :=
  match calls with
  | [] => []
  | (DELETE_student, _, req) :: rest =>
      match castObjectId rt (id (params req)) with
      | Some oid => oid :: deleted rt rest
      | None => deleted rt rest
      end
  | _ :: rest => deleted rt rest
  end.

Definition survives (rt : Runtime) (calls : list Call) (oid : ObjectId)
  : bool :=
  negb (existsb (N.eqb oid) (deleted rt calls)).

(** What one call keeps of the identifiers it finds. *)
Definition keeps (rt : Runtime) (c : Call) (i : ObjectId) : bool :=
  survives rt [c] i.

(** The identifiers generated for the create calls of a sequence (the
    payload's own [_id] where it sends one). *)
Fixpoint generated (rt : Runtime) (calls : list Call) : list ObjectId :=
  match calls with
  | [] => []
  | (POST_students, cx, req) :: rest =>
      Constraints.identifierOf rt cx (body req) :: generated rt rest
  | _ :: rest => generated rt rest
  end.

End Invariant.

(* ================================================================== *)
(** ** The application: body parser, route table, fallbacks

    [app.use(express.json())] comes first, then the home route and the six
    student routes in the order of the source, then the catch-all 404 and the
    error-handling middleware.  A request is given by its method, the list
    of the decoded segments of its path (an optional trailing slash
    dropped) and what the body parser made of its body.  Routing follows
    the defaults of the framework: literal segments are compared without
    regard to letter case, a parameter matches one non-empty segment, the
    first matching route answers.  [HEAD] and [OPTIONS], which the framework
    answers on its own, are not among the methods. *)

Module Express.

Inductive Method : Type := GET | POST | PUT | DELETE | PATCH.

Inductive Payload : Type :=
| NoPayload
| Malformed (diagnostic : string)
| Parsed (b : Body).

Record HttpRequest : Type := {
  method : Method;
  path : list string;
  payload : Payload
}.

(** [exampleStudent] of the home route. *)
Definition exampleStudent : Body := {|
  body_name := Some (JStr "John Doe");
  body_age := Some (JNum 20);
  body_course := Some (JStr "Computer Science");
  body_email := Some (JStr "john.doe@example.com");
  body_grade := Some (JStr "A");
  body_enrollmentDate := None;
  body__id := None; body_createdAt := None; body_updatedAt := None |}.

Record HomePage : Type := {
  home_message : string;
  home_version : string;
  home_endpoints : list (string * string);
  home_exampleStudent : Body
}.

Definition home : HomePage := {|
  home_message := "🎓 Welcome to Student Management System API";
  home_version := "1.0.0";
  home_endpoints :=
    [("GET /api/students", "Get all students");
     ("POST /api/students", "Create new student");
     ("GET /api/students/:id", "Get student by ID");
     ("PUT /api/students/:id", "Update student");
     ("DELETE /api/students/:id", "Delete student");
     ("GET /api/students/course/:course", "Get students by course")];
  home_exampleStudent := exampleStudent
|}.

Inductive Reply : Type :=
| Envelope (r : Response)
| Home (h : HomePage).

(** A segment of a route path: literal text or a named parameter. *)
Inductive Pattern : Type :=
| Seg (text : string)
| Par (param : string).

Inductive Target : Type :=
| ToHome
| ToStudents (r : Route).

Definition method_eqb (a b : Method) : bool :=
  match a, b with
  | GET, GET | POST, POST | PUT, PUT | DELETE, DELETE | PATCH, PATCH => true
  | _, _ => false
  end.

(** The route table, in the order of registration. *)
Definition routes : list (Method * list Pattern * Target) :=
  [(GET, [], ToHome);
   (GET, [Seg "api"; Seg "students"], ToStudents GET_students);
   (POST, [Seg "api"; Seg "students"], ToStudents POST_students);
   (GET, [Seg "api"; Seg "students"; Par "id"], ToStudents GET_student);
   (PUT, [Seg "api"; Seg "students"; Par "id"], ToStudents PUT_student);
   (DELETE, [Seg "api"; Seg "students"; Par "id"], ToStudents DELETE_student);
   (GET, [Seg "api"; Seg "students"; Seg "course"; Par "course"],
    ToStudents GET_course)].

Definition sameText (a b : string) : bool :=
  String.eqb (JS.toLowerCase a) (JS.toLowerCase b).

(** The parameters a path binds under a route path, when it matches. *)
Fixpoint matchPath (pat : list Pattern) (segs : list string)
  : option (list (string * string)) :=
  match pat, segs with
  | [], [] => Some []
  | Seg text :: pat', seg :: segs' =>
      if sameText text seg then matchPath pat' segs' else None
  | Par param :: pat', seg :: segs' =>
      match seg with
      | EmptyString => None
      | _ =>
          match matchPath pat' segs' with
          | Some bound => Some ((param, seg) :: bound)
          | None => None
          end
      end
  | _, _ => None
  end.

Fixpoint bound (key : string) (l : list (string * string)) : string :=
  match l with
  | [] => ""
  | (k, v) :: r => if String.eqb k key then v else bound key r
  end.

(** [req.params] *)
Definition paramsOf (l : list (string * string)) : Params :=
  {| id := bound "id" l; course_param := bound "course" l |}.

Fixpoint resolveIn (table : list (Method * list Pattern * Target))
         (m : Method) (segs : list string) : option (Target * Params) :=
  match table with
  | [] => None
  | (m', pat, t) :: rest =>
      if method_eqb m' m then
        match matchPath pat segs with
        | Some l => Some (t, paramsOf l)
        | None => resolveIn rest m segs
        end
      else resolveIn rest m segs
  end.

Definition resolve (m : Method) (segs : list string)
  : option (Target * Params) :=
  resolveIn routes m segs.

(** [req.body] after the body parser: an empty object when the request
    carries no JSON body. *)
Definition emptyBody : Body := {|
  body_name := None; body_age := None; body_course := None;
  body_email := None; body_grade := None; body_enrollmentDate := None;
  body__id := None; body_createdAt := None; body_updatedAt := None |}.

Definition routeNotFound : Response :=
  with_message "Route not found" (json 404 false).

(** The error-handling middleware. *)
Definition internalError (diagnostic : string) : Response :=
  with_error diagnostic (with_message "Internal Server Error" (json 500 false)).

Definition app (rt : Runtime) (cx : Context) (h : HttpRequest)
           (db : Collection) : Collection * Reply :=
  match payload h with
  | Malformed diagnostic => (db, Envelope (internalError diagnostic))
  | p =>
      let b := match p with
               | Parsed b => b
               | _ => emptyBody
               end in
      match resolve (method h) (path h) with
      | Some (ToHome, _) => (db, Home home)
      | Some (ToStudents r, ps) =>
          let (db', res) := handler r rt cx {| params := ps; body := b |} db in
          (db', Envelope res)
      | None => (db, Envelope routeNotFound)
      end
  end.

End Express.

(* ================================================================== *)
(** ** The characters of an email address *)

Module Stored.

(** The characters an accepted email is made of. *)
Definition emailChar (c : ascii) : bool :=
  JS.isWord c || JS.isDotOrDash c || JS.isChar "@"%char c.

Fixpoint allChars (p : ascii -> bool) (s : string) : bool :=
  match s with
  | EmptyString => true
  | String c r => p c && allChars p r
  end.

Fixpoint countChar (a : ascii) (s : string) : nat :=
  match s with
  | EmptyString => 0%nat
  | String c r => ((if Ascii.eqb a c then 1 else 0) + countChar a r)%nat
  end.

End Stored.

(* ================================================================== *)
(** ** The entries of a validation error *)

Module Report.
Import Student.

(** What validation records for a creation payload, path by path. *)
Definition failures (rt : Runtime) (cx : Context) (b : Body)
  : list (string * string) :=
  Student.failures rt cx b.

(** The envelope of a rejected payload. *)
Definition rejected (msgs : list string) : Response :=
  with_errors msgs (with_message "Validation Error" (json 400 false)).

(** A key that is absent from the payload or holds [null]. *)
Definition missing (v : option jvalue) : Prop :=
  v = None \/ v = Some JNull.

(** The envelopes of the successful writes and of the listings. *)
Definition created (doc : Document) : Response :=
  with_data (One doc)
    (with_message "Student created successfully" (json 201 true)).

Definition updated (doc : Document) : Response :=
  with_data (One doc)
    (with_message "Student updated successfully" (json 200 true)).

Definition deleted : Response :=
  with_data EmptyObject
    (with_message "Student deleted successfully" (json 200 true)).

Definition found (doc : Document) : Response :=
  with_data (One doc) (json 200 true).

Definition listed (l : list Document) : Response :=
  with_data (Many l) (with_count (List.length l) (json 200 true)).

Definition notFound : Response :=
  with_message "Student not found" (json 404 false).

Definition invalidId : Response :=
  with_message "Invalid student ID" (json 400 false).

Definition emailExists : Response :=
  with_message "Email already exists" (json 400 false).

(** A payload that holds no key of the schema. *)
Definition holdsNothing (b : Body) : Prop :=
  body_name b = None /\ body_age b = None /\ body_course b = None
  /\ body_email b = None /\ body_grade b = None
  /\ body_enrollmentDate b = None /\ body__id b = None
  /\ body_createdAt b = None /\ body_updatedAt b = None.

(** A payload that holds the key [email] only. *)
Definition onlyEmail (e : string) : Body := {|
  body_name := None; body_age := None; body_course := None;
  body_email := Some (JStr e); body_grade := None;
  body_enrollmentDate := None;
  body__id := None; body_createdAt := None; body_updatedAt := None |}.

End Report.

(* ================================================================== *)
(** ** The parts of the email pattern *)

Module Alphabet.
Import Regex.

(** [\w+([.-]?\w+)*] *)
Definition wordsPattern : regex :=
  Cat (Plus (Class JS.isWord))
    (Star (Cat (Opt (Class JS.isDotOrDash)) (Plus (Class JS.isWord)))).

(** [\.\w{2,3}] *)
Definition labelPattern : regex :=
  Cat (Class (JS.isChar "."%char))
    (Cat (Class JS.isWord) (Cat (Class JS.isWord) (Opt (Class JS.isWord)))).

(** Every character class of a pattern lies within a set of characters. *)
Fixpoint within (q : ascii -> bool) (r : regex) : Prop :=
  match r with
  | Void => True
  | Eps => True
  | Class p => forall c, p c = true -> q c = true
  | Cat r1 r2 => within q r1 /\ within q r2
  | Alt r1 r2 => within q r1 /\ within q r2
  | Star r1 => within q r1
  end.

Definition notAt (c : ascii) : bool := negb (Ascii.eqb "@"%char c).

End Alphabet.

(* ================================================================== *)
(** ** Lemmas on strings and patterns *)

Module RegexFacts.
Import Regex.

Lemma append_nil_r (s : string) : (s ++ "")%string = s.
Proof. induction s as [|c s IH]; simpl; [reflexivity | now rewrite IH]. Qed.

Lemma append_assoc (a b c : string) :
  ((a ++ b) ++ c)%string = (a ++ (b ++ c))%string.
Proof. induction a as [|x a IH]; simpl; [reflexivity | now rewrite IH]. Qed.

Lemma append_eq_nil (a b : string) :
  (a ++ b)%string = "" -> a = "" /\ b = "".
Proof. destruct a; simpl; [auto | discriminate]. Qed.

Lemma denotes_void s : ~ denotes Void s.
Proof. intro H; inversion H. Qed.

Lemma nullable_sound r : nullable r = true -> denotes r "".
Proof.
  induction r; simpl; intro H; try discriminate.
  - constructor.
  - apply andb_true_iff in H as [H1 H2].
    change "" with ("" ++ "")%string. constructor; auto.
  - apply orb_true_iff in H as [H|H]; [apply DAltL | apply DAltR]; auto.
  - constructor.
Qed.

Lemma nullable_complete r s : denotes r s -> s = "" -> nullable r = true.
Proof.
  induction 1; simpl; intro E; try reflexivity; try discriminate.
  - apply append_eq_nil in E as [-> ->]. now rewrite IHdenotes1, IHdenotes2.
  - now rewrite IHdenotes.
  - rewrite IHdenotes by assumption. apply orb_true_r.
Qed.

Lemma nullable_iff r : nullable r = true <-> denotes r "".
Proof.
  split; [apply nullable_sound | intro H; now apply (nullable_complete _ _ H)].
Qed.

Lemma mkCat_iff r1 r2 s : denotes (mkCat r1 r2) s <-> denotes (Cat r1 r2) s.
Proof.
  split.
  - destruct r1, r2; simpl; intro H;
      try exact H; try (now inversion H);
      try (change s with ("" ++ s)%string; constructor; [constructor | exact H]).
  - intro H. inversion H; subst.
    destruct r1, r2; simpl;
      try (exfalso; eapply denotes_void; eassumption);
      try (now constructor);
      match goal with
      | Hd : denotes Eps _ |- _ => inversion Hd; subst; simpl; assumption
      end.
Qed.

Lemma mkAlt_iff r1 r2 s : denotes (mkAlt r1 r2) s <-> denotes (Alt r1 r2) s.
Proof.
  split.
  - destruct r1, r2; simpl; intro H;
      try exact H; try (now inversion H);
      try (now apply DAltL); try (now apply DAltR).
  - intro H.
    inversion H; subst; destruct r1, r2; simpl;
      try (exfalso; eapply denotes_void; eassumption);
      try assumption; try (now apply DAltL); try (now apply DAltR).
Qed.

(** A non-empty word of [Star r] starts with a non-empty word of [r]. *)
Lemma star_cons_inv r s :
  denotes (Star r) s ->
  forall c t, s = String c t ->
  exists t1 t2, t = (t1 ++ t2)%string /\
                denotes r (String c t1) /\ denotes (Star r) t2.
Proof.
  intro H. remember (Star r) as sr eqn:E. revert r E.
  induction H; intros r0 E; try discriminate E.
  - intros c t Hs. discriminate Hs.
  - injection E as ->. intros c t Hs.
    destruct s1 as [|c1 s1'].
    + simpl in Hs. eapply IHdenotes2; eauto.
    + simpl in Hs. injection Hs as E1 E2. subst c1 t.
      exists s1', s2. auto.
Qed.

Lemma denotes_cat_cons c r1 r2 s :
  (forall t, denotes (deriv c r1) t -> denotes r1 (String c t)) ->
  denotes (mkCat (deriv c r1) r2) s -> denotes (Cat r1 r2) (String c s).
Proof.
  intros IH H. apply mkCat_iff in H. inversion H; subst.
  change (String c (s1 ++ s2)) with (String c s1 ++ s2)%string.
  constructor; auto.
Qed.

Lemma deriv_sound c r : forall s, denotes (deriv c r) s -> denotes r (String c s).
Proof.
  induction r; simpl; intros s H.
  - inversion H.
  - inversion H.
  - destruct (p c) eqn:Hp; inversion H; subst. now constructor.
  - destruct (nullable r1) eqn:Hn.
    + apply mkAlt_iff in H. inversion H; subst.
      * now apply denotes_cat_cons.
      * change (String c s) with ("" ++ String c s)%string.
        constructor; [now apply nullable_sound | auto].
    + now apply denotes_cat_cons.
  - apply mkAlt_iff in H.
    inversion H; subst; [apply DAltL | apply DAltR]; auto.
  - apply mkCat_iff in H. inversion H; subst.
    change (String c (s1 ++ s2)) with (String c s1 ++ s2)%string.
    constructor; auto.
Qed.

Lemma deriv_complete c r :
  forall s, denotes r (String c s) -> denotes (deriv c r) s.
Proof.
  induction r; simpl; intros s H.
  - inversion H.
  - inversion H.
  - inversion H; subst.
    match goal with Hp : p c = true |- _ => rewrite Hp end. constructor.
  - inversion H as [| |? ? s1 s2 Ha Hb Er Es| | | |]; subst.
    destruct s1 as [|c1 s1'].
    + simpl in Es. subst s2.
      rewrite (proj2 (nullable_iff r1) Ha).
      apply mkAlt_iff. apply DAltR. auto.
    + simpl in Es. injection Es as E1 E2. subst c1 s.
      assert (Hc : denotes (mkCat (deriv c r1) r2) (s1' ++ s2)).
      { apply mkCat_iff. constructor; auto. }
      destruct (nullable r1); [apply mkAlt_iff; now apply DAltL | exact Hc].
  - apply mkAlt_iff.
    inversion H; subst; [apply DAltL | apply DAltR]; auto.
  - destruct (star_cons_inv _ _ H _ _ eq_refl) as (t1 & t2 & -> & H1 & H2).
    apply mkCat_iff. constructor; auto.
Qed.

Theorem matches_iff r s : matches r s = true <-> denotes r s.
Proof.
  revert r. induction s as [|c s IH]; intro r; simpl.
  - apply nullable_iff.
  - rewrite IH. split; [apply deriv_sound | apply deriv_complete].
Qed.

End RegexFacts.

(* ================================================================== *)
(** ** Lemmas on the string functions *)

Module JSFacts.

Lemma lowerChar_idem c : JS.lowerChar (JS.lowerChar c) = JS.lowerChar c.
Proof. destruct c as [[] [] [] [] [] [] [] []]; reflexivity. Qed.

Lemma toLowerCase_idem s : JS.toLowerCase (JS.toLowerCase s) = JS.toLowerCase s.
Proof.
  induction s as [|c s IH]; simpl; [reflexivity|].
  now rewrite lowerChar_idem, IH.
Qed.

Lemma mem_In s l : SchemaType.mem s l = true <-> In s l.
Proof.
  unfold SchemaType.mem. rewrite existsb_exists. split.
  - intros (x & Hx & E). apply String.eqb_eq in E. now subst.
  - intro H. exists s. split; [assumption | apply String.eqb_refl].
Qed.

End JSFacts.

(* ================================================================== *)
(** ** The validators of the schema decide the field constraints *)

Module ValidatorFacts.
Import SchemaType Student Constraints.

Ltac open_validator :=
  unfold validateString, validateNumber, studentSchema, p_name, p_age,
    p_course, p_email, p_grade, s_required, s_minlength, s_maxlength,
    s_enum, s_match, n_required, n_min, n_max.

Lemma validate_name rt t :
  validateString rt (p_name studentSchema) (Value t)
  = if ((2 <=? String.length t) && (String.length t <=? 50))%nat then None
    else match t with
         | EmptyString => Some "Student name is required"
         | _ => if (2 <=? String.length t)%nat
                then Some "Name cannot exceed 50 characters"
                else Some "Name must be at least 2 characters long"
         end.
Proof.
  open_validator.
  destruct t as [|c t]; [reflexivity|].
  generalize (String.length (String c t)); intro n.
  destruct (2 <=? n)%nat, (n <=? 50)%nat; reflexivity.
Qed.

Lemma validate_course rt t :
  validateString rt (p_course studentSchema) (Value t)
  = if mem t courseValues then None
    else match t with
         | EmptyString => Some "Course is required"
         | _ => Some (t ++ " is not a valid course")%string
         end.
Proof.
  open_validator.
  destruct t as [|c t]; [reflexivity|].
  destruct (mem (String c t) courseValues); reflexivity.
Qed.

Lemma validate_email rt t :
  validateString rt (p_email studentSchema) (Value t)
  = if Regex.matches emailPattern t then None
    else match t with
         | EmptyString => Some "Email is required"
         | _ => Some "Please enter a valid email"
         end.
Proof.
  open_validator.
  destruct t as [|c t]; [reflexivity|].
  destruct (Regex.matches emailPattern (String c t)); reflexivity.
Qed.

Lemma validate_grade rt t :
  validateString rt (p_grade studentSchema) (Value t)
  = if mem t gradeValues then None
    else Some ("`" ++ t ++ "` is not a valid enum value for path `grade`.")%string.
Proof.
  open_validator.
  destruct (mem t gradeValues); reflexivity.
Qed.

Lemma validate_age t n :
  t = p_age studentSchema ->
  validateNumber t (Value n)
  = if (16 <=? n) && (n <=? 100) then None
    else if 16 <=? n then Some "Age cannot exceed 100"
         else Some "Age must be at least 16".
Proof.
  intros ->. open_validator.
  destruct (16 <=? n), (n <=? 100); reflexivity.
Qed.

End ValidatorFacts.

(* ================================================================== *)
(** ** Building a new document *)

Module CreateFacts.
Import SchemaType Student Constraints ValidatorFacts.

(** Each path of a new document is judged as the constraints judge it, and
    reports the message they name. *)
Lemma report_name rt v :
  failure "name" (pathString rt (p_name studentSchema) "name" v)
  = complain (nameValid rt v) "name" (nameComplaint rt v).
Proof.
  assert (H : forall s,
    failure "name"
      (match validateString rt (p_name studentSchema)
               (Value (applySetters (p_name studentSchema) s)) with
       | Some msg => inl msg
       | None => inr (Value (applySetters (p_name studentSchema) s))
       end)
    = complain ((2 <=? String.length (JS.trim s))
                && (String.length (JS.trim s) <=? 50))%nat "name"
        (match String.length (JS.trim s) with
         | O => "Student name is required"
         | S O => "Name must be at least 2 characters long"
         | _ => "Name cannot exceed 50 characters"
         end)).
  { intro s. unfold applySetters.
    cbn [studentSchema p_name s_trim s_lowercase].
    rewrite validate_name.
    destruct (JS.trim s) as [|c [|c' t]]; try reflexivity.
    cbn [String.length].
    destruct (S (S (String.length t)) <=? 50)%nat; reflexivity. }
  unfold pathString, nameValid, nameComplaint, setString.
  destruct v as [j|]; [|reflexivity].
  destruct j; cbn [castString]; first [apply H | reflexivity].
Qed.

Lemma report_age rt v :
  failure "age" (pathNumber rt (p_age studentSchema) "age" v)
  = complain (ageValid rt v) "age" (ageComplaint rt v).
Proof.
  unfold pathNumber, ageValid, ageComplaint.
  destruct v as [j|]; [|reflexivity].
  destruct (castNumber rt j) as [[| |n]|]; try reflexivity.
  rewrite (validate_age _ n eq_refl).
  destruct (Z.leb_spec 16 n), (Z.leb_spec n 100), (Z.ltb_spec n 16);
    try lia; reflexivity.
Qed.

Lemma report_course rt v :
  failure "course" (pathString rt (p_course studentSchema) "course" v)
  = complain (courseValid rt v) "course" (courseComplaint rt v).
Proof.
  assert (H : forall s,
    failure "course"
      (match validateString rt (p_course studentSchema)
               (Value (applySetters (p_course studentSchema) s)) with
       | Some msg => inl msg
       | None => inr (Value (applySetters (p_course studentSchema) s))
       end)
    = complain (mem (JS.trim s) courseValues) "course"
        (match JS.trim s with
         | EmptyString => "Course is required"
         | t => (t ++ " is not a valid course")%string
         end)).
  { intro s. unfold applySetters.
    cbn [studentSchema p_course s_trim s_lowercase].
    rewrite validate_course.
    destruct (mem (JS.trim s) courseValues); [reflexivity|].
    destruct (JS.trim s); reflexivity. }
  unfold pathString, courseValid, courseComplaint, setString.
  destruct v as [j|]; [|reflexivity].
  destruct j; cbn [castString]; first [apply H | reflexivity].
Qed.

Lemma report_email rt v :
  failure "email" (pathString rt (p_email studentSchema) "email" v)
  = complain (emailValid rt v) "email" (emailComplaint rt v).
Proof.
  assert (H : forall s,
    failure "email"
      (match validateString rt (p_email studentSchema)
               (Value (applySetters (p_email studentSchema) s)) with
       | Some msg => inl msg
       | None => inr (Value (applySetters (p_email studentSchema) s))
       end)
    = complain (Regex.matches emailPattern (JS.toLowerCase s)) "email"
        (match JS.toLowerCase s with
         | EmptyString => "Email is required"
         | _ => "Please enter a valid email"
         end)).
  { intro s. unfold applySetters.
    cbn [studentSchema p_email s_trim s_lowercase].
    rewrite validate_email.
    destruct (Regex.matches emailPattern (JS.toLowerCase s)); [reflexivity|].
    destruct (JS.toLowerCase s); reflexivity. }
  unfold pathString, emailValid, emailComplaint, emailOf, setString.
  destruct v as [j|]; [|reflexivity].
  destruct j; cbn [castString]; first [apply H | reflexivity].
Qed.

Lemma report_grade rt v :
  failure "grade" (pathString rt (p_grade studentSchema) "grade" v)
  = complain (gradeValid rt v) "grade" (gradeComplaint rt v).
Proof.
  assert (H : forall s,
    failure "grade"
      (match validateString rt (p_grade studentSchema)
               (Value (applySetters (p_grade studentSchema) s)) with
       | Some msg => inl msg
       | None => inr (Value (applySetters (p_grade studentSchema) s))
       end)
    = complain (mem s gradeValues) "grade"
        ("`" ++ s ++ "` is not a valid enum value for path `grade`.")%string).
  { intro s. unfold applySetters.
    cbn [studentSchema p_grade s_trim s_lowercase].
    rewrite validate_grade.
    destruct (mem s gradeValues); reflexivity. }
  unfold pathString, gradeValid, gradeComplaint, setString.
  destruct v as [j|]; [|reflexivity].
  destruct j; cbn [castString]; try apply H.
  unfold validateString; cbn.
  destruct (enumAcceptsNull rt); reflexivity.
Qed.

Lemma report_date rt cx t path v :
  failure path (pathDate rt cx t path v)
  = complain (enrollmentDateValid rt v) path (dateComplaint rt path v).
Proof.
  unfold pathDate, enrollmentDateValid, dateComplaint.
  destruct v as [j|]; [|reflexivity].
  destruct (castDate rt j); reflexivity.
Qed.

Lemma report_id rt cx v :
  failure "_id" (pathId rt cx v)
  = complain (idValid rt v) "_id" (idComplaint rt v).
Proof.
  unfold pathId, idValid, idComplaint.
  destruct v as [s|]; [|reflexivity].
  destruct (castObjectId rt s); reflexivity.
Qed.

(** Validation records exactly the violated fields, each with the message
    of the schema, in the order of the paths. *)
Lemma failures_complaints rt cx b : failures rt cx b = complaints rt b.
Proof.
  unfold failures, complaints, timestampValid.
  now rewrite report_name, report_age, report_course, report_email,
    report_grade, !report_date, report_id.
Qed.

Lemma complain_fst ok path msg :
  map fst (complain ok path msg) = unless ok path.
Proof. destruct ok; reflexivity. Qed.

Lemma complaints_violated rt b : map fst (complaints rt b) = violated rt b.
Proof.
  unfold complaints, violated. now rewrite !map_app, !complain_fst.
Qed.

Lemma failures_violated rt cx b : map fst (failures rt cx b) = violated rt b.
Proof. rewrite failures_complaints. apply complaints_violated. Qed.

Lemma unless_nil ok path : unless ok path = [] -> ok = true.
Proof. destruct ok; [reflexivity | discriminate]. Qed.

Lemma failure_nil {A : Type} path (r : string + A) :
  failure path r = [] -> exists a, r = inr a.
Proof. destruct r; [discriminate | eauto]. Qed.

(** A document is built exactly when nothing was recorded. *)
Lemma document_none rt cx b :
  document rt cx b = None -> failures rt cx b <> [].
Proof.
  unfold document, failures.
  destruct (pathString rt (p_name studentSchema) "name" _); [discriminate 2|].
  destruct (pathNumber _ _ _ _); [discriminate 2|].
  destruct (pathString rt (p_course studentSchema) "course" _);
    [discriminate 2|].
  destruct (pathString rt (p_email studentSchema) "email" _);
    [discriminate 2|].
  destruct (pathString rt (p_grade studentSchema) "grade" _);
    [discriminate 2|].
  destruct (pathDate rt cx (p_enrollmentDate studentSchema) _ _);
    [discriminate 2|].
  destruct (pathId _ _ _); [discriminate 2|].
  destruct (pathDate rt cx timestampPath "createdAt" _); [discriminate 2|].
  destruct (pathDate rt cx timestampPath "updatedAt" _); [discriminate 2|].
  discriminate 1.
Qed.

Lemma document_some rt cx b doc :
  document rt cx b = Some doc -> failures rt cx b = [].
Proof.
  unfold document, failures.
  destruct (pathString rt (p_name studentSchema) "name" _); [discriminate|].
  destruct (pathNumber _ _ _ _); [discriminate|].
  destruct (pathString rt (p_course studentSchema) "course" _);
    [discriminate|].
  destruct (pathString rt (p_email studentSchema) "email" _);
    [discriminate|].
  destruct (pathString rt (p_grade studentSchema) "grade" _);
    [discriminate|].
  destruct (pathDate rt cx (p_enrollmentDate studentSchema) _ _);
    [discriminate|].
  destruct (pathId _ _ _); [discriminate|].
  destruct (pathDate rt cx timestampPath "createdAt" _); [discriminate|].
  destruct (pathDate rt cx timestampPath "updatedAt" _); [discriminate|].
  reflexivity.
Qed.

Lemma violated_failures rt cx b :
  violated rt b = [] <-> failures rt cx b = [].
Proof.
  rewrite <- (failures_violated rt cx b). split.
  - intro H. now apply map_eq_nil in H.
  - intros ->. reflexivity.
Qed.

(** A payload with a violated field is rejected with the recorded entries,
    in the order the request arranges them. *)
Lemma create_invalid rt cx b db :
  violated rt b <> [] ->
  create rt cx b db = inl (ValidationError (arrange cx (failures rt cx b))).
Proof.
  intro Hv. unfold create.
  destruct (document rt cx b) as [doc|] eqn:E; [|reflexivity].
  exfalso. apply Hv. apply (violated_failures rt cx b).
  now apply (document_some rt cx b doc).
Qed.

Lemma path_email_stored rt v f :
  pathString rt (p_email studentSchema) "email" v = inr f ->
  exists e, f = Value e /\ emailOf rt v = Some e /\ JS.toLowerCase e = e
            /\ Regex.matches emailPattern e = true.
Proof.
  unfold pathString, emailOf, setString.
  destruct v as [j|]; [|discriminate].
  destruct (castString rt j) as [[| |s]|]; try discriminate.
  unfold applySetters; cbn [studentSchema p_email s_trim s_lowercase].
  rewrite validate_email.
  destruct (Regex.matches emailPattern (JS.toLowerCase s)) eqn:E.
  - intro H; injection H as <-. exists (JS.toLowerCase s).
    repeat split; auto. apply JSFacts.toLowerCase_idem.
  - destruct (JS.toLowerCase s); discriminate.
Qed.

Lemma path_course_stored rt v f :
  pathString rt (p_course studentSchema) "course" v = inr f ->
  exists c, f = Value c /\ In c courseValues.
Proof.
  unfold pathString, setString.
  destruct v as [j|]; [|discriminate].
  destruct (castString rt j) as [[| |s]|]; try discriminate.
  unfold applySetters; cbn [studentSchema p_course s_trim s_lowercase].
  rewrite validate_course.
  destruct (mem (JS.trim s) courseValues) eqn:E.
  - intro H; injection H as <-. exists (JS.trim s). split; auto.
    now apply JSFacts.mem_In.
  - destruct (JS.trim s); discriminate.
Qed.

Lemma path_grade_default rt f :
  pathString rt (p_grade studentSchema) "grade" None = inr f ->
  f = Value "C".
Proof. cbv. intro H; injection H as <-; reflexivity. Qed.

Lemma pathId_identifier rt cx b oid :
  pathId rt cx (body__id b) = inr oid -> oid = identifierOf rt cx b.
Proof.
  unfold pathId, identifierOf.
  destruct (body__id b) as [s|]; [|now intro H; injection H as <-].
  destruct (castObjectId rt s); [|discriminate].
  intro H. now injection H as <-.
Qed.

Lemma pathDate_created rt cx b f :
  pathDate rt cx timestampPath "createdAt" (body_createdAt b) = inr f ->
  match stored f with
  | Some t => t
  | None => now cx
  end = createdOf rt cx b.
Proof.
  unfold pathDate, createdOf.
  destruct (body_createdAt b) as [j|].
  - destruct (castDate rt j) as [[| |t]|]; [| | |discriminate];
      intro H; injection H as <-; reflexivity.
  - cbn. intro H. injection H as <-. reflexivity.
Qed.

(** What a built document holds. *)
Lemma document_facts rt cx b doc :
  document rt cx b = Some doc ->
  _id doc = identifierOf rt cx b
  /\ createdAt doc = createdOf rt cx b
  /\ updatedAt doc = createdOf rt cx b
  /\ (exists e, email doc = Some e
                /\ emailOf rt (body_email b) = Some e
                /\ JS.toLowerCase e = e)
  /\ (exists c, course doc = Some c /\ In c courseValues)
  /\ (body_grade b = None -> grade doc = Some "C").
Proof.
  unfold document.
  destruct (pathString rt (p_name studentSchema) "name" _) as [?|fn];
    [discriminate|].
  destruct (pathNumber _ _ _ _) as [?|fa]; [discriminate|].
  destruct (pathString rt (p_course studentSchema) "course" _) as [?|fc]
    eqn:Ec; [discriminate|].
  destruct (pathString rt (p_email studentSchema) "email" _) as [?|fe]
    eqn:Ee; [discriminate|].
  destruct (pathString rt (p_grade studentSchema) "grade" _) as [?|fg]
    eqn:Eg; [discriminate|].
  destruct (pathDate rt cx (p_enrollmentDate studentSchema) _ _) as [?|fd];
    [discriminate|].
  destruct (pathId _ _ _) as [?|oid] eqn:Ei; [discriminate|].
  destruct (pathDate rt cx timestampPath "createdAt" _) as [?|fs] eqn:Es;
    [discriminate|].
  destruct (pathDate rt cx timestampPath "updatedAt" _) as [?|fu];
    [discriminate|].
  intro H. injection H as <-.
  cbn [_id createdAt updatedAt email course grade].
  rewrite (pathDate_created _ _ _ _ Es).
  split; [now apply pathId_identifier|].
  split; [reflexivity|]. split; [reflexivity|].
  split; [|split].
  - destruct (path_email_stored _ _ _ Ee) as (e & -> & E1 & E2 & _).
    exists e. auto.
  - destruct (path_course_stored _ _ _ Ec) as (c & -> & E1). exists c. auto.
  - intro G. rewrite G in Eg. now rewrite (path_grade_default _ _ Eg).
Qed.

(** What [create] builds from a payload that passes validation. *)
Lemma create_valid rt cx b db :
  violated rt b = [] ->
  exists doc,
    document rt cx b = Some doc
    /\ create rt cx b db
       = (if conflicts doc db then throw duplicateKey
          else ret (db ++ [doc], doc))
    /\ _id doc = identifierOf rt cx b
    /\ createdAt doc = createdOf rt cx b
    /\ updatedAt doc = createdOf rt cx b
    /\ (exists e, email doc = Some e
                  /\ emailOf rt (body_email b) = Some e
                  /\ JS.toLowerCase e = e)
    /\ (exists c, course doc = Some c /\ In c courseValues)
    /\ (body_grade b = None -> grade doc = Some "C").
Proof.
  intro Hv. unfold create.
  destruct (document rt cx b) as [doc|] eqn:E.
  - exists doc. split; [reflexivity|]. split; [reflexivity|].
    now apply document_facts.
  - exfalso. apply (document_none rt cx b E).
    now apply (violated_failures rt cx b).
Qed.

(** What a successful [create] did. *)
Lemma create_inv rt cx b db db' doc :
  create rt cx b db = inr (db', doc) ->
  violated rt b = []
  /\ document rt cx b = Some doc
  /\ conflicts doc db = false
  /\ db' = db ++ [doc].
Proof.
  unfold create. destruct (document rt cx b) as [d|] eqn:Ed; [|discriminate].
  destruct (conflicts d db) eqn:E; [discriminate|].
  intro H. injection H as <- <-. repeat split; try assumption.
  apply (violated_failures rt cx b). now apply (document_some rt cx b d).
Qed.

Lemma violated_nil rt b :
  violated rt b = [] ->
  nameValid rt (body_name b) = true
  /\ ageValid rt (body_age b) = true
  /\ courseValid rt (body_course b) = true
  /\ emailValid rt (body_email b) = true
  /\ gradeValid rt (body_grade b) = true
  /\ enrollmentDateValid rt (body_enrollmentDate b) = true.
Proof.
  unfold violated. intro H.
  repeat (apply app_eq_nil in H; destruct H as [?%unless_nil H]).
  repeat split; assumption.
Qed.

End CreateFacts.

(* ================================================================== *)
(** ** Creating a student *)

Module IndexFacts.
Import Student.

Lemma opt_string_eqb_eq a b : opt_string_eqb a b = true <-> a = b.
Proof.
  destruct a as [x|], b as [y|]; simpl; split; intro H;
    try discriminate; try reflexivity.
  - apply String.eqb_eq in H. now subst.
  - injection H as ->. apply String.eqb_refl.
Qed.

Lemma conflicts_false d db :
  ~ In (_id d) (map _id db) -> ~ In (email d) (map email db) ->
  conflicts d db = false.
Proof.
  intros Hi He. unfold conflicts.
  destruct (existsb _ db) eqn:E; [|reflexivity].
  apply existsb_exists in E as (x & Hx & Hc).
  apply orb_true_iff in Hc as [Hc|Hc].
  - apply N.eqb_eq in Hc. exfalso. apply Hi. rewrite <- Hc.
    now apply in_map.
  - apply opt_string_eqb_eq in Hc. exfalso. apply He. rewrite <- Hc.
    now apply in_map.
Qed.

Lemma conflicts_email d db x :
  In x db -> email x = email d -> conflicts d db = true.
Proof.
  intros Hx He. unfold conflicts. apply existsb_exists.
  exists x. split; [assumption|]. apply orb_true_iff. right.
  now apply opt_string_eqb_eq.
Qed.

End IndexFacts.

(** C1 (as the code has it). A create request whose payload satisfies every
    field constraint, whose email is not stored yet and whose identifier
    (the [_id] the payload sends or, when it sends none, the generated
    ObjectId) is not the identifier of a stored student is answered with
    status 201 and the new record, appended to the collection: its [_id] is
    that identifier, its [createdAt] and [updatedAt] are both the
    [createdAt] the payload sends or, when it sends none, the time of the
    save, and its [grade] is "C" when the payload omits it.  So a payload
    that sends neither [_id] nor [createdAt] gets the generated identifier
    and the time of the save. *)
Theorem createStudent_created rt cx req db :
  Constraints.violated rt (body req) = [] ->
  ~ In (Constraints.emailOf rt (body_email (body req))) (map email db) ->
  ~ In (Constraints.identifierOf rt cx (body req)) (map _id db) ->
  exists doc,
    createStudent rt cx req db
    = (db ++ [doc],
       with_data (One doc)
         (with_message "Student created successfully" (json 201 true)))
    /\ _id doc = Constraints.identifierOf rt cx (body req)
    /\ createdAt doc = Constraints.createdOf rt cx (body req)
    /\ updatedAt doc = Constraints.createdOf rt cx (body req)
    /\ (body__id (body req) = None -> _id doc = newObjectId cx)
    /\ (body_createdAt (body req) = None ->
        createdAt doc = now cx /\ updatedAt doc = now cx)
    /\ (body_grade (body req) = None -> grade doc = Some "C").
Proof.
  intros Hv He Hi.
  destruct (CreateFacts.create_valid rt cx _ db Hv)
    as (doc & _ & Hc & Eid & Ec & Eu & (e & Ee & Eo & _) & _ & Eg).
  exists doc. split; [|repeat split; try assumption].
  - unfold createStudent. rewrite Hc.
    rewrite IndexFacts.conflicts_false; [reflexivity | now rewrite Eid |].
    now rewrite Ee, <- Eo.
  - intro H. rewrite Eid. unfold Constraints.identifierOf. now rewrite H.
  - rewrite Ec. unfold Constraints.createdOf. now rewrite H.
  - rewrite Eu. unfold Constraints.createdOf. now rewrite H.
Qed.

Lemma createStudent_created_witness :
  exists doc,
    createStudent Sample.rt (Sample.at_ 5000 3%N)
      (Sample.request "" "" Sample.john) [Sample.maryDoc]
    = ([Sample.maryDoc] ++ [doc],
       with_data (One doc)
         (with_message "Student created successfully" (json 201 true)))
    /\ _id doc = 3%N
    /\ createdAt doc = 5000
    /\ updatedAt doc = 5000
    /\ (body__id Sample.john = None -> _id doc = 3%N)
    /\ (body_createdAt Sample.john = None ->
        createdAt doc = 5000 /\ updatedAt doc = 5000)
    /\ (body_grade Sample.john = None -> grade doc = Some "C").
Proof.
  apply (createStudent_created Sample.rt (Sample.at_ 5000 3%N)
           (Sample.request "" "" Sample.john) [Sample.maryDoc]).
  - vm_compute. reflexivity.
  - vm_compute. intros [H|[]]. discriminate H.
  - vm_compute. intros [H|[]]. discriminate H.
Defined.

(** C1, counterexample to the claim as stated.  Both payloads have the four
    required fields valid and an email that is not stored.  The first
    sends the [_id] of a stored student and is answered with status 400
    "Email already exists"; the second sends a [createdAt] of its own and
    is answered with status 201 and a record whose [createdAt] and
    [updatedAt] are that value, not the time of the save. *)
Lemma createStudent_created_counterexample :
  let ann i c :=
    {| body_name := Some (JStr "Ann Lee"); body_age := Some (JNum 19);
       body_course := Some (JStr "Physics");
       body_email := Some (JStr "ann.lee@example.com");
       body_grade := None; body_enrollmentDate := None;
       body__id := i; body_createdAt := c; body_updatedAt := None |} in
  let cx := Sample.at_ 5000 3%N in
  let r1 := snd (createStudent Sample.rt cx
                   (Sample.request "" "" (ann (Some Sample.id1) None))
                   [Sample.johnDoc]) in
  let r2 := snd (createStudent Sample.rt cx
                   (Sample.request "" "" (ann None (Some (JNum 5))))
                   [Sample.johnDoc]) in
  Constraints.violated Sample.rt (ann (Some Sample.id1) None) = []
  /\ ~ In (Some "ann.lee@example.com") (map email [Sample.johnDoc])
  /\ status r1 = 400
  /\ message r1 = Some "Email already exists"
  /\ Constraints.violated Sample.rt (ann None (Some (JNum 5))) = []
  /\ status r2 = 201
  /\ (exists doc, data r2 = Some (One doc)
                  /\ createdAt doc = 5 /\ updatedAt doc = 5
                  /\ createdAt doc <> now cx).
Proof.
  cbv zeta. repeat split; try (vm_compute; reflexivity).
  - vm_compute. intros [H|[]]. discriminate H.
  - eexists. split; [vm_compute; reflexivity|].
    repeat split. vm_compute. discriminate.
Qed.

(** C2 (as the code has it). A create request whose payload satisfies every
    field constraint and whose email, lower-cased, is the lower-cased email
    of a stored student is answered with status 400 and the message
    "Email already exists"; the collection is unchanged. *)
Theorem createStudent_duplicate_email rt cx req db d e :
  Invariant.lowercaseEmails db ->
  Constraints.violated rt (body req) = [] ->
  In d db ->
  email d = Some e ->
  Constraints.emailOf rt (body_email (body req)) = Some (JS.toLowerCase e) ->
  createStudent rt cx req db
  = (db, with_message "Email already exists" (json 400 false)).
Proof.
  intros Hl Hv Hd He Hp.
  destruct (CreateFacts.create_valid rt cx _ db Hv)
    as (doc & _ & Hc & _ & _ & _ & (e' & Ee & Eo & _) & _).
  unfold createStudent. rewrite Hc.
  rewrite (IndexFacts.conflicts_email doc db d); [reflexivity | assumption |].
  rewrite Ee, He. rewrite Hp in Eo. injection Eo as <-.
  f_equal. symmetry.
  unfold Invariant.lowercaseEmails in Hl. rewrite Forall_forall in Hl.
  now apply (Hl d Hd).
Qed.

Lemma createStudent_duplicate_email_witness :
  createStudent Sample.rt (Sample.at_ 5000 3%N)
    (Sample.request "" "" Sample.john) [Sample.johnDoc]
  = ([Sample.johnDoc], with_message "Email already exists" (json 400 false)).
Proof.
  apply (createStudent_duplicate_email Sample.rt (Sample.at_ 5000 3%N)
           (Sample.request "" "" Sample.john) [Sample.johnDoc]
           Sample.johnDoc "john.doe@example.com").
  - repeat constructor. intros e H. injection H as <-. reflexivity.
  - vm_compute. reflexivity.
  - left. reflexivity.
  - reflexivity.
  - vm_compute. reflexivity.
Defined.

(** C2, counterexample to the claim as stated: the payload carries only an
    email, equal to a stored one; the answer is the validation failure, not
    "Email already exists". *)
Lemma createStudent_duplicate_email_counterexample :
  let b := {| body_name := None; body_age := None; body_course := None;
              body_email := Some (JStr "John.Doe@Example.com");
              body_grade := None; body_enrollmentDate := None;
              body__id := None; body_createdAt := None;
              body_updatedAt := None |} in
  let r := snd (createStudent Sample.rt (Sample.at_ 5000 3%N)
                  (Sample.request "" "" b) [Sample.johnDoc]) in
  (exists d e s,
      In d [Sample.johnDoc] /\ email d = Some e
      /\ body_email b = Some (JStr s)
      /\ JS.toLowerCase s = JS.toLowerCase e)
  /\ status r = 400
  /\ message r = Some "Validation Error"
  /\ message r <> Some "Email already exists".
Proof.
  cbv zeta. split; [|split; [|split]].
  - exists Sample.johnDoc, "john.doe@example.com", "John.Doe@Example.com".
    repeat split. now left.
  - vm_compute. reflexivity.
  - vm_compute. reflexivity.
  - vm_compute. discriminate.
Qed.



(* ================================================================== *)
(** ** Looking up, removing and sorting documents *)

Module CollectionFacts.
Import Student Invariant.

Lemma lookup_absent oid db : ~ In oid (ids db) -> lookup oid db = None.
Proof.
  unfold lookup. induction db as [|x r IH]; simpl; intro H; [reflexivity|].
  destruct (N.eqb_spec (_id x) oid) as [E|E].
  - exfalso. apply H. now left.
  - apply IH. intro Hr. apply H. now right.
Qed.

Lemma lookup_found oid db d :
  lookup oid db = Some d -> In d db /\ _id d = oid.
Proof.
  unfold lookup. intro H. apply find_some in H as [H1 H2].
  split; [assumption | now apply N.eqb_eq].
Qed.

Lemma lookup_stored db d :
  uniqueIds db -> In d db -> lookup (_id d) db = Some d.
Proof.
  unfold uniqueIds, lookup, ids.
  induction db as [|x r IH]; simpl; intros Hn Hd; [contradiction|].
  inversion Hn as [|? ? Hx Hr]; subst.
  destruct Hd as [->|Hd].
  - now rewrite N.eqb_refl.
  - destruct (N.eqb_spec (_id x) (_id d)) as [E|E].
    + exfalso. apply Hx. rewrite E. now apply in_map.
    + now apply IH.
Qed.

Lemma filter_all {A : Type} (f : A -> bool) (l : list A) :
  (forall x, In x l -> f x = true) -> filter f l = l.
Proof.
  induction l as [|x r IH]; simpl; intro H; [reflexivity|].
  rewrite (H x (or_introl eq_refl)). f_equal. apply IH.
  intros y Hy. apply H. now right.
Qed.

Lemma filter_filter {A : Type} (f g : A -> bool) (l : list A) :
  filter f (filter g l) = filter (fun x => g x && f x) l.
Proof.
  induction l as [|x r IH]; simpl; [reflexivity|].
  destruct (g x); simpl; [destruct (f x)|]; now rewrite IH.
Qed.

(** Removing by identifier leaves the other identifiers in place. *)
Lemma ids_remove oid db :
  uniqueIds db ->
  ids (remove oid db) = filter (fun i => negb (N.eqb i oid)) (ids db).
Proof.
  unfold uniqueIds, ids.
  induction db as [|x r IH]; simpl; intro Hn; [reflexivity|].
  inversion Hn as [|? ? Hx Hr]; subst.
  destruct (N.eqb_spec (_id x) oid) as [E|E]; simpl.
  - symmetry. apply filter_all. intros y Hy.
    destruct (N.eqb_spec y oid) as [E'|E']; [|reflexivity].
    exfalso. apply Hx. now rewrite E, <- E'.
  - now rewrite IH.
Qed.

Lemma remove_unique oid db : uniqueIds db -> uniqueIds (remove oid db).
Proof.
  intro H. unfold uniqueIds. rewrite (ids_remove oid db H).
  now apply NoDup_filter.
Qed.

Lemma remove_absent oid db : uniqueIds db -> ~ In oid (ids (remove oid db)).
Proof.
  intros H Hin. rewrite (ids_remove oid db H) in Hin.
  apply filter_In in Hin as [_ Hf]. now rewrite N.eqb_refl in Hf.
Qed.

Lemma remove_incl oid db d : In d (remove oid db) -> In d db.
Proof.
  induction db as [|x r IH]; simpl; [auto|].
  destruct (N.eqb (_id x) oid); simpl; [auto|].
  intros [->|H]; [now left | right; now apply IH].
Qed.

Lemma ids_replace d db : ids (replace d db) = ids db.
Proof.
  unfold ids. induction db as [|x r IH]; simpl; [reflexivity|].
  destruct (N.eqb_spec (_id x) (_id d)) as [E|E]; simpl.
  - now rewrite E.
  - now rewrite IH.
Qed.

Lemma replace_In d db x :
  In x (replace d db) -> x = d \/ In x db.
Proof.
  induction db as [|y r IH]; simpl; [auto|].
  destruct (N.eqb (_id y) (_id d)); simpl.
  - intros [<-|H]; auto.
  - intros [<-|H]; auto. destruct (IH H); auto.
Qed.

Lemma insertDesc_perm d l : Permutation (d :: l) (insertDesc d l).
Proof.
  induction l as [|x r IH]; simpl; [apply Permutation_refl|].
  destruct (createdAt x <? createdAt d); [apply Permutation_refl|].
  eapply perm_trans; [apply perm_swap|]. now apply perm_skip.
Qed.

Lemma sort_perm l : Permutation l (sortByCreatedAtDesc l).
Proof.
  induction l as [|x r IH]; simpl; [constructor|].
  eapply perm_trans; [apply perm_skip, IH | apply insertDesc_perm].
Qed.

Lemma insertDesc_Forall (P : Document -> Prop) d l :
  P d -> Forall P l -> Forall P (insertDesc d l).
Proof.
  intros Hd. induction 1 as [|x r Hx Hr IH]; simpl.
  - repeat constructor; assumption.
  - destruct (createdAt x <? createdAt d); repeat constructor; assumption.
Qed.

Lemma insertDesc_sorted d l :
  StronglySorted newerFirst l -> StronglySorted newerFirst (insertDesc d l).
Proof.
  induction 1 as [|x r Hs IH Hf]; simpl.
  - repeat constructor.
  - destruct (Z.ltb_spec (createdAt x) (createdAt d)) as [E|E].
    + constructor; [now constructor|].
      constructor; [unfold newerFirst; lia|].
      eapply Forall_impl; [|exact Hf].
      unfold newerFirst. intros a Ha. lia.
    + constructor; [assumption|].
      apply insertDesc_Forall; [exact E | assumption].
Qed.

Lemma sort_sorted l : StronglySorted newerFirst (sortByCreatedAtDesc l).
Proof.
  induction l as [|x r IH]; simpl; [constructor | now apply insertDesc_sorted].
Qed.

End CollectionFacts.

(* ================================================================== *)
(** ** Reading students *)

Module ReadFacts.

Lemma getStudentById_missing rt cx req db oid :
  castObjectId rt (id (params req)) = Some oid ->
  ~ In oid (map _id db) ->
  getStudentById rt cx req db
  = (db, with_message "Student not found" (json 404 false)).
Proof.
  unfold getStudentById, Student.findById.
  intros -> Hn. unfold ret.
  now rewrite (CollectionFacts.lookup_absent oid db Hn).
Qed.

End ReadFacts.

(** C4. Get by id: a malformed identifier is answered with status 400 and
    "Invalid student ID"; a well-formed identifier of no stored student with
    status 404 and "Student not found"; the identifier of a stored student
    with status 200 and that record. *)
Theorem getStudentById_cases rt cx req db :
  (castObjectId rt (id (params req)) = None ->
   getStudentById rt cx req db
   = (db, with_message "Invalid student ID" (json 400 false)))
  /\ (forall oid,
        castObjectId rt (id (params req)) = Some oid ->
        ~ In oid (map _id db) ->
        getStudentById rt cx req db
        = (db, with_message "Student not found" (json 404 false)))
  /\ (forall d,
        castObjectId rt (id (params req)) = Some (_id d) ->
        Invariant.uniqueIds db ->
        In d db ->
        getStudentById rt cx req db
        = (db, with_data (One d) (json 200 true))).
Proof.
  split; [|split].
  - intro Hc. unfold getStudentById, Student.findById. now rewrite Hc.
  - intros oid Hc Hn.
    now apply ReadFacts.getStudentById_missing with (oid := oid).
  - intros d Hc Hu Hd. unfold getStudentById, Student.findById, ret.
    rewrite Hc. now rewrite (CollectionFacts.lookup_stored db d Hu Hd).
Qed.

Lemma getStudentById_cases_witness :
  getStudentById Sample.rt (Sample.at_ 0 0%N)
    (Sample.request "not-an-id" "" Sample.noBody)
    [Sample.johnDoc; Sample.maryDoc]
  = ([Sample.johnDoc; Sample.maryDoc],
     with_message "Invalid student ID" (json 400 false))
  /\ getStudentById Sample.rt (Sample.at_ 0 0%N)
       (Sample.request Sample.id9 "" Sample.noBody)
       [Sample.johnDoc; Sample.maryDoc]
     = ([Sample.johnDoc; Sample.maryDoc],
        with_message "Student not found" (json 404 false))
  /\ getStudentById Sample.rt (Sample.at_ 0 0%N)
       (Sample.request Sample.id2 "" Sample.noBody)
       [Sample.johnDoc; Sample.maryDoc]
     = ([Sample.johnDoc; Sample.maryDoc],
        with_data (One Sample.maryDoc) (json 200 true)).
Proof.
  split; [|split].
  - apply (proj1 (getStudentById_cases Sample.rt (Sample.at_ 0 0%N)
                    (Sample.request "not-an-id" "" Sample.noBody)
                    [Sample.johnDoc; Sample.maryDoc])).
    vm_compute. reflexivity.
  - apply (proj1 (proj2 (getStudentById_cases Sample.rt (Sample.at_ 0 0%N)
                           (Sample.request Sample.id9 "" Sample.noBody)
                           [Sample.johnDoc; Sample.maryDoc])) 9%N).
    + vm_compute. reflexivity.
    + vm_compute. intros [H|[H|[]]]; discriminate H.
  - apply (proj2 (proj2 (getStudentById_cases Sample.rt (Sample.at_ 0 0%N)
                           (Sample.request Sample.id2 "" Sample.noBody)
                           [Sample.johnDoc; Sample.maryDoc])) Sample.maryDoc).
    + vm_compute. reflexivity.
    + unfold Invariant.uniqueIds. vm_compute.
      constructor; [intros [H|[]]; discriminate H|].
      constructor; [intros []|constructor].
    + right. left. reflexivity.
Defined.

(** C8. List all: the answer has status 200, its data is a rearrangement of
    the whole collection (every stored student, nothing filtered, nothing
    cut off) in descending order of [createdAt], and [count] is the length
    of the data. *)
Theorem getAllStudents_lists_all rt cx req db :
  exists l,
    getAllStudents rt cx req db
    = (db, with_data (Many l) (with_count (List.length l) (json 200 true)))
    /\ Permutation db l
    /\ StronglySorted Invariant.newerFirst l.
Proof.
  exists (Student.sortByCreatedAtDesc db). split; [reflexivity|]. split.
  - apply CollectionFacts.sort_perm.
  - apply CollectionFacts.sort_sorted.
Qed.

(* ================================================================== *)
(** ** Deleting a student *)

(** C7. Deleting a stored student by its identifier is answered with status
    200 and an empty data object; a get by the same identifier on the
    resulting collection is answered with status 404. *)
Theorem deleteStudent_then_get rt cx cx' req db d :
  Invariant.uniqueIds db ->
  In d db ->
  castObjectId rt (id (params req)) = Some (_id d) ->
  exists db',
    deleteStudent rt cx req db
    = (db', with_data EmptyObject
              (with_message "Student deleted successfully" (json 200 true)))
    /\ getStudentById rt cx' req db'
       = (db', with_message "Student not found" (json 404 false)).
Proof.
  intros Hu Hd Hc.
  exists (Student.remove (_id d) db). split.
  - unfold deleteStudent, Student.findByIdAndDelete. rewrite Hc.
    now rewrite (CollectionFacts.lookup_stored db d Hu Hd).
  - apply ReadFacts.getStudentById_missing with (oid := _id d); [exact Hc|].
    now apply CollectionFacts.remove_absent.
Qed.

Lemma deleteStudent_then_get_witness :
  exists db',
    deleteStudent Sample.rt (Sample.at_ 0 0%N)
      (Sample.request Sample.id1 "" Sample.noBody)
      [Sample.johnDoc; Sample.maryDoc]
    = (db', with_data EmptyObject
              (with_message "Student deleted successfully" (json 200 true)))
    /\ getStudentById Sample.rt (Sample.at_ 7 0%N)
         (Sample.request Sample.id1 "" Sample.noBody) db'
       = (db', with_message "Student not found" (json 404 false)).
Proof.
  apply (deleteStudent_then_get Sample.rt (Sample.at_ 0 0%N)
           (Sample.at_ 7 0%N) (Sample.request Sample.id1 "" Sample.noBody)
           [Sample.johnDoc; Sample.maryDoc] Sample.johnDoc).
  - unfold Invariant.uniqueIds. vm_compute.
    constructor; [intros [H|[]]; discriminate H|].
    constructor; [intros []|constructor].
  - left. reflexivity.
  - vm_compute. reflexivity.
Defined.

(* ================================================================== *)
(** ** Listing by course *)

(** C9 (as the code has it). List by course: for every parameter string
    the answer has status 200; its data holds exactly the stored students
    whose course equals the parameter with the surrounding white space
    removed (case-sensitive), and [count] is its length.  When no stored
    course equals the trimmed parameter, in particular when the trimmed
    parameter is none of the eight labels and every stored course is one,
    the data is empty and the count is 0. *)
Theorem getStudentsByCourse_filters rt cx req db :
  let c := JS.trim (course_param (params req)) in
  exists l,
    getStudentsByCourse rt cx req db
    = (db, with_data (Many l) (with_count (List.length l) (json 200 true)))
    /\ (forall d, In d l <-> In d db /\ course d = Some c)
    /\ ((forall d, In d db -> course d <> Some c) -> l = [])
    /\ (Invariant.knownCourses db -> ~ In c courseValues -> l = []).
Proof.
  intro c.
  set (f := fun d => Student.opt_string_eqb (course d) (Some c)).
  assert (Hin : forall d, In d (filter f db) <-> In d db /\ course d = Some c).
  { intro d. rewrite filter_In. unfold f.
    now rewrite IndexFacts.opt_string_eqb_eq. }
  assert (Hnone : (forall d, In d db -> course d <> Some c) -> filter f db = []).
  { intro H. destruct (filter f db) as [|x r] eqn:E; [reflexivity|].
    assert (Hx : In x (x :: r)) by now left.
    apply Hin in Hx as [Hx1 Hx2]. now destruct (H x Hx1). }
  exists (filter f db). repeat split.
  - now apply Hin.
  - now apply Hin.
  - intros [H1 H2]. now apply Hin.
  - exact Hnone.
  - intros Hk Hc. apply Hnone. intros d Hd E.
    unfold Invariant.knownCourses in Hk. rewrite Forall_forall in Hk.
    destruct (Hk d Hd) as (c' & E' & Hc'). rewrite E in E'.
    injection E' as <-. contradiction.
Qed.

Lemma getStudentsByCourse_filters_witness :
  exists l,
    getStudentsByCourse Sample.rt (Sample.at_ 0 0%N)
      (Sample.request "" "Astronomy" Sample.noBody)
      [Sample.johnDoc; Sample.maryDoc]
    = ([Sample.johnDoc; Sample.maryDoc],
       with_data (Many l) (with_count (List.length l) (json 200 true)))
    /\ l = [].
Proof.
  destruct (getStudentsByCourse_filters Sample.rt (Sample.at_ 0 0%N)
              (Sample.request "" "Astronomy" Sample.noBody)
              [Sample.johnDoc; Sample.maryDoc])
    as (l & H1 & _ & _ & H4).
  exists l. split; [exact H1|]. apply H4.
  - repeat constructor.
    + exists "Computer Science". split; [reflexivity | now left].
    + exists "Arts". split; [reflexivity | simpl; tauto].
  - vm_compute. intuition discriminate.
Defined.

(** C9, counterexample to the claim as stated: the parameter " Arts" is
    none of the eight labels and differs from every stored course, yet the
    student whose course is "Arts" is returned and the count is 1. *)
Lemma getStudentsByCourse_exact_match_counterexample :
  let r := snd (getStudentsByCourse Sample.rt (Sample.at_ 0 0%N)
                  (Sample.request "" " Arts" Sample.noBody)
                  [Sample.johnDoc; Sample.maryDoc]) in
  ~ In " Arts" courseValues
  /\ course Sample.maryDoc <> Some " Arts"
  /\ data r = Some (Many [Sample.maryDoc])
  /\ count r = Some 1%nat.
Proof.
  cbv zeta. repeat split.
  - vm_compute. intuition discriminate.
  - discriminate.
Qed.

(* ================================================================== *)
(** ** Updating a student *)

Module UpdateFacts.
Import SchemaType Student Constraints Invariant.

Lemma setString_total rt t j : exists f, setString rt t j = Some f.
Proof. destruct j; cbn; eauto. Qed.

Lemma castUpdate_string rt t kind path v :
  exists u, castUpdate (setString rt t) rt kind path v = inr u
            /\ forall s, v = Some (JStr s) ->
                         u = Set_ (Value (applySetters t s)).
Proof.
  destruct v as [j|]; cbn.
  - destruct j; cbn; eexists; (split; [reflexivity|]);
      intros s' E; try discriminate E. now injection E as ->.
  - eexists; split; [reflexivity|]. intros s E. discriminate E.
Qed.

Lemma castUpdate_cases {A : Type} (cast : jvalue -> option (Field A))
      rt kind path v :
  (uncastable cast v = true
   /\ exists p m, castUpdate cast rt kind path v = inl (CastError p m))
  \/ (uncastable cast v = false
      /\ exists u, castUpdate cast rt kind path v = inr u).
Proof.
  unfold uncastable, castUpdate.
  destruct v as [j|]; [destruct (cast j)|]; eauto 6.
Qed.

Lemma uncastable_string rt v : uncastable (castString rt) v = false.
Proof. destruct v as [[]|]; reflexivity. Qed.

Lemma castFails_iff rt b :
  castFails rt b
  = uncastable (castNumber rt) (body_age b)
    || uncastable (castDate rt) (body_enrollmentDate b)
    || negb (idValid rt (body__id b)).
Proof.
  unfold castFails. rewrite !uncastable_string. simpl.
  now rewrite !orb_false_r.
Qed.

Lemma castUpdateId_cases rt v :
  (idValid rt v = false
   /\ exists p m, castUpdateId rt v = inl (CastError p m))
  \/ (idValid rt v = true /\ exists u, castUpdateId rt v = inr u).
Proof.
  unfold idValid, castUpdateId.
  destruct v as [s|]; [destruct (castObjectId rt s)|]; cbn; eauto 6.
Qed.

(** A payload with an uncastable value makes the update throw a cast
    error, whatever the identifier. *)
Lemma update_cast_error rt cx i b db :
  castFails rt b = true ->
  exists p m, findByIdAndUpdate rt cx i b db = inl (CastError p m).
Proof.
  rewrite castFails_iff. intro H. unfold findByIdAndUpdate.
  destruct (castObjectId rt i) as [oid|]; [|eauto].
  destruct (castUpdateId_cases rt (body__id b))
    as [(Ei & p & m & ->)|(Ei & ui & ->)]; [cbn; eauto|].
  destruct (castUpdate_string rt (p_name studentSchema) "String" "name"
              (body_name b)) as (un & -> & _).
  destruct (castUpdate_cases (castNumber rt) rt "Number" "age" (body_age b))
    as [(Ea & p & m & ->)|(Ea & ua & ->)]; [cbn; eauto|].
  destruct (castUpdate_string rt (p_course studentSchema) "String" "course"
              (body_course b)) as (uc & -> & _).
  destruct (castUpdate_string rt (p_email studentSchema) "String" "email"
              (body_email b)) as (ue & -> & _).
  destruct (castUpdate_string rt (p_grade studentSchema) "String" "grade"
              (body_grade b)) as (ug & -> & _).
  destruct (castUpdate_cases (castDate rt) rt "date" "enrollmentDate"
              (body_enrollmentDate b))
    as [(Ed & p & m & ->)|(Ed & ud & _)]; [cbn; eauto|].
  rewrite Ea, Ed, Ei in H. discriminate H.
Qed.


(** A successful update keeps every identifier where it is; the record
    it returns carries the identifier of the request and replaces a
    stored record with that identifier and creation time. *)
Lemma update_ids rt cx i b db db' r :
  findByIdAndUpdate rt cx i b db = inr (db', r) ->
  ids db' = ids db
  /\ forall d', r = Some d' ->
       castObjectId rt i = Some (_id d')
       /\ In d' db'
       /\ exists d, In d db /\ _id d = _id d' /\ createdAt d = createdAt d'.
Proof.
  unfold findByIdAndUpdate.
  destruct (castObjectId rt i) as [oid|]; [|discriminate].
  destruct (castUpdateId rt (body__id b)) as [?|ui]; [discriminate|].
  destruct (castUpdate _ _ _ "name" _) as [?|un]; [discriminate|].
  destruct (castUpdate _ _ _ "age" _) as [?|ua]; [discriminate|].
  destruct (castUpdate _ _ _ "course" _) as [?|uc]; [discriminate|].
  destruct (castUpdate _ _ _ "email" _) as [?|ue]; [discriminate|].
  destruct (castUpdate _ _ _ "grade" _) as [?|ug]; [discriminate|].
  destruct (castUpdate _ _ _ "enrollmentDate" _) as [?|ud]; [discriminate|].
  cbn [bind].
  match goal with |- match ?l with _ => _ end = _ -> _ =>
    destruct l; [|discriminate] end.
  destruct (lookup oid db) as [old|] eqn:El.
  - destruct (changesId ui old); [discriminate|].
    match goal with |- (if ?c then _ else _) = _ -> _ =>
      destruct c; [discriminate|] end.
    intro H. injection H as <- <-.
    apply CollectionFacts.lookup_found in El as [Ho Eo].
    split; [apply CollectionFacts.ids_replace|].
    intros d' E. injection E as <-. cbn [_id createdAt].
    split; [now rewrite Eo|]. split.
    + clear -Ho. induction db as [|x r IH]; [destruct Ho|].
      cbn [replace _id]. destruct Ho as [->|Ho].
      * rewrite N.eqb_refl. now left.
      * destruct (N.eqb (_id x) (_id old)); [now left | right; now apply IH].
    + exists old. auto.
  - intro H. injection H as <- <-. split; [reflexivity|]. discriminate.
Qed.

End UpdateFacts.

(** C10. An update request whose payload holds a value that cannot be cast
    to the type of its field (a non-numeric age, for one) is answered with
    status 400 and the message "Invalid student ID", without an errors list,
    and the collection is unchanged: this holds for every identifier, hence
    also for a well-formed identifier of a stored student. *)
Theorem updateStudent_cast_failure rt cx req db :
  Constraints.castFails rt (body req) = true ->
  updateStudent rt cx req db
  = (db, with_message "Invalid student ID" (json 400 false))
  /\ errors (snd (updateStudent rt cx req db)) = None.
Proof.
  intro H.
  destruct (UpdateFacts.update_cast_error rt cx (id (params req)) (body req)
              db H) as (p & m & E).
  unfold updateStudent. rewrite E. split; reflexivity.
Qed.

Lemma updateStudent_cast_failure_witness :
  let b := {| body_name := None; body_age := Some (JStr "abc");
              body_course := None; body_email := None;
              body_grade := None; body_enrollmentDate := None;
              body__id := None; body_createdAt := None;
              body_updatedAt := None |} in
  Student.lookup 1%N [Sample.johnDoc] = Some Sample.johnDoc
  /\ updateStudent Sample.rt (Sample.at_ 9000 0%N)
       (Sample.request Sample.id1 "" b) [Sample.johnDoc]
     = ([Sample.johnDoc], with_message "Invalid student ID" (json 400 false))
  /\ errors (snd (updateStudent Sample.rt (Sample.at_ 9000 0%N)
                    (Sample.request Sample.id1 "" b) [Sample.johnDoc]))
     = None.
Proof.
  cbv zeta. split; [reflexivity|].
  apply (updateStudent_cast_failure Sample.rt (Sample.at_ 9000 0%N)
           (Sample.request Sample.id1 ""
              {| body_name := None; body_age := Some (JStr "abc");
                 body_course := None; body_email := None;
                 body_grade := None; body_enrollmentDate := None;
                 body__id := None; body_createdAt := None;
                 body_updatedAt := None |})
           [Sample.johnDoc]).
  vm_compute. reflexivity.
Defined.




(* ================================================================== *)
(** ** Identifiers along a sequence of calls *)

Module RunFacts.
Import Student Invariant.

Lemma lookup_none_absent oid db :
  lookup oid db = None -> ~ In oid (ids db).
Proof.
  unfold lookup, ids. intros H Hin.
  apply in_map_iff in Hin as (x & Ex & Hx).
  apply (find_none _ _ H) in Hx. rewrite Ex, N.eqb_refl in Hx.
  discriminate Hx.
Qed.

Lemma create_appends rt cx b db db' doc :
  create rt cx b db = inr (db', doc) ->
  db' = db ++ [doc] /\ conflicts doc db = false
  /\ _id doc = Constraints.identifierOf rt cx b.
Proof.
  intro H. apply CreateFacts.create_inv in H as (_ & Hd & Hc & ->).
  repeat split; [assumption|].
  now apply (CreateFacts.document_facts rt cx b doc).
Qed.

Lemma conflicts_fresh d db : conflicts d db = false -> ~ In (_id d) (ids db).
Proof.
  unfold conflicts, ids. intros H Hin.
  apply in_map_iff in Hin as (x & Ex & Hx).
  assert (Hf : existsb (fun x => N.eqb (_id x) (_id d)
                                 || opt_string_eqb (email x) (email d)) db
               = true).
  { apply existsb_exists. exists x. split; [assumption|].
    rewrite Ex, N.eqb_refl. reflexivity. }
  rewrite H in Hf. discriminate Hf.
Qed.

Lemma survives_cons rt c rest i :
  survives rt (c :: rest) i = keeps rt c i && survives rt rest i.
Proof.
  unfold keeps, survives.
  assert (E : deleted rt (c :: rest) = deleted rt [c] ++ deleted rt rest).
  { destruct c as [[r cx] req]. destruct r; try reflexivity.
    simpl. destruct (castObjectId rt (id (params req))); reflexivity. }
  rewrite E, existsb_app, negb_orb. reflexivity.
Qed.

Lemma keeps_all rt c :
  deleted rt [c] = [] -> forall l, filter (keeps rt c) l = l.
Proof.
  intros E l. apply CollectionFacts.filter_all. intros x _.
  unfold keeps, survives. now rewrite E.
Qed.

Lemma fst_getStudentById rt cx req db :
  fst (getStudentById rt cx req db) = db.
Proof.
  unfold getStudentById.
  destruct (findById rt (id (params req)) db) as [e|[d|]];
    [destruct (name_is e "CastError")| |]; reflexivity.
Qed.

Lemma fst_createStudent rt cx req db :
  fst (createStudent rt cx req db) = db
  \/ exists doc, fst (createStudent rt cx req db) = db ++ [doc]
                 /\ ~ In (_id doc) (ids db)
                 /\ _id doc = Constraints.identifierOf rt cx (body req).
Proof.
  unfold createStudent.
  destruct (create rt cx (body req) db) as [e|[db' doc]] eqn:E.
  - left. destruct (code_is e 11000); [reflexivity|].
    destruct (name_is e "ValidationError"); reflexivity.
  - right. apply create_appends in E as (-> & Hc & Ei).
    exists doc. repeat split; [now apply conflicts_fresh | exact Ei].
Qed.

Lemma ids_updateStudent rt cx req db :
  ids (fst (updateStudent rt cx req db)) = ids db.
Proof.
  unfold updateStudent.
  destruct (findByIdAndUpdate rt cx (id (params req)) (body req) db)
    as [e|[db' r]] eqn:E.
  - destruct (name_is e "ValidationError"); [reflexivity|].
    destruct (name_is e "CastError"); reflexivity.
  - apply UpdateFacts.update_ids in E as [E _].
    destruct r; exact E.
Qed.

Lemma ids_deleteStudent rt cx req db :
  uniqueIds db ->
  ids (fst (deleteStudent rt cx req db))
  = filter (keeps rt (DELETE_student, cx, req)) (ids db).
Proof.
  intro Hu. unfold deleteStudent, findByIdAndDelete, keeps, survives, ret.
  cbn [deleted].
  destruct (castObjectId rt (id (params req))) as [oid|];
    cbn [fst existsb throw name_is error_name String.eqb Ascii.eqb
         Bool.eqb].
  - destruct (lookup oid db) as [d|] eqn:El; cbn [fst].
    + rewrite (CollectionFacts.ids_remove oid db Hu).
      apply filter_ext. intro i. now rewrite orb_false_r.
    + symmetry. apply CollectionFacts.filter_all. intros i Hi.
      rewrite orb_false_r. destruct (N.eqb_spec i oid) as [->|]; auto.
      exfalso. now apply (lookup_none_absent _ _ El).
  - symmetry. now apply CollectionFacts.filter_all.
Qed.

Lemma generated_cons rt c rest :
  generated rt (c :: rest) = generated rt [c] ++ generated rt rest.
Proof. destruct c as [[r cx] req]. destruct r; reflexivity. Qed.

(** One call: the identifiers it does not delete stay where they are,
    identifiers stay unique, and what is added was generated for it. *)
Lemma serve_ids rt c db :
  uniqueIds db ->
  uniqueIds (fst (serve rt c db))
  /\ exists news,
       ids (fst (serve rt c db)) = filter (keeps rt c) (ids db) ++ news
       /\ incl news (generated rt [c]).
Proof.
  intro Hu. destruct c as [[r cx] req]. destruct r; cbn [serve handler].
  - split; [exact Hu|]. exists [].
    rewrite keeps_all by reflexivity. rewrite app_nil_r.
    split; [reflexivity | apply incl_nil_l].
  - rewrite keeps_all by reflexivity.
    destruct (fst_createStudent rt cx req db) as [->|(doc & -> & Hf & Ei)].
    + split; [exact Hu|]. exists []. rewrite app_nil_r.
      split; [reflexivity | apply incl_nil_l].
    + split.
      * unfold uniqueIds, ids in *. rewrite map_app. cbn.
        apply NoDup_app; [exact Hu | repeat constructor; intros [] |].
        intros x Hx [<-|[]]. contradiction.
      * exists [_id doc]. unfold ids. rewrite map_app.
        split; [reflexivity|]. rewrite Ei. apply incl_refl.
  - rewrite fst_getStudentById. split; [exact Hu|]. exists [].
    rewrite keeps_all by reflexivity. rewrite app_nil_r.
    split; [reflexivity | apply incl_nil_l].
  - pose proof (ids_updateStudent rt cx req db) as E.
    split; [unfold uniqueIds; now rewrite E|]. exists [].
    rewrite E, keeps_all by reflexivity. rewrite app_nil_r.
    split; [reflexivity | apply incl_nil_l].
  - pose proof (ids_deleteStudent rt cx req db Hu) as E.
    split.
    + unfold uniqueIds. rewrite E. now apply NoDup_filter.
    + exists []. rewrite E, app_nil_r.
      split; [reflexivity | apply incl_nil_l].
  - split; [exact Hu|]. exists [].
    rewrite keeps_all by reflexivity. rewrite app_nil_r.
    split; [reflexivity | apply incl_nil_l].
Qed.

Lemma run_ids rt calls :
  forall db,
    uniqueIds db ->
    exists news,
      ids (run rt calls db) = filter (survives rt calls) (ids db) ++ news
      /\ incl news (generated rt calls).
Proof.
  induction calls as [|c rest IH]; intros db Hu.
  - exists []. cbn [run]. rewrite app_nil_r. split; [|apply incl_nil_l].
    symmetry. now apply CollectionFacts.filter_all.
  - cbn [run].
    destruct (serve_ids rt c db Hu) as (Hu1 & n1 & E1 & I1).
    destruct (IH _ Hu1) as (n2 & E2 & I2).
    exists (filter (survives rt rest) n1 ++ n2). split.
    + rewrite E2, E1, filter_app, CollectionFacts.filter_filter, app_assoc.
      f_equal. f_equal. apply filter_ext. intro i.
      symmetry. apply survives_cons.
    + rewrite generated_cons. apply incl_app.
      * apply incl_appl. intros x Hx. apply I1.
        now apply filter_In in Hx as [Hx _].
      * now apply incl_appr.
Qed.

End RunFacts.

(** C6. The identifier of a stored student never changes.  An update
    request, whatever its outcome, leaves the identifier at every position
    of the collection as it was, and the record a successful update returns
    is stored under the identifier of the request, which a record carried
    before the update.  Along every sequence of calls, the identifiers that
    no delete call names stay in the collection, in their order, and only
    the identifiers of create calls (the generated one, or the [_id] the
    payload sends) are added after them. *)
Theorem id_never_changes rt :
  (forall cx req db,
      map _id (fst (updateStudent rt cx req db)) = map _id db
      /\ forall d',
           data (snd (updateStudent rt cx req db)) = Some (One d') ->
           castObjectId rt (id (params req)) = Some (_id d')
           /\ In d' (fst (updateStudent rt cx req db))
           /\ exists d, In d db /\ _id d = _id d'
                        /\ createdAt d = createdAt d')
  /\ (forall calls db,
        Invariant.uniqueIds db ->
        exists news,
          map _id (run rt calls db)
          = filter (Invariant.survives rt calls) (map _id db) ++ news
          /\ incl news (Invariant.generated rt calls)).
Proof.
  split.
  - intros cx req db. split; [apply RunFacts.ids_updateStudent|].
    unfold updateStudent.
    destruct (Student.findByIdAndUpdate rt cx (id (params req)) (body req) db)
      as [e|[db' r]] eqn:E.
    + destruct (name_is e "ValidationError"); [discriminate|].
      destruct (name_is e "CastError"); discriminate.
    + apply UpdateFacts.update_ids in E as [_ E].
      destruct r as [d0|]; [|discriminate].
      intros d' H. injection H as <-. cbn [fst]. now apply E.
  - intros calls db Hu. apply (RunFacts.run_ids rt calls db Hu).
Qed.

Lemma id_never_changes_witness :
  let rename := {| body_name := Some (JStr "Johnny Doe"); body_age := None;
                   body_course := None; body_email := None;
                   body_grade := None; body_enrollmentDate := None;
                   body__id := None; body_createdAt := None;
                   body_updatedAt := None |} in
  let calls :=
    [(PUT_student, Sample.at_ 3000 0%N, Sample.request Sample.id1 "" rename);
     (DELETE_student, Sample.at_ 4000 0%N,
      Sample.request Sample.id2 "" Sample.noBody);
     (POST_students, Sample.at_ 5000 3%N,
      Sample.request "" "" {| body_name := Some (JStr "Ann Lee");
                              body_age := Some (JNum 19);
                              body_course := Some (JStr "Physics");
                              body_email := Some (JStr "ann@example.com");
                              body_grade := Some (JStr "B");
                              body_enrollmentDate := None;
                              body__id := None; body_createdAt := None;
                              body_updatedAt := None |})] in
  map _id (run Sample.rt calls [Sample.johnDoc; Sample.maryDoc]) = [1%N; 3%N]
  /\ exists news,
       map _id (run Sample.rt calls [Sample.johnDoc; Sample.maryDoc])
       = filter (Invariant.survives Sample.rt calls)
           (map _id [Sample.johnDoc; Sample.maryDoc]) ++ news
       /\ incl news (Invariant.generated Sample.rt calls).
Proof.
  cbv zeta. split; [vm_compute; reflexivity|].
  apply (proj2 (id_never_changes Sample.rt)).
  unfold Invariant.uniqueIds. vm_compute.
  constructor; [intros [H|[]]; discriminate H|].
  constructor; [intros []|constructor].
Defined.

(* ================================================================== *)
(** ** The properties of a collection are kept by every call *)

Module InvariantFacts.
Import SchemaType Student Constraints Invariant.

Lemma ok_empty : ok [].
Proof. repeat split; constructor. Qed.

Lemma create_keeps rt cx b db db' doc :
  create rt cx b db = inr (db', doc) ->
  lowercaseEmails db -> knownCourses db ->
  lowercaseEmails db' /\ knownCourses db'.
Proof.
  intros E Hl Hk.
  destruct (violated rt b) as [|p ps] eqn:Ev.
  - destruct (CreateFacts.create_valid rt cx b db Ev)
      as (doc0 & _ & Hc & _ & _ & _ & (e & Ee & _ & Elow) & (c & Ec & Hin)
          & _).
    rewrite Hc in E. destruct (conflicts doc0 db); [discriminate E|].
    injection E as <- <-.
    unfold lowercaseEmails, knownCourses. split; apply Forall_app; split;
      try assumption; repeat constructor.
    + intros e' He'. rewrite Ee in He'. now injection He' as <-.
    + exists c. auto.
  - assert (Hne : violated rt b <> []) by (rewrite Ev; discriminate).
    rewrite (CreateFacts.create_invalid rt cx b db Hne) in E.
    discriminate E.
Qed.

Lemma castUpdate_string_shape rt t kind path v u :
  castUpdate (setString rt t) rt kind path v = inr u ->
  u = Keep \/ u = Set_ Null
  \/ exists s, u = Set_ (Value (applySetters t s)).
Proof.
  destruct v as [j|]; cbn.
  - destruct j; cbn; intro H; injection H as <-; eauto.
  - intro H; injection H as <-. auto.
Qed.

Lemma replace_Forall (P : Document -> Prop) d db :
  P d -> Forall P db -> Forall P (replace d db).
Proof.
  intros Hd H. apply Forall_forall. intros x Hx.
  destruct (CollectionFacts.replace_In d db x Hx) as [->|Hin];
    [assumption|].
  rewrite Forall_forall in H. now apply H.
Qed.

Lemma update_keeps rt cx i b db db' r :
  findByIdAndUpdate rt cx i b db = inr (db', r) ->
  lowercaseEmails db -> knownCourses db ->
  lowercaseEmails db' /\ knownCourses db'.
Proof.
  unfold findByIdAndUpdate. intros E Hl Hk.
  destruct (castObjectId rt i) as [oid|]; [|discriminate].
  destruct (castUpdateId rt (body__id b)) as [?|ui]; [discriminate|].
  destruct (castUpdate _ _ _ "name" _) as [?|un]; [discriminate|].
  destruct (castUpdate _ _ _ "age" _) as [?|ua]; [discriminate|].
  destruct (castUpdate _ _ _ "course" _) as [?|uc] eqn:Euc; [discriminate|].
  destruct (castUpdate _ _ _ "email" _) as [?|ue] eqn:Eue; [discriminate|].
  destruct (castUpdate _ _ _ "grade" _) as [?|ug]; [discriminate|].
  destruct (castUpdate _ _ _ "enrollmentDate" _) as [?|ud]; [discriminate|].
  cbn [bind] in E.
  destruct (updateFailure _ "name" un ++ _) eqn:Eerrs; [|discriminate].
  apply app_eq_nil in Eerrs as [_ Eerrs].
  apply app_eq_nil in Eerrs as [_ Eerrs].
  apply app_eq_nil in Eerrs as [Vc _].
  destruct (lookup oid db) as [old|] eqn:El.
  2:{ injection E as <- <-. auto. }
  destruct (changesId ui old); [discriminate|].
  match type of E with (if ?c then _ else _) = _ =>
    destruct c; [discriminate|] end.
  injection E as <- _.
  apply CollectionFacts.lookup_found in El as [Ho _].
  unfold lowercaseEmails, knownCourses in *.
  rewrite Forall_forall in Hl, Hk.
  split; apply replace_Forall; try (apply Forall_forall; assumption);
    cbn [email course].
  - destruct (castUpdate_string_shape _ _ _ _ _ _ Eue) as [->|[->|(s & ->)]];
      cbn [change stored].
    + now apply Hl.
    + discriminate.
    + intros e He. injection He as <-. unfold applySetters.
      cbn [studentSchema p_email s_trim s_lowercase].
      apply JSFacts.toLowerCase_idem.
  - destruct (castUpdate_string_shape _ _ _ _ _ _ Euc) as [->|[->|(s & ->)]];
      cbn [change stored].
    + now apply Hk.
    + discriminate Vc.
    + unfold updateFailure in Vc.
      rewrite ValidatorFacts.validate_course in Vc.
      destruct (mem (applySetters (p_course studentSchema) s) courseValues)
        eqn:Em.
      * eexists. split; [reflexivity | now apply JSFacts.mem_In].
      * destruct (applySetters (p_course studentSchema) s); discriminate Vc.
Qed.

Lemma remove_Forall (P : Document -> Prop) oid db :
  Forall P db -> Forall P (remove oid db).
Proof.
  intro H. apply Forall_forall. intros x Hx.
  rewrite Forall_forall in H. apply H.
  now apply (CollectionFacts.remove_incl oid).
Qed.

(** Every call keeps identifiers unique, emails in lower case and courses
    among the eight labels. *)
Lemma serve_ok rt c db : ok db -> ok (fst (serve rt c db)).
Proof.
  intros (Hu & Hl & Hk).
  split; [apply (RunFacts.serve_ids rt c db Hu)|].
  destruct c as [[r cx] req]. destruct r; cbn [serve handler].
  - auto.
  - unfold createStudent.
    destruct (create rt cx (body req) db) as [e|[db' doc]] eqn:E.
    + destruct (code_is e 11000); [auto|].
      destruct (name_is e "ValidationError"); auto.
    + now apply (create_keeps rt cx (body req) db db' doc).
  - rewrite RunFacts.fst_getStudentById. auto.
  - unfold updateStudent.
    destruct (findByIdAndUpdate rt cx (id (params req)) (body req) db)
      as [e|[db' r]] eqn:E.
    + destruct (name_is e "ValidationError"); [auto|].
      destruct (name_is e "CastError"); auto.
    + destruct (update_keeps rt cx _ _ db db' r E Hl Hk).
      destruct r; auto.
  - unfold deleteStudent, findByIdAndDelete.
    destruct (castObjectId rt (id (params req))) as [oid|]; [|auto].
    destruct (lookup oid db); cbn [fst ret]; [|auto].
    split; now apply remove_Forall.
  - auto.
Qed.

Lemma run_ok rt calls : forall db, ok db -> ok (run rt calls db).
Proof.
  induction calls as [|c rest IH]; intros db H; [exact H|].
  cbn [run]. apply IH. now apply serve_ok.
Qed.

End InvariantFacts.


(* ================================================================== *)
(** ** Messages of a rejected creation payload *)

Module ReportFacts.
Import SchemaType Student Report.

Lemma create_throws rt cx b db :
  failures rt cx b <> [] ->
  create rt cx b db = inl (ValidationError (arrange cx (failures rt cx b))).
Proof.
  intro H. apply CreateFacts.create_invalid. intro Hv. apply H.
  now apply (CreateFacts.violated_failures rt cx b).
Qed.

(** A recorded entry reaches the errors list of the answer. *)
Lemma createStudent_reports rt cx req db :
  failures rt cx (body req) <> [] ->
  createStudent rt cx req db
  = (db, rejected (map snd (arrange cx (failures rt cx (body req))))).
Proof.
  intro H. unfold createStudent. now rewrite (create_throws rt cx _ db H).
Qed.

Lemma In_nonempty {A : Type} (x : A) (l : list A) : In x l -> l <> [].
Proof. intros H ->. destruct H. Qed.

Lemma reported rt cx req db path msg :
  In (path, msg) (failures rt cx (body req)) ->
  exists msgs,
    createStudent rt cx req db = (db, rejected msgs) /\ In msg msgs.
Proof.
  intro H. exists (map snd (arrange cx (failures rt cx (body req)))). split.
  - apply createStudent_reports. now apply (In_nonempty (path, msg)).
  - apply (in_map snd _ (path, msg)).
    exact (Permutation_in _ (arrange_perm cx _) H).
Qed.

Lemma in_name rt cx b e :
  In e (failure "name"
          (pathString rt (p_name studentSchema) "name" (body_name b))) ->
  In e (failures rt cx b).
Proof. intro H. unfold failures. apply in_or_app. now left. Qed.

Lemma in_age rt cx b e :
  In e (failure "age"
          (pathNumber rt (p_age studentSchema) "age" (body_age b))) ->
  In e (failures rt cx b).
Proof.
  intro H. unfold failures. apply in_or_app. right.
  apply in_or_app. now left.
Qed.

Lemma in_course rt cx b e :
  In e (failure "course"
          (pathString rt (p_course studentSchema) "course" (body_course b))) ->
  In e (failures rt cx b).
Proof.
  intro H. unfold failures. do 2 (apply in_or_app; right).
  apply in_or_app. now left.
Qed.

Lemma in_email rt cx b e :
  In e (failure "email"
          (pathString rt (p_email studentSchema) "email" (body_email b))) ->
  In e (failures rt cx b).
Proof.
  intro H. unfold failures. do 3 (apply in_or_app; right).
  apply in_or_app. now left.
Qed.

Lemma in_grade rt cx b e :
  In e (failure "grade"
          (pathString rt (p_grade studentSchema) "grade" (body_grade b))) ->
  In e (failures rt cx b).
Proof.
  intro H. unfold failures. do 4 (apply in_or_app; right).
  apply in_or_app. now left.
Qed.

End ReportFacts.

(** X1. A create request whose age is a number below 16 or above 100 is
    rejected with status 400, and the errors list holds "Age must be at
    least 16" in the first case and "Age cannot exceed 100" in the second;
    the collection is unchanged. *)
Theorem createStudent_age_out_of_range rt cx req db j n :
  body_age (body req) = Some j ->
  SchemaType.castNumber rt j = Some (Value n) ->
  n < 16 \/ 100 < n ->
  exists msgs,
    createStudent rt cx req db = (db, Report.rejected msgs)
    /\ In (if n <? 16 then "Age must be at least 16"
           else "Age cannot exceed 100") msgs.
Proof.
  intros Hb Hc Hn. apply ReportFacts.reported with (path := "age").
  apply ReportFacts.in_age. unfold Student.pathNumber. rewrite Hb, Hc.
  rewrite (ValidatorFacts.validate_age _ n eq_refl).
  destruct (Z.leb_spec 16 n), (Z.leb_spec n 100), (Z.ltb_spec n 16);
    try lia; cbn; auto.
Qed.

Lemma createStudent_age_out_of_range_witness :
  let b := {| body_name := Some (JStr "Ann Lee"); body_age := Some (JNum 10);
              body_course := Some (JStr "Physics");
              body_email := Some (JStr "ann.lee@example.com");
              body_grade := None; body_enrollmentDate := None;
              body__id := None; body_createdAt := None;
              body_updatedAt := None |} in
  exists msgs,
    createStudent Sample.rt (Sample.at_ 5000 3%N) (Sample.request "" "" b)
      [Sample.johnDoc]
    = ([Sample.johnDoc], Report.rejected msgs)
    /\ In "Age must be at least 16" msgs.
Proof.
  cbv zeta.
  apply (createStudent_age_out_of_range Sample.rt (Sample.at_ 5000 3%N)
           (Sample.request "" ""
              {| body_name := Some (JStr "Ann Lee");
                 body_age := Some (JNum 10);
                 body_course := Some (JStr "Physics");
                 body_email := Some (JStr "ann.lee@example.com");
                 body_grade := None; body_enrollmentDate := None;
                 body__id := None; body_createdAt := None;
                 body_updatedAt := None |})
           [Sample.johnDoc] (JNum 10) 10).
  - reflexivity.
  - reflexivity.
  - left. lia.
Defined.

(** X2. A create request that lacks a required key, or holds [null] there,
    is rejected with status 400, and the errors list names each such key
    with the message the schema declares for it: "Student name is
    required", "Student age is required", "Course is required", "Email is
    required". *)
Theorem createStudent_missing_required rt cx req db :
  Report.missing (body_name (body req))
  \/ Report.missing (body_age (body req))
  \/ Report.missing (body_course (body req))
  \/ Report.missing (body_email (body req)) ->
  exists msgs,
    createStudent rt cx req db = (db, Report.rejected msgs)
    /\ (Report.missing (body_name (body req)) ->
        In "Student name is required" msgs)
    /\ (Report.missing (body_age (body req)) ->
        In "Student age is required" msgs)
    /\ (Report.missing (body_course (body req)) ->
        In "Course is required" msgs)
    /\ (Report.missing (body_email (body req)) ->
        In "Email is required" msgs).
Proof.
  intro H.
  assert (Hn : Report.missing (body_name (body req)) ->
               In ("name", "Student name is required")
                  (Report.failures rt cx (body req))).
  { intro M. apply ReportFacts.in_name.
    destruct M as [-> | ->]; cbn; auto. }
  assert (Ha : Report.missing (body_age (body req)) ->
               In ("age", "Student age is required")
                  (Report.failures rt cx (body req))).
  { intro M. apply ReportFacts.in_age.
    destruct M as [-> | ->]; cbn; auto. }
  assert (Hc : Report.missing (body_course (body req)) ->
               In ("course", "Course is required")
                  (Report.failures rt cx (body req))).
  { intro M. apply ReportFacts.in_course.
    destruct M as [-> | ->]; cbn; auto. }
  assert (He : Report.missing (body_email (body req)) ->
               In ("email", "Email is required")
                  (Report.failures rt cx (body req))).
  { intro M. apply ReportFacts.in_email.
    destruct M as [-> | ->]; cbn; auto. }
  exists (map snd (arrange cx (Report.failures rt cx (body req)))). split.
  - apply ReportFacts.createStudent_reports.
    destruct H as [M|[M|[M|M]]];
      [apply Hn in M | apply Ha in M | apply Hc in M | apply He in M];
      exact (ReportFacts.In_nonempty _ _ M).
  - repeat split; intro M;
      [apply Hn in M | apply Ha in M | apply Hc in M | apply He in M];
      exact (in_map snd _ _ (Permutation_in _ (arrange_perm cx _) M)).
Qed.

Lemma createStudent_missing_required_witness :
  exists msgs,
    createStudent Sample.rt (Sample.at_ 5000 3%N)
      (Sample.request "" "" Sample.noBody) [Sample.johnDoc]
    = ([Sample.johnDoc], Report.rejected msgs)
    /\ In "Student name is required" msgs
    /\ In "Email is required" msgs.
Proof.
  destruct (createStudent_missing_required Sample.rt (Sample.at_ 5000 3%N)
              (Sample.request "" "" Sample.noBody) [Sample.johnDoc])
    as (msgs & E & Hn & _ & _ & He).
  - left. left. reflexivity.
  - exists msgs. split; [exact E|]. split.
    + apply Hn. left. reflexivity.
    + apply He. left. reflexivity.
Defined.

(** X3. A create request whose name is a string is judged on the trimmed
    name: a blank name is reported as "Student name is required", a trimmed
    name of one character as "Name must be at least 2 characters long", one
    of more than 50 characters as "Name cannot exceed 50 characters". *)
Theorem createStudent_name_length rt cx req db s :
  body_name (body req) = Some (JStr s) ->
  (String.length (JS.trim s) < 2)%nat \/ (50 < String.length (JS.trim s))%nat ->
  exists msgs,
    createStudent rt cx req db = (db, Report.rejected msgs)
    /\ In (match String.length (JS.trim s) with
           | O => "Student name is required"
           | S O => "Name must be at least 2 characters long"
           | _ => "Name cannot exceed 50 characters"
           end) msgs.
Proof.
  intros Hb Hl. apply ReportFacts.reported with (path := "name").
  apply ReportFacts.in_name. unfold Student.pathString, SchemaType.setString.
  rewrite Hb. cbn [SchemaType.castString].
  unfold SchemaType.applySetters.
  cbn [studentSchema p_name s_trim s_lowercase].
  rewrite ValidatorFacts.validate_name.
  destruct (JS.trim s) as [|c t]; [cbn; auto|].
  destruct t as [|c' t]; [cbn; auto|].
  cbn [String.length] in *.
  destruct (Nat.leb_spec (S (S (String.length t))) 50); [lia|].
  cbn. auto.
Qed.

Lemma createStudent_name_length_witness :
  let b := {| body_name := Some (JStr "  A  "); body_age := Some (JNum 20);
              body_course := Some (JStr "Physics");
              body_email := Some (JStr "a@example.com");
              body_grade := None; body_enrollmentDate := None;
              body__id := None; body_createdAt := None;
              body_updatedAt := None |} in
  exists msgs,
    createStudent Sample.rt (Sample.at_ 5000 3%N) (Sample.request "" "" b) []
    = ([], Report.rejected msgs)
    /\ In "Name must be at least 2 characters long" msgs.
Proof.
  cbv zeta.
  apply (createStudent_name_length Sample.rt (Sample.at_ 5000 3%N)
           (Sample.request "" ""
              {| body_name := Some (JStr "  A  ");
                 body_age := Some (JNum 20);
                 body_course := Some (JStr "Physics");
                 body_email := Some (JStr "a@example.com");
                 body_grade := None; body_enrollmentDate := None;
                 body__id := None; body_createdAt := None;
                 body_updatedAt := None |})
           [] "  A  ").
  - reflexivity.
  - left. vm_compute. lia.
Defined.

(** X4. A create request whose email is a non-empty string that, once
    lower-cased, does not match the pattern of the schema is rejected with
    status 400 and "Please enter a valid email" in the errors list. *)
Theorem createStudent_invalid_email rt cx req db s :
  body_email (body req) = Some (JStr s) ->
  s <> "" ->
  Regex.matches emailPattern (JS.toLowerCase s) = false ->
  exists msgs,
    createStudent rt cx req db = (db, Report.rejected msgs)
    /\ In "Please enter a valid email" msgs.
Proof.
  intros Hb Hs Hm. apply ReportFacts.reported with (path := "email").
  apply ReportFacts.in_email. unfold Student.pathString, SchemaType.setString.
  rewrite Hb. cbn [SchemaType.castString].
  unfold SchemaType.applySetters.
  cbn [studentSchema p_email s_trim s_lowercase].
  rewrite ValidatorFacts.validate_email, Hm.
  destruct s as [|c s]; [contradiction|]. cbn. auto.
Qed.

Lemma createStudent_invalid_email_witness :
  let b := {| body_name := Some (JStr "Ann Lee"); body_age := Some (JNum 20);
              body_course := Some (JStr "Physics");
              body_email := Some (JStr "ann.lee@example");
              body_grade := None; body_enrollmentDate := None;
              body__id := None; body_createdAt := None;
              body_updatedAt := None |} in
  exists msgs,
    createStudent Sample.rt (Sample.at_ 5000 3%N) (Sample.request "" "" b) []
    = ([], Report.rejected msgs)
    /\ In "Please enter a valid email" msgs.
Proof.
  cbv zeta.
  apply (createStudent_invalid_email Sample.rt (Sample.at_ 5000 3%N)
           (Sample.request "" ""
              {| body_name := Some (JStr "Ann Lee");
                 body_age := Some (JNum 20);
                 body_course := Some (JStr "Physics");
                 body_email := Some (JStr "ann.lee@example");
                 body_grade := None; body_enrollmentDate := None;
                 body__id := None; body_createdAt := None;
                 body_updatedAt := None |})
           [] "ann.lee@example").
  - reflexivity.
  - discriminate.
  - vm_compute. reflexivity.
Defined.

(* ================================================================== *)
(** ** A created student in the following calls *)

Module ComposeFacts.
Import SchemaType Student Constraints Invariant.

Lemma created_inv rt cx req db db' res :
  createStudent rt cx req db = (db', res) ->
  status res = 201 ->
  exists doc,
    create rt cx (body req) db = inr (db', doc) /\ res = Report.created doc.
Proof.
  unfold createStudent.
  destruct (create rt cx (body req) db) as [e|[d1 doc]].
  - destruct (code_is e 11000);
      [|destruct (name_is e "ValidationError")];
      intro H; injection H as <- <-; cbn; discriminate.
  - intro H. injection H as <- <-. intros _. exists doc. auto.
Qed.

Lemma conflicts_email_fresh d db :
  conflicts d db = false -> ~ In (email d) (map email db).
Proof.
  unfold conflicts. intros H Hin.
  apply in_map_iff in Hin as (x & Ex & Hx).
  assert (Hf : existsb (fun x => N.eqb (_id x) (_id d)
                                 || opt_string_eqb (email x) (email d)) db
               = true).
  { apply existsb_exists. exists x. split; [assumption|].
    apply orb_true_iff. right. now apply IndexFacts.opt_string_eqb_eq. }
  rewrite H in Hf. discriminate Hf.
Qed.

Lemma create_success rt cx b db db' doc :
  create rt cx b db = inr (db', doc) ->
  db' = db ++ [doc]
  /\ ~ In (_id doc) (ids db)
  /\ ~ In (email doc) (map email db)
  /\ violated rt b = []
  /\ email doc = emailOf rt (body_email b)
  /\ _id doc = identifierOf rt cx b
  /\ createdAt doc = createdOf rt cx b
  /\ updatedAt doc = createdOf rt cx b.
Proof.
  intro E.
  apply CreateFacts.create_inv in E as (Hv & Hd & Hc & ->).
  destruct (CreateFacts.document_facts rt cx b doc Hd)
    as (Ei & Ec & Eu & (e & Ee & Eo & _) & _).
  split; [reflexivity|].
  split; [now apply RunFacts.conflicts_fresh|].
  split; [now apply conflicts_email_fresh|].
  repeat split; try assumption.
  now rewrite Ee, Eo.
Qed.

Lemma appended_unique db doc :
  uniqueIds db -> ~ In (_id doc) (ids db) -> uniqueIds (db ++ [doc]).
Proof.
  unfold uniqueIds, ids. intros Hu Hf. rewrite map_app. cbn.
  apply NoDup_app; [exact Hu | repeat constructor; intros [] |].
  intros x Hx [<-|[]]. contradiction.
Qed.

Lemma pathString_value rt t path s f :
  pathString rt t path (Some (JStr s)) = inr f ->
  f = Value (applySetters t s).
Proof.
  unfold pathString, setString. cbn [castString].
  destruct (validateString rt t (Value (applySetters t s)));
    [discriminate|]. intro H. now injection H as <-.
Qed.

Lemma pathNumber_value rt t path n f :
  pathNumber rt t path (Some (JNum n)) = inr f -> f = Value n.
Proof.
  unfold pathNumber. cbn [castNumber].
  destruct (validateNumber t (Value n)); [discriminate|].
  intro H. now injection H as <-.
Qed.

(** The fields of a created document are the normalised values of the
    payload. *)
Lemma create_fields rt cx b db db' doc :
  create rt cx b db = inr (db', doc) ->
  (forall s, body_name b = Some (JStr s) -> name doc = Some (JS.trim s))
  /\ (forall n, body_age b = Some (JNum n) -> age doc = Some n)
  /\ (forall s, body_course b = Some (JStr s) -> course doc = Some (JS.trim s))
  /\ (forall s, body_email b = Some (JStr s) ->
                email doc = Some (JS.toLowerCase s))
  /\ (forall s, body_grade b = Some (JStr s) -> grade doc = Some s)
  /\ (body_grade b = None -> grade doc = Some "C")
  /\ (body_enrollmentDate b = None -> enrollmentDate doc = Some (built cx)).
Proof.
  intro H. apply CreateFacts.create_inv in H as (_ & H & _).
  revert H. unfold document.
  destruct (pathString rt (p_name studentSchema) "name" _) as [?|fn] eqn:En;
    [discriminate|].
  destruct (pathNumber _ _ _ _) as [?|fa] eqn:Ea; [discriminate|].
  destruct (pathString rt (p_course studentSchema) "course" _) as [?|fc]
    eqn:Ec; [discriminate|].
  destruct (pathString rt (p_email studentSchema) "email" _) as [?|fe]
    eqn:Ee; [discriminate|].
  destruct (pathString rt (p_grade studentSchema) "grade" _) as [?|fg]
    eqn:Eg; [discriminate|].
  destruct (pathDate rt cx (p_enrollmentDate studentSchema) _ _) as [?|fd]
    eqn:Ed; [discriminate|].
  destruct (pathId _ _ _) as [?|oid]; [discriminate|].
  destruct (pathDate rt cx timestampPath "createdAt" _) as [?|fs];
    [discriminate|].
  destruct (pathDate rt cx timestampPath "updatedAt" _) as [?|fu];
    [discriminate|].
  intro H. injection H as <-.
  cbn [name age course email grade enrollmentDate].
  repeat split.
  - intros s Hs. rewrite Hs in En.
    now rewrite (pathString_value _ _ _ _ _ En).
  - intros n Hn. rewrite Hn in Ea.
    now rewrite (pathNumber_value _ _ _ _ _ Ea).
  - intros s Hs. rewrite Hs in Ec.
    now rewrite (pathString_value _ _ _ _ _ Ec).
  - intros s Hs. rewrite Hs in Ee.
    now rewrite (pathString_value _ _ _ _ _ Ee).
  - intros s Hs. rewrite Hs in Eg.
    now rewrite (pathString_value _ _ _ _ _ Eg).
  - intro Hg. rewrite Hg in Eg.
    now rewrite (CreateFacts.path_grade_default _ _ Eg).
  - intro Hd. rewrite Hd in Ed. cbn in Ed. now injection Ed as <-.
Qed.

(** Sorting with a strictly newest document at the end of the collection
    puts it in front of the sorted rest. *)
Lemma sort_newest l x :
  Forall (fun d => createdAt d < createdAt x) l ->
  sortByCreatedAtDesc (l ++ [x]) = x :: sortByCreatedAtDesc l.
Proof.
  unfold sortByCreatedAtDesc. rewrite fold_right_app.
  change (fold_right insertDesc [] [x]) with [x].
  induction 1 as [|d r Hd Hr IH]; [reflexivity|].
  change (fold_right insertDesc [x] (d :: r))
    with (insertDesc d (fold_right insertDesc [x] r)).
  rewrite IH. cbn [insertDesc fold_right].
  destruct (Z.ltb_spec (createdAt x) (createdAt d)); [lia | reflexivity].
Qed.

End ComposeFacts.

(** X5. Round trip: after a successful create on a collection with unique
    identifiers, a get by an identifier that denotes the new document's
    [_id] (the generated ObjectId, or the [_id] the payload sent) is
    answered with status 200 and exactly the record the create returned. *)
Theorem createStudent_then_get rt cx cx' req req' db db' res :
  Invariant.uniqueIds db ->
  createStudent rt cx req db = (db', res) ->
  status res = 201 ->
  castObjectId rt (id (params req'))
  = Some (Constraints.identifierOf rt cx (body req)) ->
  exists doc,
    res = Report.created doc
    /\ getStudentById rt cx' req' db' = (db', Report.found doc).
Proof.
  intros Hu Hc Hs Hi.
  destruct (ComposeFacts.created_inv rt cx req db db' res Hc Hs)
    as (doc & E & ->).
  destruct (ComposeFacts.create_success rt cx _ db db' doc E)
    as (-> & Hf & _ & _ & _ & Ei & _).
  exists doc. split; [reflexivity|].
  unfold getStudentById, Student.findById, ret. rewrite Hi, <- Ei.
  rewrite (CollectionFacts.lookup_stored (db ++ [doc]) doc).
  - reflexivity.
  - now apply ComposeFacts.appended_unique.
  - apply in_or_app. right. now left.
Qed.

Lemma createStudent_then_get_witness :
  exists doc,
    snd (createStudent Sample.rt (Sample.at_ 5000 9%N)
           (Sample.request "" "" Sample.john) [Sample.maryDoc])
    = Report.created doc
    /\ getStudentById Sample.rt (Sample.at_ 6000 0%N)
         (Sample.request Sample.id9 "" Sample.noBody)
         (fst (createStudent Sample.rt (Sample.at_ 5000 9%N)
                 (Sample.request "" "" Sample.john) [Sample.maryDoc]))
       = (fst (createStudent Sample.rt (Sample.at_ 5000 9%N)
                 (Sample.request "" "" Sample.john) [Sample.maryDoc]),
          Report.found doc).
Proof.
  apply (createStudent_then_get Sample.rt (Sample.at_ 5000 9%N)
           (Sample.at_ 6000 0%N) (Sample.request "" "" Sample.john)
           (Sample.request Sample.id9 "" Sample.noBody) [Sample.maryDoc]).
  - unfold Invariant.uniqueIds. vm_compute. repeat constructor. intros [].
  - apply surjective_pairing.
  - vm_compute. reflexivity.
  - vm_compute. reflexivity.
Defined.

(** X6. The record a successful create returns holds the normalised
    payload: name and course trimmed, email lower-cased, a numeric age and a
    string grade as sent; grade "C" when the key is omitted; as enrollment
    date, when the key is omitted, the clock reading taken when the
    document was built; in [createdAt] the date the payload sent there or,
    when it sent none, the clock reading taken when the document was saved;
    and in [updatedAt] the same value as in [createdAt]. *)
Theorem createStudent_normalises rt cx req db db' res :
  createStudent rt cx req db = (db', res) ->
  status res = 201 ->
  exists doc,
    res = Report.created doc
    /\ (forall s, body_name (body req) = Some (JStr s) ->
                  name doc = Some (JS.trim s))
    /\ (forall n, body_age (body req) = Some (JNum n) -> age doc = Some n)
    /\ (forall s, body_course (body req) = Some (JStr s) ->
                  course doc = Some (JS.trim s))
    /\ (forall s, body_email (body req) = Some (JStr s) ->
                  email doc = Some (JS.toLowerCase s))
    /\ (forall s, body_grade (body req) = Some (JStr s) ->
                  grade doc = Some s)
    /\ (body_grade (body req) = None -> grade doc = Some "C")
    /\ (body_enrollmentDate (body req) = None ->
        enrollmentDate doc = Some (built cx))
    /\ createdAt doc = Constraints.createdOf rt cx (body req)
    /\ (body_createdAt (body req) = None -> createdAt doc = now cx)
    /\ updatedAt doc = createdAt doc.
Proof.
  intros Hc Hs.
  destruct (ComposeFacts.created_inv rt cx req db db' res Hc Hs)
    as (doc & E & ->).
  destruct (ComposeFacts.create_fields rt cx _ db db' doc E)
    as (H1 & H2 & H3 & H4 & H5 & H6 & H7).
  destruct (ComposeFacts.create_success rt cx _ db db' doc E)
    as (_ & _ & _ & _ & _ & _ & Ec & Eu).
  exists doc. repeat split; try assumption.
  - intro Hn. rewrite Ec. unfold Constraints.createdOf. now rewrite Hn.
  - now rewrite Ec, Eu.
Qed.

Lemma createStudent_normalises_witness :
  let b := {| body_name := Some (JStr "  Ann Lee ");
              body_age := Some (JNum 19);
              body_course := Some (JStr " Physics");
              body_email := Some (JStr "Ann.Lee@Example.COM");
              body_grade := None; body_enrollmentDate := None;
              body__id := None; body_createdAt := None;
              body_updatedAt := None |} in
  exists doc,
    snd (createStudent Sample.rt (Sample.later 4990 5000 9%N)
           (Sample.request "" "" b) [])
    = Report.created doc
    /\ name doc = Some "Ann Lee"
    /\ course doc = Some "Physics"
    /\ email doc = Some "ann.lee@example.com"
    /\ grade doc = Some "C"
    /\ enrollmentDate doc = Some 4990
    /\ createdAt doc = 5000
    /\ updatedAt doc = 5000.
Proof.
  cbv zeta.
  destruct (createStudent_normalises Sample.rt (Sample.later 4990 5000 9%N)
              (Sample.request "" ""
                 {| body_name := Some (JStr "  Ann Lee ");
                    body_age := Some (JNum 19);
                    body_course := Some (JStr " Physics");
                    body_email := Some (JStr "Ann.Lee@Example.COM");
                    body_grade := None; body_enrollmentDate := None;
                    body__id := None; body_createdAt := None;
                    body_updatedAt := None |})
              [] _ _ (surjective_pairing _))
    as (doc & E & Hn & _ & Hc & He & _ & Hg & Hd & _ & Hs & Hu).
  - vm_compute. reflexivity.
  - exists doc. split; [exact E|].
    split; [apply (Hn "  Ann Lee "); reflexivity|].
    split; [apply (Hc " Physics"); reflexivity|].
    split; [apply (He "Ann.Lee@Example.COM"); reflexivity|].
    split; [apply Hg; reflexivity|].
    split; [apply Hd; reflexivity|].
    assert (Ec : createdAt doc = 5000) by (apply Hs; reflexivity).
    split; [exact Ec | now rewrite Hu].
Defined.

(** X7. After a successful create, every further create whose payload
    satisfies the field constraints and carries the same email up to letter
    case is answered with status 400 and "Email already exists", and leaves
    the collection as the first create made it. *)
Theorem createStudent_twice rt cx cx' req req' db db' res :
  createStudent rt cx req db = (db', res) ->
  status res = 201 ->
  Constraints.violated rt (body req') = [] ->
  Constraints.emailOf rt (body_email (body req'))
  = Constraints.emailOf rt (body_email (body req)) ->
  createStudent rt cx' req' db' = (db', Report.emailExists).
Proof.
  intros Hc Hs Hv He.
  destruct (ComposeFacts.created_inv rt cx req db db' res Hc Hs)
    as (doc & E & _).
  destruct (ComposeFacts.create_success rt cx _ db db' doc E)
    as (-> & _ & _ & _ & Ee & _).
  destruct (CreateFacts.create_valid rt cx' _ (db ++ [doc]) Hv)
    as (doc2 & _ & Hd & _ & _ & _ & (e & Ee2 & Eo2 & _) & _).
  unfold createStudent. rewrite Hd.
  rewrite (IndexFacts.conflicts_email doc2 (db ++ [doc]) doc);
    [reflexivity | apply in_or_app; right; now left |].
  now rewrite Ee, Ee2, <- Eo2, He.
Qed.

Lemma createStudent_twice_witness :
  let again := {| body_name := Some (JStr "Jon Doe");
                  body_age := Some (JNum 44);
                  body_course := Some (JStr "Arts");
                  body_email := Some (JStr "JOHN.DOE@EXAMPLE.COM");
                  body_grade := None; body_enrollmentDate := None;
                  body__id := None; body_createdAt := None;
                  body_updatedAt := None |} in
  createStudent Sample.rt (Sample.at_ 6000 4%N) (Sample.request "" "" again)
    (fst (createStudent Sample.rt (Sample.at_ 5000 3%N)
            (Sample.request "" "" Sample.john) []))
  = (fst (createStudent Sample.rt (Sample.at_ 5000 3%N)
            (Sample.request "" "" Sample.john) []),
     Report.emailExists).
Proof.
  cbv zeta.
  apply (createStudent_twice Sample.rt (Sample.at_ 5000 3%N)
           (Sample.at_ 6000 4%N) (Sample.request "" "" Sample.john)
           (Sample.request "" ""
              {| body_name := Some (JStr "Jon Doe");
                 body_age := Some (JNum 44);
                 body_course := Some (JStr "Arts");
                 body_email := Some (JStr "JOHN.DOE@EXAMPLE.COM");
                 body_grade := None; body_enrollmentDate := None;
                 body__id := None; body_createdAt := None;
                 body_updatedAt := None |})
           [] _ _ (surjective_pairing _)).
  - vm_compute. reflexivity.
  - vm_compute. reflexivity.
  - vm_compute. reflexivity.
Defined.

(** X8. When the [createdAt] a successful create gives the new record (the
    date the payload sent there or, when it sent none, the time of the
    save) is later than the [createdAt] of every stored student, the next
    list-all answers with the new record first, followed by the students
    stored before in descending order of [createdAt]. *)
Theorem createStudent_listed_first rt cx cx' req req' db db' res :
  createStudent rt cx req db = (db', res) ->
  status res = 201 ->
  Forall (fun d => createdAt d < Constraints.createdOf rt cx (body req)) db ->
  exists doc rest,
    res = Report.created doc
    /\ getAllStudents rt cx' req' db' = (db', Report.listed (doc :: rest))
    /\ Permutation db rest
    /\ StronglySorted Invariant.newerFirst rest.
Proof.
  intros Hc Hs Hn.
  destruct (ComposeFacts.created_inv rt cx req db db' res Hc Hs)
    as (doc & E & ->).
  destruct (ComposeFacts.create_success rt cx _ db db' doc E)
    as (-> & _ & _ & _ & _ & _ & Ec & _).
  exists doc, (Student.sortByCreatedAtDesc db).
  split; [reflexivity|]. split; [|split].
  - unfold getAllStudents, Student.find_sorted, ret.
    rewrite ComposeFacts.sort_newest; [reflexivity|].
    now rewrite Ec.
  - apply CollectionFacts.sort_perm.
  - apply CollectionFacts.sort_sorted.
Qed.

Lemma createStudent_listed_first_witness :
  exists doc rest,
    snd (createStudent Sample.rt (Sample.at_ 5000 3%N)
           (Sample.request "" "" Sample.john) [Sample.maryDoc])
    = Report.created doc
    /\ getAllStudents Sample.rt (Sample.at_ 0 0%N)
         (Sample.request "" "" Sample.noBody)
         (fst (createStudent Sample.rt (Sample.at_ 5000 3%N)
                 (Sample.request "" "" Sample.john) [Sample.maryDoc]))
       = (fst (createStudent Sample.rt (Sample.at_ 5000 3%N)
                 (Sample.request "" "" Sample.john) [Sample.maryDoc]),
          Report.listed (doc :: rest))
    /\ Permutation [Sample.maryDoc] rest
    /\ StronglySorted Invariant.newerFirst rest.
Proof.
  apply (createStudent_listed_first Sample.rt (Sample.at_ 5000 3%N)
           (Sample.at_ 0 0%N)
           (Sample.request "" "" Sample.john)
           (Sample.request "" "" Sample.noBody)
           [Sample.maryDoc] _ _ (surjective_pairing _)).
  - vm_compute. reflexivity.
  - repeat constructor.
Defined.

(** X9. After a successful create whose payload gives the course as a
    string, a list-by-course with that same string as parameter returns the
    new record. *)
Theorem createStudent_then_by_course rt cx cx' req req' db db' res c :
  createStudent rt cx req db = (db', res) ->
  status res = 201 ->
  body_course (body req) = Some (JStr c) ->
  course_param (params req') = c ->
  exists doc l,
    res = Report.created doc
    /\ getStudentsByCourse rt cx' req' db' = (db', Report.listed l)
    /\ In doc l.
Proof.
  intros Hc Hs Hb Hp.
  destruct (ComposeFacts.created_inv rt cx req db db' res Hc Hs)
    as (doc & E & ->).
  destruct (ComposeFacts.create_fields rt cx _ db db' doc E)
    as (_ & _ & Hk & _).
  destruct (ComposeFacts.create_success rt cx _ db db' doc E) as (-> & _).
  eexists doc, _. split; [reflexivity|]. split; [reflexivity|].
  apply filter_In. split; [apply in_or_app; right; now left|].
  apply IndexFacts.opt_string_eqb_eq. rewrite (Hk c Hb), Hp. reflexivity.
Qed.

Lemma createStudent_then_by_course_witness :
  exists doc l,
    snd (createStudent Sample.rt (Sample.at_ 5000 3%N)
           (Sample.request "" "" Sample.john) [Sample.maryDoc])
    = Report.created doc
    /\ getStudentsByCourse Sample.rt (Sample.at_ 0 0%N)
         (Sample.request "" "Computer Science" Sample.noBody)
         (fst (createStudent Sample.rt (Sample.at_ 5000 3%N)
                 (Sample.request "" "" Sample.john) [Sample.maryDoc]))
       = (fst (createStudent Sample.rt (Sample.at_ 5000 3%N)
                 (Sample.request "" "" Sample.john) [Sample.maryDoc]),
          Report.listed l)
    /\ In doc l.
Proof.
  apply (createStudent_then_by_course Sample.rt (Sample.at_ 5000 3%N)
           (Sample.at_ 0 0%N) (Sample.request "" "" Sample.john)
           (Sample.request "" "Computer Science" Sample.noBody)
           [Sample.maryDoc] _ _ "Computer Science" (surjective_pairing _)).
  - vm_compute. reflexivity.
  - reflexivity.
  - reflexivity.
Defined.

(* ================================================================== *)
(** ** What an update and a delete write *)

Module WriteFacts.
Import SchemaType Student Constraints Invariant.

Lemma remove_other oid db x :
  In x db -> _id x <> oid -> In x (remove oid db).
Proof.
  induction db as [|y r IH]; cbn [remove]; [auto|].
  intros [->|H] Hn.
  - destruct (N.eqb_spec (_id x) oid); [contradiction | now left].
  - destruct (N.eqb (_id y) oid); [assumption | right; auto].
Qed.

Lemma remove_length oid db :
  In oid (ids db) -> S (List.length (remove oid db)) = List.length db.
Proof.
  unfold ids. induction db as [|y r IH]; cbn [remove map]; [intros []|].
  intros [E|H].
  - rewrite E, N.eqb_refl. reflexivity.
  - destruct (N.eqb (_id y) oid); [reflexivity|].
    cbn. now rewrite IH.
Qed.

(** An update on an identifier that is not stored writes nothing. *)
Lemma update_unknown rt cx i b db oid :
  castObjectId rt i = Some oid ->
  ~ In oid (ids db) ->
  (findByIdAndUpdate rt cx i b db = inr (db, None)
   \/ (exists p m, findByIdAndUpdate rt cx i b db = inl (CastError p m))
   \/ (exists errs,
         findByIdAndUpdate rt cx i b db = inl (ValidationError errs)))
  /\ (Report.holdsNothing b ->
      findByIdAndUpdate rt cx i b db = inr (db, None)).
Proof.
  intros Hc Hn. unfold findByIdAndUpdate. rewrite Hc.
  rewrite (CollectionFacts.lookup_absent oid db Hn).
  split.
  - destruct (castUpdateId rt (body__id b)) as [e|ui] eqn:Ei.
    { right. left. unfold castUpdateId in Ei.
      destruct (body__id b) as [s|]; [|discriminate Ei].
      destruct (castObjectId rt s); [discriminate Ei|].
      injection Ei as <-. cbn. eauto. }
    destruct (castUpdate _ _ _ "name" _) as [e|un] eqn:En.
    { right. left. unfold castUpdate in En.
      destruct (body_name b) as [j|]; [|discriminate En].
      destruct (setString _ _ j); [discriminate En|].
      injection En as <-. cbn. eauto. }
    destruct (castUpdate _ _ _ "age" _) as [e|ua] eqn:Ea.
    { right. left. unfold castUpdate in Ea.
      destruct (body_age b) as [j|]; [|discriminate Ea].
      destruct (castNumber _ j); [discriminate Ea|].
      injection Ea as <-. cbn. eauto. }
    destruct (castUpdate _ _ _ "course" _) as [e|uc] eqn:Ec.
    { right. left. unfold castUpdate in Ec.
      destruct (body_course b) as [j|]; [|discriminate Ec].
      destruct (setString _ _ j); [discriminate Ec|].
      injection Ec as <-. cbn. eauto. }
    destruct (castUpdate _ _ _ "email" _) as [e|ue] eqn:Ee.
    { right. left. unfold castUpdate in Ee.
      destruct (body_email b) as [j|]; [|discriminate Ee].
      destruct (setString _ _ j); [discriminate Ee|].
      injection Ee as <-. cbn. eauto. }
    destruct (castUpdate _ _ _ "grade" _) as [e|ug] eqn:Eg.
    { right. left. unfold castUpdate in Eg.
      destruct (body_grade b) as [j|]; [|discriminate Eg].
      destruct (setString _ _ j); [discriminate Eg|].
      injection Eg as <-. cbn. eauto. }
    destruct (castUpdate _ _ _ "enrollmentDate" _) as [e|ud] eqn:Ed.
    { right. left. unfold castUpdate in Ed.
      destruct (body_enrollmentDate b) as [j|]; [|discriminate Ed].
      destruct (castDate _ j); [discriminate Ed|].
      injection Ed as <-. cbn. eauto. }
    cbn [bind].
    match goal with |- match ?l with _ => _ end = _ \/ _ =>
      destruct l end; [left; reflexivity | right; right; eauto].
  - intros (H1 & H2 & H3 & H4 & H5 & H6 & H7 & _).
    rewrite H1, H2, H3, H4, H5, H6, H7. reflexivity.
Qed.

End WriteFacts.

(** X11. Update by identifier: a malformed identifier is answered with
    status 400 and "Invalid student ID" whatever the payload; a well-formed
    identifier of no stored student never changes the collection and is
    answered with status 404 "Student not found" or, when the payload is
    rejected first, with status 400; with a payload that holds no key of the
    schema the answer is the 404. *)
Theorem updateStudent_unknown_id rt cx req db :
  (castObjectId rt (id (params req)) = None ->
   updateStudent rt cx req db = (db, Report.invalidId))
  /\ (forall oid,
        castObjectId rt (id (params req)) = Some oid ->
        ~ In oid (map _id db) ->
        fst (updateStudent rt cx req db) = db
        /\ (snd (updateStudent rt cx req db) = Report.notFound
            \/ status (snd (updateStudent rt cx req db)) = 400)
        /\ (Report.holdsNothing (body req) ->
            updateStudent rt cx req db = (db, Report.notFound))).
Proof.
  split.
  - intro Hc. unfold updateStudent, Student.findByIdAndUpdate.
    now rewrite Hc.
  - intros oid Hc Hn.
    destruct (WriteFacts.update_unknown rt cx (id (params req)) (body req)
                db oid Hc Hn) as [H Hempty].
    unfold updateStudent.
    split; [|split].
    + destruct H as [->|[(p & m & ->)|(errs & ->)]]; reflexivity.
    + destruct H as [->|[(p & m & ->)|(errs & ->)]]; cbn; auto.
    + intro He. now rewrite (Hempty He).
Qed.

Lemma updateStudent_unknown_id_witness :
  updateStudent Sample.rt (Sample.at_ 9000 0%N)
    (Sample.request "xyz" "" Sample.john) [Sample.johnDoc]
  = ([Sample.johnDoc], Report.invalidId)
  /\ updateStudent Sample.rt (Sample.at_ 9000 0%N)
       (Sample.request Sample.id9 "" Sample.noBody) [Sample.johnDoc]
     = ([Sample.johnDoc], Report.notFound).
Proof.
  split.
  - apply (proj1 (updateStudent_unknown_id Sample.rt (Sample.at_ 9000 0%N)
                    (Sample.request "xyz" "" Sample.john) [Sample.johnDoc])).
    vm_compute. reflexivity.
  - apply (proj2 (updateStudent_unknown_id Sample.rt (Sample.at_ 9000 0%N)
                    (Sample.request Sample.id9 "" Sample.noBody)
                    [Sample.johnDoc]) 9%N).
    + vm_compute. reflexivity.
    + vm_compute. intros [H|[]]. discriminate H.
    + repeat split.
Defined.

(** X12. Delete by identifier: a malformed identifier is answered with
    status 400 and "Invalid student ID", a well-formed identifier of no
    stored student with status 404 and "Student not found"; in both cases
    the collection is unchanged. *)
Theorem deleteStudent_unknown_id rt cx req db :
  (castObjectId rt (id (params req)) = None ->
   deleteStudent rt cx req db = (db, Report.invalidId))
  /\ (forall oid,
        castObjectId rt (id (params req)) = Some oid ->
        ~ In oid (map _id db) ->
        deleteStudent rt cx req db = (db, Report.notFound)).
Proof.
  unfold deleteStudent, Student.findByIdAndDelete. split.
  - intro Hc. now rewrite Hc.
  - intros oid Hc Hn. rewrite Hc.
    now rewrite (CollectionFacts.lookup_absent oid db Hn).
Qed.

Lemma deleteStudent_unknown_id_witness :
  deleteStudent Sample.rt (Sample.at_ 9000 0%N)
    (Sample.request "xyz" "" Sample.noBody) [Sample.johnDoc]
  = ([Sample.johnDoc], Report.invalidId)
  /\ deleteStudent Sample.rt (Sample.at_ 9000 0%N)
       (Sample.request Sample.id9 "" Sample.noBody) [Sample.johnDoc]
     = ([Sample.johnDoc], Report.notFound).
Proof.
  split.
  - apply (proj1 (deleteStudent_unknown_id Sample.rt (Sample.at_ 9000 0%N)
                    (Sample.request "xyz" "" Sample.noBody)
                    [Sample.johnDoc])).
    vm_compute. reflexivity.
  - apply (proj2 (deleteStudent_unknown_id Sample.rt (Sample.at_ 9000 0%N)
                    (Sample.request Sample.id9 "" Sample.noBody)
                    [Sample.johnDoc]) 9%N).
    + vm_compute. reflexivity.
    + vm_compute. intros [H|[]]. discriminate H.
Defined.

(** X13. An update that sets only the email of a stored student, to a
    well-formed address that another stored student holds, is answered with
    status 500 and "Server Error" (the update handler has no branch for the
    duplicate-key code), and the collection is unchanged. *)
Theorem updateStudent_duplicate_email rt cx req db old other e :
  Invariant.uniqueIds db ->
  In old db ->
  castObjectId rt (id (params req)) = Some (_id old) ->
  body req = Report.onlyEmail e ->
  Regex.matches emailPattern (JS.toLowerCase e) = true ->
  In other db ->
  _id other <> _id old ->
  email other = Some (JS.toLowerCase e) ->
  fst (updateStudent rt cx req db) = db
  /\ status (snd (updateStudent rt cx req db)) = 500
  /\ success (snd (updateStudent rt cx req db)) = false
  /\ message (snd (updateStudent rt cx req db)) = Some "Server Error".
Proof.
  intros Hu Ho Hc Hb Hm Hx Hn He.
  assert (E : Student.findByIdAndUpdate rt cx (id (params req)) (body req) db
              = inl Student.duplicateKey).
  { unfold Student.findByIdAndUpdate. rewrite Hc, Hb.
    cbn [Report.onlyEmail body_name body_age body_course body_email
         body_grade body_enrollmentDate body__id Student.castUpdateId
         Student.castUpdate bind ret
         SchemaType.setString SchemaType.castString Student.updateFailure
         List.app].
    unfold SchemaType.applySetters.
    cbn [studentSchema p_email s_trim s_lowercase].
    rewrite ValidatorFacts.validate_email, Hm. cbn [List.app].
    rewrite (CollectionFacts.lookup_stored db old Hu Ho).
    cbn [Student.changesId].
    match goal with |- (if ?c then _ else _) = _ =>
      assert (Ht : c = true); [|now rewrite Ht] end.
    unfold Student.emailTaken. apply existsb_exists. exists other.
    split; [assumption|]. cbn [_id email Student.change stored].
    apply andb_true_iff. split.
    - apply negb_true_iff. now apply N.eqb_neq.
    - now apply IndexFacts.opt_string_eqb_eq. }
  unfold updateStudent. rewrite E. repeat split.
Qed.

Lemma updateStudent_duplicate_email_witness :
  let out := updateStudent Sample.rt (Sample.at_ 9000 0%N)
               (Sample.request Sample.id1 ""
                  (Report.onlyEmail "Mary@Example.org"))
               [Sample.johnDoc; Sample.maryDoc] in
  fst out = [Sample.johnDoc; Sample.maryDoc]
  /\ status (snd out) = 500
  /\ success (snd out) = false
  /\ message (snd out) = Some "Server Error".
Proof.
  cbv zeta.
  apply (updateStudent_duplicate_email Sample.rt (Sample.at_ 9000 0%N)
           (Sample.request Sample.id1 ""
              (Report.onlyEmail "Mary@Example.org"))
           [Sample.johnDoc; Sample.maryDoc] Sample.johnDoc Sample.maryDoc
           "Mary@Example.org").
  - unfold Invariant.uniqueIds. vm_compute.
    constructor; [intros [H|[]]; discriminate H|].
    constructor; [intros []|constructor].
  - now left.
  - vm_compute. reflexivity.
  - reflexivity.
  - vm_compute. reflexivity.
  - right. now left.
  - discriminate.
  - reflexivity.
Defined.

(** X14. A successful delete removes one record and no other: the
    collection shrinks by one, and every student stored under another
    identifier is still returned by get-by-id, unchanged. *)
Theorem deleteStudent_keeps_others rt cx cx' req req' db d x :
  Invariant.uniqueIds db ->
  In d db ->
  castObjectId rt (id (params req)) = Some (_id d) ->
  In x db ->
  _id x <> _id d ->
  castObjectId rt (id (params req')) = Some (_id x) ->
  exists db',
    deleteStudent rt cx req db = (db', Report.deleted)
    /\ S (List.length db') = List.length db
    /\ getStudentById rt cx' req' db' = (db', Report.found x).
Proof.
  intros Hu Hd Hc Hx Hn Hc'.
  exists (Student.remove (_id d) db). split; [|split].
  - unfold deleteStudent, Student.findByIdAndDelete. rewrite Hc.
    now rewrite (CollectionFacts.lookup_stored db d Hu Hd).
  - apply WriteFacts.remove_length. unfold Invariant.ids. now apply in_map.
  - unfold getStudentById, Student.findById, ret. rewrite Hc'.
    rewrite (CollectionFacts.lookup_stored (Student.remove (_id d) db) x);
      [reflexivity | now apply CollectionFacts.remove_unique |].
    now apply WriteFacts.remove_other.
Qed.

Lemma deleteStudent_keeps_others_witness :
  exists db',
    deleteStudent Sample.rt (Sample.at_ 0 0%N)
      (Sample.request Sample.id1 "" Sample.noBody)
      [Sample.johnDoc; Sample.maryDoc]
    = (db', Report.deleted)
    /\ S (List.length db') = 2%nat
    /\ getStudentById Sample.rt (Sample.at_ 7 0%N)
         (Sample.request Sample.id2 "" Sample.noBody) db'
       = (db', Report.found Sample.maryDoc).
Proof.
  apply (deleteStudent_keeps_others Sample.rt (Sample.at_ 0 0%N)
           (Sample.at_ 7 0%N) (Sample.request Sample.id1 "" Sample.noBody)
           (Sample.request Sample.id2 "" Sample.noBody)
           [Sample.johnDoc; Sample.maryDoc] Sample.johnDoc Sample.maryDoc).
  - unfold Invariant.uniqueIds. vm_compute.
    constructor; [intros [H|[]]; discriminate H|].
    constructor; [intros []|constructor].
  - now left.
  - vm_compute. reflexivity.
  - right. now left.
  - discriminate.
  - vm_compute. reflexivity.
Defined.

(* ================================================================== *)
(** ** What answers look like, and when the collection changes *)

Module EnvelopeFacts.
Import Student.

Ltac leaf :=
  cbn;
  solve [ left; repeat split; try reflexivity; try discriminate
        | right; repeat split; auto; try discriminate ].

End EnvelopeFacts.

(** X16. Every answer of a handler is one of two shapes.  A success has
    [success: true], status 201 on create and 200 elsewhere, carries data
    and neither an errors list nor an error text.  A failure has
    [success: false], status 400, 404 or 500, a message and no data. *)
Theorem handler_envelope r rt cx req db :
  let res := snd (handler r rt cx req db) in
  (success res = true
   /\ status res = match r with POST_students => 201 | _ => 200 end
   /\ data res <> None /\ errors res = None /\ error res = None)
  \/ (success res = false
      /\ (status res = 400 \/ status res = 404 \/ status res = 500)
      /\ data res = None /\ message res <> None).
Proof.
  cbv zeta. destruct r; cbn [handler].
  - EnvelopeFacts.leaf.
  - unfold createStudent.
    destruct (Student.create rt cx (body req) db) as [e|[db' doc]];
      [|EnvelopeFacts.leaf].
    destruct (code_is e 11000); [EnvelopeFacts.leaf|].
    destruct (name_is e "ValidationError"); EnvelopeFacts.leaf.
  - unfold getStudentById.
    destruct (Student.findById rt (id (params req)) db) as [e|[d|]];
      try EnvelopeFacts.leaf.
    destruct (name_is e "CastError"); EnvelopeFacts.leaf.
  - unfold updateStudent.
    destruct (Student.findByIdAndUpdate rt cx (id (params req)) (body req)
                db) as [e|[db' [d|]]]; try EnvelopeFacts.leaf.
    destruct (name_is e "ValidationError"); [EnvelopeFacts.leaf|].
    destruct (name_is e "CastError"); EnvelopeFacts.leaf.
  - unfold deleteStudent.
    destruct (Student.findByIdAndDelete rt (id (params req)) db)
      as [e|[db' [d|]]]; try EnvelopeFacts.leaf.
    destruct (name_is e "CastError"); EnvelopeFacts.leaf.
  - EnvelopeFacts.leaf.
Qed.

(* ================================================================== *)
(** ** The addresses the email pattern accepts *)

Module EmailFacts.
Import Regex RegexFacts Alphabet Stored.

Lemma emailPattern_parts :
  emailPattern
  = Cat wordsPattern
      (Cat (Class (JS.isChar "@"%char))
         (Cat wordsPattern (Plus labelPattern))).
Proof. reflexivity. Qed.

Lemma cat_inv r1 r2 s :
  denotes (Cat r1 r2) s ->
  exists s1 s2, s = (s1 ++ s2)%string /\ denotes r1 s1 /\ denotes r2 s2.
Proof. intro H. inversion H; subst. eauto. Qed.

Lemma class_inv p s :
  denotes (Class p) s -> exists c, s = String c "" /\ p c = true.
Proof. intro H. inversion H; subst. eauto. Qed.

Lemma opt_inv r s : denotes (Opt r) s -> s = "" \/ denotes r s.
Proof.
  unfold Opt. intro H. inversion H; subst; [left | right; assumption].
  match goal with Hd : denotes Eps _ |- _ => now inversion Hd end.
Qed.

Lemma allChars_app p a b :
  allChars p (a ++ b) = allChars p a && allChars p b.
Proof.
  induction a as [|c a IH]; cbn; [reflexivity|].
  now rewrite IH, andb_assoc.
Qed.

Lemma length_app a b :
  String.length (a ++ b) = (String.length a + String.length b)%nat.
Proof. induction a as [|c a IH]; cbn; [reflexivity | now rewrite IH]. Qed.

Lemma denotes_within q r s :
  denotes r s -> within q r -> allChars q s = true.
Proof.
  induction 1; cbn [within]; intro W; try reflexivity.
  - cbn. now rewrite (W c H).
  - destruct W as [W1 W2]. rewrite allChars_app.
    now rewrite IHdenotes1, IHdenotes2.
  - destruct W as [W1 W2]. auto.
  - destruct W as [W1 W2]. auto.
  - rewrite allChars_app. now rewrite IHdenotes1, IHdenotes2.
Qed.

Lemma notAt_count s : allChars notAt s = true -> countChar "@"%char s = 0%nat.
Proof.
  unfold notAt. induction s as [|c s IH]; cbn; [reflexivity|].
  intro H. apply andb_true_iff in H as [H1 H2].
  apply negb_true_iff in H1. rewrite H1. now apply IH.
Qed.

Lemma isWord_notAt c : JS.isWord c = true -> notAt c = true.
Proof.
  destruct c as [[] [] [] [] [] [] [] []]; vm_compute; intro H;
    first [reflexivity | discriminate H].
Qed.

Lemma isDotOrDash_notAt c : JS.isDotOrDash c = true -> notAt c = true.
Proof.
  destruct c as [[] [] [] [] [] [] [] []]; vm_compute; intro H;
    first [reflexivity | discriminate H].
Qed.

Lemma isDot_notAt c : JS.isChar "."%char c = true -> notAt c = true.
Proof.
  destruct c as [[] [] [] [] [] [] [] []]; vm_compute; intro H;
    first [reflexivity | discriminate H].
Qed.

Lemma words_notAt : within notAt wordsPattern.
Proof.
  unfold wordsPattern, Plus, Opt. cbn [within].
  repeat split;
    first [exact isWord_notAt | exact isDotOrDash_notAt].
Qed.

Lemma label_notAt : within notAt labelPattern.
Proof.
  unfold labelPattern, Plus, Opt. cbn [within].
  repeat split; first [exact isWord_notAt | exact isDot_notAt].
Qed.

Lemma isWord_emailChar c : JS.isWord c = true -> emailChar c = true.
Proof. unfold emailChar. now intros ->. Qed.

Lemma isDotOrDash_emailChar c :
  JS.isDotOrDash c = true -> emailChar c = true.
Proof. unfold emailChar. intros ->. now rewrite orb_true_r. Qed.

Lemma isAt_emailChar c :
  JS.isChar "@"%char c = true -> emailChar c = true.
Proof. unfold emailChar. intros ->. now rewrite orb_true_r. Qed.

Lemma isDot_emailChar c :
  JS.isChar "."%char c = true -> emailChar c = true.
Proof.
  unfold JS.isChar. intro H. apply Ascii.eqb_eq in H. now subst c.
Qed.

Lemma email_within : within emailChar emailPattern.
Proof.
  rewrite emailPattern_parts.
  unfold wordsPattern, labelPattern, Plus, Opt. cbn [within].
  repeat split;
    first [exact isWord_emailChar | exact isDotOrDash_emailChar
          | exact isAt_emailChar | exact isDot_emailChar].
Qed.

Lemma words_nonempty s : denotes wordsPattern s -> s <> "".
Proof.
  intros H ->. apply nullable_iff in H. discriminate H.
Qed.

(** A word of [Star r] is empty or ends with a word of [r]. *)
Lemma star_last r s :
  denotes (Star r) s ->
  s = "" \/ exists a b, s = (a ++ b)%string
                        /\ denotes (Star r) a /\ denotes r b.
Proof.
  intro H. remember (Star r) as sr eqn:E. revert r E.
  induction H; intros r0 E; try discriminate E.
  - now left.
  - injection E as ->. right.
    destruct (IHdenotes2 r0 eq_refl) as [->|(a & b & -> & Ha & Hb)].
    + exists "", s1. rewrite append_nil_r. repeat split; [constructor | assumption].
    + exists (s1 ++ a)%string, b. rewrite append_assoc.
      repeat split; [now constructor | assumption].
Qed.

Lemma plus_last r s :
  denotes (Plus r) s ->
  exists a b, s = (a ++ b)%string /\ denotes (Star r) a /\ denotes r b.
Proof.
  unfold Plus. intro H.
  destruct (cat_inv _ _ _ H) as (s1 & s2 & -> & H1 & H2).
  destruct (star_last _ _ H2) as [->|(a & b & -> & Ha & Hb)].
  - exists "", s1. rewrite append_nil_r.
    repeat split; [constructor | assumption].
  - exists (s1 ++ a)%string, b. rewrite append_assoc.
    repeat split; [now constructor | assumption].
Qed.

Lemma label_shape s :
  denotes labelPattern s ->
  exists t, s = String "."%char t
            /\ (2 <= String.length t <= 3)%nat
            /\ allChars JS.isWord t = true.
Proof.
  unfold labelPattern. intro H.
  destruct (cat_inv _ _ _ H) as (d & r1 & -> & Hd & H1).
  destruct (cat_inv _ _ _ H1) as (w1 & r2 & -> & Hw1 & H2).
  destruct (cat_inv _ _ _ H2) as (w2 & r3 & -> & Hw2 & H3).
  destruct (class_inv _ _ Hd) as (cd & -> & Ed).
  destruct (class_inv _ _ Hw1) as (c1 & -> & E1).
  destruct (class_inv _ _ Hw2) as (c2 & -> & E2).
  assert (cd = "."%char) as ->.
  { unfold JS.isChar in Ed. now apply Ascii.eqb_eq in Ed. }
  destruct (opt_inv _ _ H3) as [->|Hw3].
  - exists (String c1 (String c2 "")). cbn. rewrite E1, E2.
    repeat split; lia.
  - destruct (class_inv _ _ Hw3) as (c3 & -> & E3).
    exists (String c1 (String c2 (String c3 ""))). cbn. rewrite E1, E2, E3.
    repeat split; lia.
Qed.

End EmailFacts.

(** X18. Every address the email pattern of the schema accepts has the form
    local@host.label: the local part and the host are not empty and hold no
    at sign, the last label is made of two or three word characters, and
    the whole address consists of word characters, dots, dashes and the one
    at sign. *)
Theorem emailPattern_shape s :
  Regex.matches emailPattern s = true ->
  exists loc host label,
    s = (loc ++ "@" ++ host ++ "." ++ label)%string
    /\ loc <> "" /\ host <> ""
    /\ (2 <= String.length label <= 3)%nat
    /\ Stored.allChars JS.isWord label = true
    /\ Stored.countChar "@"%char loc = 0%nat
    /\ Stored.countChar "@"%char host = 0%nat
    /\ Stored.allChars Stored.emailChar s = true.
Proof.
  intro Hm. apply RegexFacts.matches_iff in Hm.
  pose proof (EmailFacts.denotes_within Stored.emailChar _ _ Hm
                EmailFacts.email_within) as Hall.
  rewrite EmailFacts.emailPattern_parts in Hm.
  destruct (EmailFacts.cat_inv _ _ _ Hm) as (loc & r1 & E1 & Hl & H1).
  destruct (EmailFacts.cat_inv _ _ _ H1) as (a & r2 & E2 & Ha & H2).
  destruct (EmailFacts.cat_inv _ _ _ H2) as (w & r3 & E3 & Hw & H3).
  destruct (EmailFacts.class_inv _ _ Ha) as (c & Ec & Eat).
  assert (c = "@"%char) as ->.
  { unfold JS.isChar in Eat. now apply Ascii.eqb_eq in Eat. }
  destruct (EmailFacts.plus_last _ _ H3) as (ls & l & E4 & Hls & Hlast).
  destruct (EmailFacts.label_shape _ Hlast) as (label & El & Hlen & Hword).
  exists loc, (w ++ ls)%string, label.
  subst s r1 a r2 r3 l.
  repeat split; try assumption; try lia.
  - cbn. now rewrite !RegexFacts.append_assoc.
  - now apply EmailFacts.words_nonempty.
  - intro E. apply RegexFacts.append_eq_nil in E as [E _].
    now apply (EmailFacts.words_nonempty w).
  - apply EmailFacts.notAt_count.
    apply (EmailFacts.denotes_within _ _ _ Hl EmailFacts.words_notAt).
  - apply EmailFacts.notAt_count. rewrite EmailFacts.allChars_app.
    rewrite (EmailFacts.denotes_within _ _ _ Hw EmailFacts.words_notAt).
    apply (EmailFacts.denotes_within _ (Regex.Star Alphabet.labelPattern)
             _ Hls).
    exact EmailFacts.label_notAt.
Qed.

Lemma emailPattern_shape_witness :
  exists loc host label,
    "john.doe@example.com"
    = (loc ++ "@" ++ host ++ "." ++ label)%string
    /\ loc <> "" /\ host <> ""
    /\ (2 <= String.length label <= 3)%nat
    /\ Stored.allChars JS.isWord label = true
    /\ Stored.countChar "@"%char loc = 0%nat
    /\ Stored.countChar "@"%char host = 0%nat
    /\ Stored.allChars Stored.emailChar "john.doe@example.com" = true.
Proof.
  apply emailPattern_shape. vm_compute. reflexivity.
Defined.

(* ================================================================== *)
(** ** Routing *)

Module RouteFacts.
Import Express.

Lemma sameText_nonempty text seg :
  sameText text seg = true -> text <> "" -> seg <> "".
Proof.
  unfold sameText. intros H Ht ->. destruct text; [contradiction|].
  cbn in H. discriminate H.
Qed.

(** With a body the parser accepts, the application answers as the handler
    of the resolved route does. *)
Lemma app_routed rt cx m p pl db r ps :
  (forall diagnostic, pl <> Malformed diagnostic) ->
  resolve m p = Some (ToStudents r, ps) ->
  app rt cx {| method := m; path := p; payload := pl |} db
  = (fst (handler r rt cx
            {| params := ps;
               body := match pl with Parsed b => b | _ => emptyBody end |} db),
     Envelope
       (snd (handler r rt cx
               {| params := ps;
                  body := match pl with Parsed b => b | _ => emptyBody end |}
               db))).
Proof.
  intros Hp Hr. unfold app. cbn [payload method path]. rewrite Hr.
  destruct pl as [|diagnostic|b];
    [|now destruct (Hp diagnostic)|];
    now destruct (handler r rt cx _ db).
Qed.

Lemma app_unrouted rt cx m p pl db :
  (forall diagnostic, pl <> Malformed diagnostic) ->
  resolve m p = None ->
  app rt cx {| method := m; path := p; payload := pl |} db
  = (db, Envelope routeNotFound).
Proof.
  intros Hp Hr. unfold app. cbn [payload method path]. rewrite Hr.
  destruct pl as [|diagnostic|b]; [|now destruct (Hp diagnostic)|];
    reflexivity.
Qed.

End RouteFacts.

(** X19. Routing of the identifier and course paths, for every letter case
    of the literal segments and every body the parser accepts: a GET, PUT or
    DELETE on /api/students/<x> with a non-empty <x> is handled by get, update
    or delete by id with <x> as the identifier, also when <x> is the word
    "course"; a GET on /api/students/course/<y> with a non-empty <y> is
    handled by list-by-course with <y> as the course and is never taken by
    the by-id route registered before it. *)
Theorem app_by_id_and_course rt cx pl db a s x y :
  (forall diagnostic, pl <> Express.Malformed diagnostic) ->
  Express.sameText "api" a = true ->
  Express.sameText "students" s = true ->
  let b := match pl with Express.Parsed b => b | _ => Express.emptyBody end in
  let byId := {| params := {| id := x; course_param := "" |}; body := b |} in
  let byCourse :=
    {| params := {| id := ""; course_param := y |}; body := b |} in
  (x <> "" ->
   Express.app rt cx
     {| Express.method := Express.GET; Express.path := [a; s; x];
        Express.payload := pl |} db
   = (fst (getStudentById rt cx byId db),
      Express.Envelope (snd (getStudentById rt cx byId db)))
   /\ Express.app rt cx
        {| Express.method := Express.PUT; Express.path := [a; s; x];
           Express.payload := pl |} db
      = (fst (updateStudent rt cx byId db),
         Express.Envelope (snd (updateStudent rt cx byId db)))
   /\ Express.app rt cx
        {| Express.method := Express.DELETE; Express.path := [a; s; x];
           Express.payload := pl |} db
      = (fst (deleteStudent rt cx byId db),
         Express.Envelope (snd (deleteStudent rt cx byId db))))
  /\ (Express.sameText "course" x = true -> y <> "" ->
      Express.app rt cx
        {| Express.method := Express.GET; Express.path := [a; s; x; y];
           Express.payload := pl |} db
      = (fst (getStudentsByCourse rt cx byCourse db),
         Express.Envelope (snd (getStudentsByCourse rt cx byCourse db)))).
Proof.
  intros Hp Ha Hs b byId byCourse. split.
  - intro Hx.
    assert (R : forall m r,
               (m, r) = (Express.GET, GET_student)
               \/ (m, r) = (Express.PUT, PUT_student)
               \/ (m, r) = (Express.DELETE, DELETE_student) ->
               Express.resolve m [a; s; x]
               = Some (Express.ToStudents r,
                       {| id := x; course_param := "" |})).
    { intros m r H. unfold Express.resolve, Express.routes.
      destruct x as [|c x']; [contradiction|].
      destruct H as [H|[H|H]]; injection H as -> ->;
        cbn [Express.resolveIn Express.method_eqb Express.matchPath];
        rewrite Ha, Hs; reflexivity. }
    split; [|split].
    + apply (RouteFacts.app_routed rt cx Express.GET [a; s; x] pl db
               GET_student _ Hp). apply R. auto.
    + apply (RouteFacts.app_routed rt cx Express.PUT [a; s; x] pl db
               PUT_student _ Hp). apply R. auto.
    + apply (RouteFacts.app_routed rt cx Express.DELETE [a; s; x] pl db
               DELETE_student _ Hp). apply R. auto.
  - intros Hc Hy.
    apply (RouteFacts.app_routed rt cx Express.GET [a; s; x; y] pl db
             GET_course _ Hp).
    unfold Express.resolve, Express.routes.
    destruct y as [|c y']; [contradiction|].
    cbn [Express.resolveIn Express.method_eqb Express.matchPath].
    rewrite Ha, Hs, Hc.
    destruct x; reflexivity.
Qed.

Lemma app_by_id_and_course_witness :
  Express.app Sample.rt (Sample.at_ 0 0%N)
    {| Express.method := Express.GET;
       Express.path := ["API"; "Students"; "course"];
       Express.payload := Express.NoPayload |} [Sample.maryDoc]
  = ([Sample.maryDoc], Express.Envelope Report.invalidId)
  /\ Express.app Sample.rt (Sample.at_ 0 0%N)
       {| Express.method := Express.GET;
          Express.path := ["api"; "students"; "Course"; "Arts"];
          Express.payload := Express.NoPayload |} [Sample.maryDoc]
     = ([Sample.maryDoc], Express.Envelope (Report.listed [Sample.maryDoc])).
Proof.
  destruct (app_by_id_and_course Sample.rt (Sample.at_ 0 0%N)
              Express.NoPayload [Sample.maryDoc] "API" "Students" "course"
              "x") as [H1 _]; [discriminate | reflexivity | reflexivity |].
  destruct (app_by_id_and_course Sample.rt (Sample.at_ 0 0%N)
              Express.NoPayload [Sample.maryDoc] "api" "students" "Course"
              "Arts") as [_ H2]; [discriminate | reflexivity | reflexivity |].
  split.
  - rewrite (proj1 (H1 ltac:(discriminate))). reflexivity.
  - rewrite (H2 eq_refl ltac:(discriminate)). reflexivity.
Defined.

(** X20. Fallbacks, for every method and path: a body the parser rejects
    is answered by the error middleware with status 500 and "Internal
    Server Error", before any route is tried; otherwise a PATCH, a path of
    more than four segments, a path of one segment, or a path whose first
    segment is not "api" or whose second is not "students" is answered with
    status 404 and "Route not found".  The collection is unchanged. *)
Theorem app_fallbacks rt cx m p pl db :
  (forall diagnostic,
      pl = Express.Malformed diagnostic ->
      Express.app rt cx
        {| Express.method := m; Express.path := p; Express.payload := pl |}
        db
      = (db, Express.Envelope (Express.internalError diagnostic)))
  /\ ((forall diagnostic, pl <> Express.Malformed diagnostic) ->
      m = Express.PATCH
      \/ (4 < List.length p)%nat
      \/ List.length p = 1%nat
      \/ (exists a rest, p = a :: rest /\ Express.sameText "api" a = false)
      \/ (exists a s rest,
             p = a :: s :: rest /\ Express.sameText "students" s = false) ->
      Express.app rt cx
        {| Express.method := m; Express.path := p; Express.payload := pl |}
        db
      = (db, Express.Envelope Express.routeNotFound)).
Proof.
  split.
  - intros diagnostic ->. reflexivity.
  - intros Hp H. apply RouteFacts.app_unrouted; [exact Hp|].
    unfold Express.resolve, Express.routes.
    destruct H as [->|[H|[H|[(a & rest & -> & Ha)|(a & s & rest & -> & Hs)]]]].
    + destruct p; reflexivity.
    + destruct p as [|a [|s [|x [|y [|z rest]]]]]; cbn in H; try lia.
      destruct m;
        cbn [Express.resolveIn Express.method_eqb Express.matchPath];
        destruct (Express.sameText "api" a); try reflexivity;
        destruct (Express.sameText "students" s); try reflexivity;
        destruct x; try reflexivity;
        destruct (Express.sameText "course" _); try reflexivity;
        destruct y; reflexivity.
    + destruct p as [|a [|s rest]]; cbn in H; try discriminate H.
      destruct m;
        cbn [Express.resolveIn Express.method_eqb Express.matchPath];
        destruct (Express.sameText "api" a); reflexivity.
    + destruct m;
        cbn [Express.resolveIn Express.method_eqb Express.matchPath];
        try rewrite Ha; reflexivity.
    + destruct m;
        cbn [Express.resolveIn Express.method_eqb Express.matchPath];
        destruct (Express.sameText "api" a); try reflexivity;
        try rewrite Hs; reflexivity.
Qed.

Lemma app_fallbacks_witness :
  Express.app Sample.rt (Sample.at_ 0 0%N)
    {| Express.method := Express.POST;
       Express.path := ["api"; "students"];
       Express.payload := Express.Malformed "Unexpected token" |}
    [Sample.maryDoc]
  = ([Sample.maryDoc],
     Express.Envelope (Express.internalError "Unexpected token"))
  /\ Express.app Sample.rt (Sample.at_ 0 0%N)
       {| Express.method := Express.GET;
          Express.path := ["api"; "teachers"];
          Express.payload := Express.NoPayload |} [Sample.maryDoc]
     = ([Sample.maryDoc], Express.Envelope Express.routeNotFound).
Proof.
  split.
  - apply (proj1 (app_fallbacks Sample.rt (Sample.at_ 0 0%N) Express.POST
                    ["api"; "students"]
                    (Express.Malformed "Unexpected token") [Sample.maryDoc])
             "Unexpected token").
    reflexivity.
  - apply (proj2 (app_fallbacks Sample.rt (Sample.at_ 0 0%N) Express.GET
                    ["api"; "teachers"] Express.NoPayload [Sample.maryDoc])).
    + discriminate.
    + right. right. right. right.
      exists "api", "teachers", []. split; reflexivity.
Defined.

(** X21. The example student that the home route advertises is a valid
    payload: posted to /api/students on any collection that does not hold
    its email, with an unused generated identifier, it is answered with
    status 201 and stored as sent, with grade "A". *)
Theorem home_example_accepted rt cx db :
  ~ In (Some "john.doe@example.com") (map email db) ->
  ~ In (newObjectId cx) (map _id db) ->
  Express.app rt cx
    {| Express.method := Express.GET; Express.path := [];
       Express.payload := Express.NoPayload |} db
  = (db, Express.Home Express.home)
  /\ exists doc,
       Express.app rt cx
         {| Express.method := Express.POST;
            Express.path := ["api"; "students"];
            Express.payload :=
              Express.Parsed (Express.home_exampleStudent Express.home) |}
         db
       = (db ++ [doc], Express.Envelope (Report.created doc))
       /\ name doc = Some "John Doe"
       /\ age doc = Some 20
       /\ course doc = Some "Computer Science"
       /\ email doc = Some "john.doe@example.com"
       /\ grade doc = Some "A".
Proof.
  intros He Hi. split; [reflexivity|].
  assert (Hv : Constraints.violated rt Express.exampleStudent = [])
    by (vm_compute; reflexivity).
  destruct (CreateFacts.create_valid rt cx _ db Hv)
    as (doc & _ & Hc & Eid & _ & _ & (e & Ee & Eo & _) & _).
  change (_id doc = newObjectId cx) in Eid.
  assert (Ee' : e = "john.doe@example.com").
  { vm_compute in Eo. now injection Eo as <-. }
  subst e.
  assert (Hcr : Student.create rt cx Express.exampleStudent db
                = inr (db ++ [doc], doc)).
  { rewrite Hc. rewrite IndexFacts.conflicts_false;
      [reflexivity | now rewrite Eid | now rewrite Ee]. }
  destruct (ComposeFacts.create_fields rt cx _ db _ doc Hcr)
    as (Fn & Fa & Fc & _ & Fg & _).
  exists doc. split.
  - unfold Express.app.
    cbn [Express.payload Express.method Express.path
         Express.home_exampleStudent Express.home].
    change (Express.resolve Express.POST ["api"; "students"])
      with (Some (Express.ToStudents POST_students,
                  {| id := ""; course_param := "" |})).
    cbn [handler]. unfold createStudent. cbn [body]. rewrite Hcr.
    reflexivity.
  - repeat split.
    + apply (Fn "John Doe"). reflexivity.
    + apply (Fa 20). reflexivity.
    + apply (Fc "Computer Science"). reflexivity.
    + exact Ee.
    + apply (Fg "A"). reflexivity.
Qed.

Lemma home_example_accepted_witness :
  exists doc,
    Express.app Sample.rt (Sample.at_ 5000 3%N)
      {| Express.method := Express.POST;
         Express.path := ["api"; "students"];
         Express.payload :=
           Express.Parsed (Express.home_exampleStudent Express.home) |}
      [Sample.maryDoc]
    = ([Sample.maryDoc] ++ [doc], Express.Envelope (Report.created doc))
    /\ grade doc = Some "A".
Proof.
  destruct (home_example_accepted Sample.rt (Sample.at_ 5000 3%N)
              [Sample.maryDoc])
    as (_ & doc & E & _ & _ & _ & _ & Hg).
  - vm_compute. intros [H|[]]. discriminate H.
  - vm_compute. intros [H|[]]. discriminate H.
  - exists doc. split; assumption.
Defined.
